(** * Repository synchroniser scripts: GitLab cloner and GitHub cloner

  A shallow embedding of [git/gitlab/gitlab_cloner.py], of
  [git/github_repos.py] and of the loop of
  [git/gitlab-clone-repos/gitlab-clone-repos.py].

  - Python strings are [string]; [str.split], [str.join], [str.strip],
    [str.replace] and the [in] substring test are written out.
  - The GitLab REST client, the file system and the [git] subprocesses are
    the environment: every call consults an oracle over an abstract state
    and may return a value or raise an exception.  Each call and each
    logger call is recorded in a trace of events.
  - [while True] loops take fuel; running out of fuel means that the loop
    has not returned yet.
  - The thread pool is a small-step machine whose schedule is chosen by
    the environment. *)

From Stdlib Require Import List String Ascii Bool Arith ZArith Lia Permutation.
From Stdlib Require Import DecimalString.
Import ListNotations.

Local Open Scope string_scope.
Local Open Scope list_scope.

Set Implicit Arguments.

(** ** Python string operations *)

Module PyStr.

Definition slash : ascii := "/"%char.

(** [s.split(sep)] for a one-character separator: never the empty list. *)
Fixpoint split (sep : ascii) (s : string) : list string :=
  match s with
  | EmptyString => [EmptyString]
  | String c s' =>
      if Ascii.eqb c sep then EmptyString :: split sep s'
      else match split sep s' with
           | h :: t => String c h :: t
           | [] => [String c EmptyString]
           end
  end.

(** [sep.join(l)] *)
Fixpoint join (sep : string) (l : list string) : string :=
  match l with
  | [] => EmptyString
  | [x] => x
  | x :: t => x ++ sep ++ join sep t
  end.

(** [c in s] for a character. *)
Fixpoint mem (c : ascii) (s : string) : bool :=
  match s with
  | EmptyString => false
  | String d s' => Ascii.eqb d c || mem c s'
  end.

(** [s.startswith(p)] *)
Fixpoint startswith (p s : string) : bool :=
  match p, s with
  | EmptyString, _ => true
  | String a p', String b s' => Ascii.eqb a b && startswith p' s'
  | String _ _, EmptyString => false
  end.

(** [sub in s] *)
Fixpoint contains (sub s : string) : bool :=
  startswith sub s ||
  match s with
  | EmptyString => false
  | String _ s' => contains sub s'
  end.

(** Python truthiness of a string. *)
Definition truthy (s : string) : bool :=
  match s with EmptyString => false | _ => true end.

(** The white space [str.strip()] removes, on the ASCII range. *)
Definition is_space (c : ascii) : bool :=
  let n := nat_of_ascii c in
  (((9 <=? n) && (n <=? 13)) || ((28 <=? n) && (n <=? 32)))%nat%bool.

Fixpoint lstrip (s : string) : string :=
  match s with
  | EmptyString => EmptyString
  | String c s' => if is_space c then lstrip s' else s
  end.

Fixpoint rstrip (s : string) : string :=
  match s with
  | EmptyString => EmptyString
  | String c s' =>
      match rstrip s' with
      | EmptyString => if is_space c then EmptyString else String c EmptyString
      | r => String c r
      end
  end.

Definition strip (s : string) : string := rstrip (lstrip s).

(** [l[-1]] on a list that [split] returned. *)
Definition last_part (l : list string) : string := last l EmptyString.

Fixpoint drop (n : nat) (s : string) : string :=
  match n, s with
  | O, _ => s
  | S n', String _ s' => drop n' s'
  | S _, EmptyString => EmptyString
  end.

(** [s.replace(old, "")] for a non-empty [old]: left to right, without
    overlap.  The fuel is the length of [s]. *)
Fixpoint remove_all_fuel (fuel : nat) (old s : string) : string :=
  match fuel with
  | O => s
  | S fuel' =>
      match s with
      | EmptyString => EmptyString
      | String c s' =>
          if startswith old s
          then remove_all_fuel fuel' old (drop (String.length old) s)
          else String c (remove_all_fuel fuel' old s')
      end
  end.

Definition remove_all (old s : string) : string :=
  remove_all_fuel (String.length s) old s.

End PyStr.

(** ** Data model *)

Module Namespace.
Record t := { full_path : string; kind : string }.
End Namespace.

(** A project object of the listing API, with the attributes the cloner
    reads. *)
Module Project.
Record t := {
  name : string;
  path : string;
  name_with_namespace : string;
  namespace : Namespace.t;
  ssh_url_to_repo : string
}.
End Project.

Record Group := { group_name : string }.
Record User := { user_name : string }.

Module Config.
Record t := {
  gitlab_url : string;
  gitlab_token : string;
  clone_directory : string;
  namespace : string;
  max_workers : Z;
  per_page : Z
}.
End Config.

(** The authenticated client handle stored in [self.gl]. *)
Inductive Gitlab := GitlabClient.

Record GitLabCloner := {
  config : Config.t;
  gl : option Gitlab
}.

(** [pathlib.Path] values, kept symbolic: [Path(s)] and [p / s]. *)
Inductive Path :=
| PathOf (s : string)
| PathJoin (p : Path) (s : string).

(** ** Exceptions

    The classes derived from [Exception] that the scripts name in an
    [except] clause, and one constructor for each remaining family. *)
Inductive exn :=
| ValueError (msg : string)
| GitlabGetError
| GitlabAuthenticationError
| GitlabOtherError
| TimeoutExpired
| CalledProcessError (returncode : Z) (stderr : string)
| PermissionError
| OtherOSError
| OtherException (msg : string).

Definition is_ValueError (e : exn) : bool :=
  match e with ValueError _ => true | _ => false end.

Definition is_GitlabGetError (e : exn) : bool :=
  match e with GitlabGetError => true | _ => false end.

(** [isinstance(e, gitlab.exceptions.GitlabError)] *)
Definition is_GitlabError (e : exn) : bool :=
  match e with
  | GitlabGetError | GitlabAuthenticationError | GitlabOtherError => true
  | _ => false
  end.

Definition is_TimeoutExpired (e : exn) : bool :=
  match e with TimeoutExpired => true | _ => false end.

Definition is_CalledProcessError (e : exn) : bool :=
  match e with CalledProcessError _ _ => true | _ => false end.

(** [isinstance(e, OSError)]; [PermissionError] is a subclass. *)
Definition is_OSError (e : exn) : bool :=
  match e with PermissionError | OtherOSError => true | _ => false end.

(** [str(e)], up to the wording of library messages. *)
Definition str_of_exn (e : exn) : string :=
  match e with
  | ValueError m => m
  | GitlabGetError => "GitlabGetError"
  | GitlabAuthenticationError => "GitlabAuthenticationError"
  | GitlabOtherError => "GitlabError"
  | TimeoutExpired => "TimeoutExpired"
  | CalledProcessError _ _ => "CalledProcessError"
  | PermissionError => "PermissionError"
  | OtherOSError => "OSError"
  | OtherException m => m
  end.

(** ** Events: what the program asks of its environment *)

Inductive api_request :=
| ReqGroupsGet (group_path : string)
| ReqUsersList (username : string)
| ReqProjectsList (owned : bool) (page per_page : Z)
| ReqGroupProjectsList (g : Group) (page per_page : Z) (include_subgroups : bool).

(** One [subprocess.run] call. *)
Record command := {
  argv : list string;
  cwd : Path;
  check : bool;
  timeout : option Z
}.

Inductive level := DEBUG | INFO | WARNING | ERROR.

Inductive logarg :=
| AStr (s : string)
| AInt (z : Z)
| APath (p : Path)
| AExn (e : exn).

Inductive event :=
| EvApi (r : api_request)
| EvMkdir (p : Path)
| EvExists (p : Path)
| EvChdir (p : Path)
| EvRun (c : command)
| EvLog (lvl : level) (fmt : string) (args : list logarg).

(** How a call ends. [OutOfFuel]: a [while True] loop has not returned
    within the fuel given.  [Blocked]: a child process without a timeout
    never exits. *)
Inductive outcome (A : Type) :=
| Return (a : A)
| Raise (e : exn)
| OutOfFuel
| Blocked.

Arguments Return {A} a.
Arguments Raise {A} e.
Arguments OutOfFuel {A}.
Arguments Blocked {A}.

(** What the operating system reports for a child process. *)
Inductive proc_outcome :=
| Exited (returncode : Z) (stdout stderr : string)
| NotExited
| SpawnFailed (e : exn).

Record CompletedProcess := {
  cp_returncode : Z;
  cp_stdout : string;
  cp_stderr : string
}.

(** What a call to the environment gives back: a value, or an exception. *)
Definition reply (A : Type) : Type := (A + exn)%type.

(** The environment: the GitLab server behind the client, the file system
    and the [git] binary, over a state [World] of its own. *)
Record Env (World : Type) := {
  groups_get : string -> World -> reply Group * World;
  users_list : string -> World -> reply (list User) * World;
  projects_list : bool -> Z -> Z -> World -> reply (list Project.t) * World;
  group_projects_list :
    Group -> Z -> Z -> World -> reply (list Project.t) * World;
  path_mkdir : Path -> World -> reply unit * World;
  path_exists : Path -> World -> reply bool * World;
  os_chdir : Path -> World -> reply unit * World;
  spawn : command -> World -> proc_outcome * World
}.

(** ** The effect monad: state passing over the world, with a trace *)

Definition M (World A : Type) : Type :=
  World -> outcome A * World * list event.

Definition ret {W A} (a : A) : M W A := fun w => (Return a, w, []).

Definition raise {W A} (e : exn) : M W A := fun w => (Raise e, w, []).

Definition out_of_fuel {W A} : M W A := fun w => (OutOfFuel, w, []).

Definition bind {W A B} (m : M W A) (k : A -> M W B) : M W B :=
  fun w =>
    match m w with
    | (Return a, w', t) =>
        match k a w' with (o, w'', t') => (o, w'', t ++ t') end
    | (Raise e, w', t) => (Raise e, w', t)
    | (OutOfFuel, w', t) => (OutOfFuel, w', t)
    | (Blocked, w', t) => (Blocked, w', t)
    end.

(** [try: m  except ...:] where [handler e] is the body of the first
    [except] clause that matches [e], if there is one. *)
Definition try_except {W A} (m : M W A) (handler : exn -> option (M W A))
  : M W A :=
  fun w =>
    match m w with
    | (Raise e, w', t) =>
        match handler e with
        | Some h => match h w' with (o, w'', t') => (o, w'', t ++ t') end
        | None => (Raise e, w', t)
        end
    | r => r
    end.

(** One call to the environment, recorded as [ev]. *)
Definition call {W A} (ev : event) (f : W -> reply A * W) : M W A :=
  fun w =>
    match f w with
    | (inl a, w') => (Return a, w', [ev])
    | (inr e, w') => (Raise e, w', [ev])
    end.

Definition log {W} (lvl : level) (fmt : string) (args : list logarg)
  : M W unit :=
  fun w => (Return tt, w, [EvLog lvl fmt args]).

Declare Scope py_scope.
Delimit Scope py_scope with py.
Notation "x <- m ;; k" := (bind m (fun x => k))
  (at level 61, m at next level, right associativity) : py_scope.
Notation "m ;; k" := (bind m (fun _ => k))
  (at level 61, right associativity) : py_scope.
Local Open Scope py_scope.

Definition is_log (ev : event) : bool :=
  match ev with EvLog _ _ _ => true | _ => false end.

(** The calls of a trace, without the log lines. *)
Definition actions (t : list event) : list event :=
  filter (fun ev => negb (is_log ev)) t.

Fixpoint api_requests (t : list event) : list api_request :=
  match t with
  | [] => []
  | EvApi r :: t' => r :: api_requests t'
  | _ :: t' => api_requests t'
  end.

Fixpoint commands (t : list event) : list command :=
  match t with
  | [] => []
  | EvRun c :: t' => c :: commands t'
  | _ :: t' => commands t'
  end.

Fixpoint warnings (t : list event) : list string :=
  match t with
  | [] => []
  | EvLog WARNING fmt _ :: t' => fmt :: warnings t'
  | _ :: t' => warnings t'
  end.

(** The page numbers of the page requests of a trace. *)
Fixpoint pages_requested (t : list event) : list Z :=
  match t with
  | [] => []
  | EvApi (ReqProjectsList _ page _) :: t' => page :: pages_requested t'
  | EvApi (ReqGroupProjectsList _ page _ _) :: t' => page :: pages_requested t'
  | _ :: t' => pages_requested t'
  end.

(** Python's [len] and truthiness of a list. *)
Definition len {A} (l : list A) : Z := Z.of_nat (List.length l).

Definition nonempty {A} (l : list A) : bool :=
  match l with [] => false | _ => true end.

(** What one pass through the body of a [while True] loop decides. *)
Inductive loop_step (S R : Type) :=
| Break (r : R)
| Continue (s : S).

Arguments Break {S R} r.
Arguments Continue {S R} s.

Section Cloner.

Variable World : Type.
Variable env : Env World.
Variable self : GitLabCloner.

(** *** The client calls *)

Definition gl_groups_get (namespace : string) : M World Group :=
  call (EvApi (ReqGroupsGet namespace)) (groups_get env namespace).

Definition gl_users_list (username : string) : M World (list User) :=
  call (EvApi (ReqUsersList username)) (users_list env username).

Definition gl_projects_list (owned : bool) (page per_page : Z)
  : M World (list Project.t) :=
  call (EvApi (ReqProjectsList owned page per_page))
       (projects_list env owned page per_page).

Definition group_projects_list_call (g : Group) (page per_page : Z)
  : M World (list Project.t) :=
  call (EvApi (ReqGroupProjectsList g page per_page true))
       (group_projects_list env g page per_page).

(** *** Remote Project Lister *)

(** [GitLabCloner.detect_namespace_type] *)
Definition detect_namespace_type (namespace : string) : M World string :=
  if negb (PyStr.truthy namespace) then
    raise (ValueError "Namespace cannot be empty")
  else
    match gl self with
    | None => raise (ValueError "GitLab client not authenticated")
    | Some _ =>
        try_except
          (as_group <-
             try_except
               (group <- gl_groups_get namespace ;;
                log INFO "Detected '%s' as a group: %s"
                    [AStr namespace; AStr (group_name group)] ;;
                ret (Some "group"))
               (fun e => if is_GitlabGetError e then Some (ret None)
                         else None) ;;
           match as_group with
           | Some r => ret r
           | None =>
               as_user <-
                 try_except
                   (user <- gl_users_list namespace ;;
                    match user with
                    | u0 :: _ =>
                        log INFO "Detected '%s' as a user: %s"
                            [AStr namespace; AStr (user_name u0)] ;;
                        ret (Some "user")
                    | [] => ret None
                    end)
                   (fun e => if is_GitlabGetError e then Some (ret None)
                             else None) ;;
               match as_user with
               | Some r => ret r
               | None =>
                   raise (ValueError ("Namespace '" ++ namespace
                                      ++ "' not found or not accessible"))
               end
           end)
          (fun e =>
             if is_GitlabError e then
               Some (log ERROR "Error detecting namespace type: %s" [AExn e] ;;
                     raise e)
             else None)
    end.

(** One pass through the loop of [get_user_projects]. *)
Definition get_user_projects_body (username : string)
           (projects : list Project.t) (page : Z)
  : M World (loop_step (list Project.t * Z) (list Project.t)) :=
  try_except
    (page_projects <-
       gl_projects_list true page (Config.per_page (config self)) ;;
     if negb (nonempty page_projects)
        || (len page_projects <? Config.per_page (config self))%Z
     then
       if nonempty page_projects then
         log INFO "Fetched page %s, found %s owned projects (final page)"
             [AInt page; AInt (len page_projects)] ;;
         ret (Break (projects ++ page_projects))
       else ret (Break projects)
     else
       let projects := projects ++ page_projects in
       log INFO "Fetched page %s, found %s owned projects"
           [AInt page; AInt (len page_projects)] ;;
       let page := (page + 1)%Z in
       if (page >? 50)%Z then
         log WARNING
             "Reached maximum page limit (50) for user %s, stopping pagination"
             [AStr username] ;;
         ret (Break projects)
       else ret (Continue (projects, page)))
    (fun e =>
       if is_GitlabError e then
         Some (log ERROR "Error fetching owned projects page %s: %s"
                   [AInt page; AExn e] ;;
               ret (Break projects))
       else None).

Fixpoint get_user_projects_loop (fuel : nat) (username : string)
         (projects : list Project.t) (page : Z) : M World (list Project.t) :=
  match fuel with
  | O => out_of_fuel
  | S fuel' =>
      r <- get_user_projects_body username projects page ;;
      match r with
      | Break ps => ret ps
      | Continue (ps, pg) => get_user_projects_loop fuel' username ps pg
      end
  end.

(** [GitLabCloner.get_user_projects] *)
Definition get_user_projects (fuel : nat) (username : string)
  : M World (list Project.t) :=
  match gl self with
  | None => raise (ValueError "GitLab client not authenticated")
  | Some _ =>
      log INFO "Fetching owned projects for user: %s" [AStr username] ;;
      log INFO "Using owned=True approach to avoid GitLab API pagination issues"
          [] ;;
      projects <- get_user_projects_loop fuel username [] 1%Z ;;
      log INFO "Total owned projects found: %s" [AInt (len projects)] ;;
      ret projects
  end.

(** One pass through the loop of [get_group_projects_by_namespace]. *)
Definition get_group_projects_by_namespace_body (group_path : string)
           (group : Group) (projects : list Project.t) (page : Z)
  : M World (loop_step (list Project.t * Z) (list Project.t)) :=
  try_except
    (page_projects <-
       group_projects_list_call group page (Config.per_page (config self)) ;;
     if negb (nonempty page_projects)
        || (len page_projects <? Config.per_page (config self))%Z
     then
       if nonempty page_projects then
         log INFO "Fetched page %s, found %s group projects (final page)"
             [AInt page; AInt (len page_projects)] ;;
         ret (Break (projects ++ page_projects))
       else ret (Break projects)
     else
       let projects := projects ++ page_projects in
       log INFO "Fetched page %s, found %s group projects"
           [AInt page; AInt (len page_projects)] ;;
       let page := (page + 1)%Z in
       if (page >? 1000)%Z then
         log WARNING
             "Reached maximum page limit (1000) for group %s, stopping pagination"
             [AStr group_path] ;;
         ret (Break projects)
       else ret (Continue (projects, page)))
    (fun e =>
       if is_GitlabError e then
         Some (log ERROR "Error fetching group projects page %s: %s"
                   [AInt page; AExn e] ;;
               ret (Break projects))
       else None).

Fixpoint get_group_projects_by_namespace_loop (fuel : nat)
         (group_path : string) (group : Group)
         (projects : list Project.t) (page : Z) : M World (list Project.t) :=
  match fuel with
  | O => out_of_fuel
  | S fuel' =>
      r <- get_group_projects_by_namespace_body group_path group projects page ;;
      match r with
      | Break ps => ret ps
      | Continue (ps, pg) =>
          get_group_projects_by_namespace_loop fuel' group_path group ps pg
      end
  end.

(** [GitLabCloner.get_group_projects_by_namespace] *)
Definition get_group_projects_by_namespace (fuel : nat) (group_path : string)
  : M World (list Project.t) :=
  match gl self with
  | None => raise (ValueError "GitLab client not authenticated")
  | Some _ =>
      log INFO "Fetching projects for group: %s" [AStr group_path] ;;
      found <-
        try_except
          (group <- gl_groups_get group_path ;; ret (Some group))
          (fun e =>
             if is_GitlabGetError e then
               Some (log ERROR "Group '%s' not found: %s"
                         [AStr group_path; AExn e] ;;
                     ret None)
             else None) ;;
      match found with
      | None => ret []
      | Some group =>
          projects <-
            get_group_projects_by_namespace_loop fuel group_path group [] 1%Z ;;
          log INFO "Total group projects found: %s" [AInt (len projects)] ;;
          ret projects
      end
  end.

(** One pass through the loop of [get_group_projects]. *)
Definition get_group_projects_body (projects : list Project.t) (page : Z)
  : M World (loop_step (list Project.t * Z) (list Project.t)) :=
  try_except
    (page_projects <-
       gl_projects_list false page (Config.per_page (config self)) ;;
     if negb (nonempty page_projects) then ret (Break projects)
     else
       let group_projects :=
         filter (fun p => String.eqb (Namespace.kind (Project.namespace p))
                                     "group")
                page_projects in
       let projects := projects ++ group_projects in
       log INFO "Fetched page %s, found %s group projects"
           [AInt page; AInt (len group_projects)] ;;
       let page := (page + 1)%Z in
       ret (Continue (projects, page)))
    (fun e =>
       if is_GitlabError e then
         Some (log ERROR "Error fetching page %s: %s" [AInt page; AExn e] ;;
               ret (Break projects))
       else None).

Fixpoint get_group_projects_loop (fuel : nat)
         (projects : list Project.t) (page : Z) : M World (list Project.t) :=
  match fuel with
  | O => out_of_fuel
  | S fuel' =>
      r <- get_group_projects_body projects page ;;
      match r with
      | Break ps => ret ps
      | Continue (ps, pg) => get_group_projects_loop fuel' ps pg
      end
  end.

(** [GitLabCloner.get_group_projects] *)
Definition get_group_projects (fuel : nat) : M World (list Project.t) :=
  match gl self with
  | None => raise (ValueError "GitLab client not authenticated")
  | Some _ =>
      log INFO "Fetching projects from GitLab..." [] ;;
      projects <- get_group_projects_loop fuel [] 1%Z ;;
      log INFO "Total group projects found: %s" [AInt (len projects)] ;;
      ret projects
  end.

(** [GitLabCloner.get_namespace_projects]; every exception modelled is an
    [Exception], so the last [except] clause takes what the first two
    leave. *)
Definition get_namespace_projects (fuel : nat) : M World (list Project.t) :=
  if negb (PyStr.truthy (Config.namespace (config self))) then
    log WARNING "No namespace specified, falling back to all group projects"
        [] ;;
    get_group_projects fuel
  else
    try_except
      (namespace_type <- detect_namespace_type (Config.namespace (config self)) ;;
       if String.eqb namespace_type "user" then
         get_user_projects fuel (Config.namespace (config self))
       else if String.eqb namespace_type "group" then
         get_group_projects_by_namespace fuel (Config.namespace (config self))
       else
         log ERROR "Unknown namespace type: %s" [AStr namespace_type] ;;
         ret [])
      (fun e =>
         if is_ValueError e then
           Some (log ERROR "Namespace error: %s" [AExn e] ;; ret [])
         else if is_GitlabError e then
           Some (log ERROR "GitLab API error getting namespace projects: %s"
                     [AExn e] ;;
                 ret [])
         else
           Some (log ERROR "Unexpected error getting namespace projects: %s"
                     [AExn e] ;;
                 ret [])).

(** *** Path Mapper *)

(** [GitLabCloner.get_relative_namespace_path] *)
Definition get_relative_namespace_path (full_namespace_path : string)
  : string :=
  if negb (PyStr.truthy (Config.namespace (config self))) then
    full_namespace_path
  else
    let path_parts := PyStr.split PyStr.slash full_namespace_path in
    if nonempty path_parts
       && String.eqb (hd EmptyString path_parts)
                     (Config.namespace (config self))
    then
      let relative_parts := tl path_parts in
      if nonempty relative_parts then PyStr.join "/" relative_parts
      else EmptyString
    else full_namespace_path.

(** *** Sync Executor *)

(** [subprocess.run(argv, cwd=..., check=..., timeout=...)] *)
Definition subprocess_run (c : command) : M World CompletedProcess :=
  fun w =>
    match spawn env c w with
    | (Exited rc out err, w') =>
        if check c && negb (rc =? 0)%Z
        then (Raise (CalledProcessError rc err), w', [EvRun c])
        else (Return {| cp_returncode := rc; cp_stdout := out;
                        cp_stderr := err |}, w', [EvRun c])
    | (NotExited, w') =>
        match timeout c with
        | Some _ => (Raise TimeoutExpired, w', [EvRun c])
        | None => (Blocked, w', [EvRun c])
        end
    | (SpawnFailed e, w') => (Raise e, w', [EvRun c])
    end.

(** [Path.mkdir(parents=True, exist_ok=True)] *)
Definition mkdir (p : Path) : M World unit :=
  call (EvMkdir p) (path_mkdir env p).

(** [Path.exists()] *)
Definition exists_ (p : Path) : M World bool :=
  call (EvExists p) (path_exists env p).

Definition git (args : list string) (dir : Path) (chk : bool) (secs : Z)
  : command :=
  {| argv := "git" :: args; cwd := dir; check := chk; timeout := Some secs |}.

Definition subprocess_error (e : exn) : bool :=
  is_CalledProcessError e || is_TimeoutExpired e.

(** The [for branch in [...]] loop of [get_default_branch]. *)
Fixpoint probe_branches (repo_path : Path) (branches : list string)
  : M World (option string) :=
  match branches with
  | [] => ret None
  | branch :: rest =>
      found <-
        try_except
          (subprocess_run (git ["checkout"; branch] repo_path true 30) ;;
           ret (Some branch))
          (fun e => if subprocess_error e then Some (ret None) else None) ;;
      match found with
      | Some b => ret (Some b)
      | None => probe_branches repo_path rest
      end
  end.

(** [GitLabCloner.get_default_branch] *)
Definition get_default_branch (repo_path : Path) : M World (option string) :=
  try_except
    (result <-
       subprocess_run
         (git ["symbolic-ref"; "refs/remotes/origin/HEAD"] repo_path true 30) ;;
     ret (Some (PyStr.last_part
                  (PyStr.split PyStr.slash (PyStr.strip (cp_stdout result))))))
    (fun e =>
       if subprocess_error e
       then Some (probe_branches repo_path ["main"; "master"; "develop"])
       else None).

(** Python truthiness of an [Optional[str]]. *)
Definition truthy_opt (o : option string) : bool :=
  match o with Some s => PyStr.truthy s | None => false end.

(** The test on [str(e.stderr)] that recognises an empty remote. *)
Definition empty_repository_stderr (stderr : string) : bool :=
  PyStr.contains "does not appear to be a git repository" stderr
  || PyStr.contains
       "remote: warning: You appear to have cloned an empty repository" stderr
  || PyStr.contains "warning: You appear to have cloned an empty repository"
       stderr.

Definition target_dir_of (project : Project.t) : Path :=
  let relative_namespace_path :=
    get_relative_namespace_path
      (Namespace.full_path (Project.namespace project)) in
  if PyStr.truthy relative_namespace_path
  then PathJoin (PathOf (Config.clone_directory (config self)))
                relative_namespace_path
  else PathOf (Config.clone_directory (config self)).

Definition project_dir_of (project : Project.t) : Path :=
  PathJoin (target_dir_of project) (Project.path project).

(** The branch of [safe_clone_project] for a repository that exists. *)
Definition update_existing (project : Project.t) : M World bool :=
  let project_dir := project_dir_of project in
  log INFO "Updating existing repository: %s"
      [AStr (Project.name_with_namespace project)] ;;
  default_branch <- get_default_branch project_dir ;;
  if truthy_opt default_branch then
    subprocess_run
      (git ["checkout"; match default_branch with Some b => b | None => "" end]
           project_dir true 60) ;;
    subprocess_run (git ["pull"] project_dir true 60) ;;
    ret true
  else
    try_except
      (result <- subprocess_run (git ["branch"; "-r"] project_dir false 30) ;;
       if negb (PyStr.truthy (PyStr.strip (cp_stdout result))) then
         log INFO "Empty repository detected (no branches): %s"
             [AStr (Project.name_with_namespace project)] ;;
         ret true
       else
         log WARNING "Could not determine default branch for %s"
             [AStr (Project.name project)] ;;
         ret false)
      (fun e =>
         if is_CalledProcessError e then
           Some (log WARNING "Could not determine default branch for %s"
                     [AStr (Project.name project)] ;;
                 ret false)
         else None).

(** The branch of [safe_clone_project] for a repository that is absent. *)
Definition clone_new (project : Project.t) : M World bool :=
  let target_dir := target_dir_of project in
  let project_dir := project_dir_of project in
  let repo_url := Project.ssh_url_to_repo project in
  log INFO "Cloning new repository: %s"
      [AStr (Project.name_with_namespace project)] ;;
  try_except
    (subprocess_run
       {| argv := ["git"; "clone"; repo_url]; cwd := target_dir;
          check := true; timeout := Some 300%Z |} ;;
     default_branch <- get_default_branch project_dir ;;
     if negb (truthy_opt default_branch) then
       log WARNING "Could not set up default branch for %s"
           [AStr (Project.name project)]
     else ret tt)
    (fun e =>
       match e with
       | CalledProcessError _ stderr =>
           Some
             (if empty_repository_stderr stderr then
                log INFO
                    "Empty repository detected for %s, creating empty folder"
                    [AStr (Project.name_with_namespace project)] ;;
                mkdir project_dir ;;
                subprocess_run (git ["init"] project_dir true 30) ;;
                subprocess_run
                  (git ["remote"; "add"; "origin"; repo_url]
                       project_dir true 30) ;;
                log INFO "Empty repository setup completed for %s"
                    [AStr (Project.name_with_namespace project)]
              else raise e)
       | _ => None
       end) ;;
  ret true.

(** The [try] block of [safe_clone_project]. *)
Definition sync_body (project : Project.t) : M World bool :=
  let target_dir := target_dir_of project in
  let project_dir := project_dir_of project in
  mkdir target_dir ;;
  log DEBUG "Folder structure: %s -> %s"
      [AStr (Namespace.full_path (Project.namespace project));
       AStr (let r := get_relative_namespace_path
                        (Namespace.full_path (Project.namespace project)) in
             if PyStr.truthy r then r else "(root)")] ;;
  log DEBUG "Target directory: %s" [APath target_dir] ;;
  log DEBUG "Project directory: %s" [APath project_dir] ;;
  log DEBUG "Display name: '%s' -> Path: '%s'"
      [AStr (Project.name project); AStr (Project.path project)] ;;
  present <- exists_ project_dir ;;
  if present then update_existing project else clone_new project.

(** The [except] clauses of [safe_clone_project], in their order. *)
Definition sync_handlers (project : Project.t) (e : exn)
  : option (M World bool) :=
  if is_TimeoutExpired e then
    Some (log ERROR "Timeout while processing %s"
              [AStr (Project.name project)] ;;
          ret false)
  else if is_CalledProcessError e then
    Some (log ERROR "Git operation failed for %s: %s"
              [AStr (Project.name project); AExn e] ;;
          match e with
          | CalledProcessError _ stderr =>
              if PyStr.truthy stderr
              then log ERROR "Git error output: %s" [AStr stderr]
              else ret tt
          | _ => ret tt
          end ;;
          ret false)
  else if is_OSError e then
    Some (log ERROR "File system error processing %s: %s"
              [AStr (Project.name project); AExn e] ;;
          ret false)
  else
    Some (log ERROR "Unexpected error processing %s: %s"
              [AStr (Project.name project); AExn e] ;;
          ret false).

(** [GitLabCloner.safe_clone_project] *)
Definition safe_clone_project (project : Project.t) : M World bool :=
  try_except (sync_body project) (sync_handlers project).

(** The tuple a worker hands back: name, success flag, error text. *)
Definition sync_outcome : Type := (string * bool * option string)%type.

(** [GitLabCloner.clone_project_parallel] *)
Definition clone_project_parallel (project : Project.t)
  : M World sync_outcome :=
  try_except
    (success <- safe_clone_project project ;;
     if success then
       log INFO "Successfully processed: %s"
           [AStr (Project.name_with_namespace project)] ;;
       ret (Project.name_with_namespace project, true, None)
     else
       log WARNING "Partially processed: %s"
           [AStr (Project.name_with_namespace project)] ;;
       ret (Project.name_with_namespace project, false,
            Some "Partial failure"))
    (fun e =>
       Some (log ERROR "Failed: %s - %s"
                 [AStr (Project.name_with_namespace project); AExn e] ;;
             ret (Project.name_with_namespace project, false,
                  Some (str_of_exn e)))).

(** *** Parallel Coordinator

    [ThreadPoolExecutor(max_workers)] with one submitted task per project
    and [as_completed] over the futures, as a machine: a task waits in
    [pending], occupies one of the workers while in [running], and its
    future sits in [finished] until the coordinator's [for] loop takes
    it.  A task runs against the world when it finishes.  The schedule,
    a list of choices, belongs to the environment.  [taken] is a ghost
    field: the tuples the [for] loop has unpacked so far. *)

Record pool := {
  pending : list Project.t;
  running : list Project.t;
  finished : list (sync_outcome + exn);
  successful : nat;
  failed : nat;
  failed_projects : list (string * option string);
  pbar : nat;
  taken : list sync_outcome;
  crashed : option exn;
  pool_world : World;
  pool_trace : list event
}.

Inductive choice :=
| Start
| Finish (i : nat)
| Collect (i : nat).

Fixpoint remove_nth {A} (i : nat) (l : list A) : list A :=
  match i, l with
  | _, [] => []
  | O, _ :: t => t
  | S i', x :: t => x :: remove_nth i' t
  end.

Definition pool_init (projects : list Project.t) (w : World) : pool :=
  {| pending := projects; running := []; finished := [];
     successful := 0; failed := 0; failed_projects := []; pbar := 0;
     taken := []; crashed := None; pool_world := w; pool_trace := [] |}.

Section Pool.

Variable workers : nat.
Variable task : Project.t -> M World sync_outcome.

(** A worker takes the next pending task. *)
Definition step_start (st : pool) : option pool :=
  match pending st with
  | p :: rest =>
      if (List.length (running st) <? workers)%nat then
        Some {| pending := rest; running := running st ++ [p];
                finished := finished st; successful := successful st;
                failed := failed st; failed_projects := failed_projects st;
                pbar := pbar st; taken := taken st; crashed := crashed st;
                pool_world := pool_world st; pool_trace := pool_trace st |}
      else None
  | [] => None
  end.

(** The [i]-th running task ends; what it returned or raised is stored in
    its future. *)
Definition step_finish (i : nat) (st : pool) : option pool :=
  match nth_error (running st) i with
  | Some p =>
      let store (r : sync_outcome + exn) (w' : World) (t : list event) :=
        Some {| pending := pending st; running := remove_nth i (running st);
                finished := finished st ++ [r]; successful := successful st;
                failed := failed st; failed_projects := failed_projects st;
                pbar := pbar st; taken := taken st; crashed := crashed st;
                pool_world := w'; pool_trace := pool_trace st ++ t |} in
      match task p (pool_world st) with
      | (Return r, w', t) => store (inl r) w' t
      | (Raise e, w', t) => store (inr e) w' t
      | _ => None
      end
  | None => None
  end.

(** One pass through [for future in as_completed(futures)]:
    [future.result()] returns the tuple or raises what the task raised. *)
Definition step_collect (i : nat) (st : pool) : option pool :=
  match crashed st with
  | Some _ => None
  | None =>
      match nth_error (finished st) i with
      | Some (inl (project_name_with_namespace, success, error)) =>
          Some {| pending := pending st; running := running st;
                  finished := remove_nth i (finished st);
                  successful :=
                    if success then successful st + 1 else successful st;
                  failed := if success then failed st else failed st + 1;
                  failed_projects :=
                    if success then failed_projects st
                    else failed_projects st
                           ++ [(project_name_with_namespace, error)];
                  pbar := pbar st + 1;
                  taken := taken st
                             ++ [(project_name_with_namespace, success, error)];
                  crashed := None;
                  pool_world := pool_world st; pool_trace := pool_trace st |}
      | Some (inr e) =>
          Some {| pending := pending st; running := running st;
                  finished := remove_nth i (finished st);
                  successful := successful st; failed := failed st;
                  failed_projects := failed_projects st;
                  pbar := pbar st; taken := taken st; crashed := Some e;
                  pool_world := pool_world st; pool_trace := pool_trace st |}
      | None => None
      end
  end.

Definition pool_step (c : choice) (st : pool) : option pool :=
  match c with
  | Start => step_start st
  | Finish i => step_finish i st
  | Collect i => step_collect i st
  end.

(** A choice that is not enabled is passed over. *)
Fixpoint pool_exec (sched : list choice) (st : pool) : pool :=
  match sched with
  | [] => st
  | c :: rest =>
      match pool_step c st with
      | Some st' => pool_exec rest st'
      | None => pool_exec rest st
      end
  end.

(** The [with] blocks are left: no task is pending or running, and the
    loop has taken every future or has been left by an exception. *)
Definition pool_terminal (st : pool) : bool :=
  negb (nonempty (pending st)) && negb (nonempty (running st))
  && match crashed st with
     | Some _ => true
     | None => negb (nonempty (finished st))
     end.

End Pool.

(** What the summary at the end of [clone_all_projects] prints. *)
Record Summary := {
  sum_successful : nat;
  sum_failed : nat;
  sum_total : nat;
  sum_failed_projects : list (string * option string)
}.

Fixpoint log_failed_projects (l : list (string * option string))
  : M World unit :=
  match l with
  | [] => ret tt
  | (name, error) :: rest =>
      log INFO "  - %s: %s"
          [AStr name; AStr (match error with Some m => m | None => "None" end)] ;;
      log_failed_projects rest
  end.

(** The executor and the [as_completed] loop under the schedule [sched]. *)
Definition run_pool (sched : list choice) (projects : list Project.t)
  : M World pool :=
  fun w =>
    if (Config.max_workers (config self) <=? 0)%Z then
      (Raise (ValueError "max_workers must be greater than 0"), w, [])
    else
      let st := pool_exec (Z.to_nat (Config.max_workers (config self)))
                          clone_project_parallel sched (pool_init projects w) in
      if pool_terminal st then
        match crashed st with
        | Some e => (Raise e, pool_world st, pool_trace st)
        | None => (Return st, pool_world st, pool_trace st)
        end
      else (OutOfFuel, pool_world st, pool_trace st).

(** [clone_all_projects] from the project list on. *)
Definition process_projects (sched : list choice) (projects : list Project.t)
  : M World (option Summary) :=
  if negb (nonempty projects) then
    log WARNING "No projects found for the specified namespace" [] ;;
    ret None
  else
    log INFO "Starting to clone %s repositories with %s workers"
        [AInt (len projects); AInt (Config.max_workers (config self))] ;;
    mkdir (PathOf (Config.clone_directory (config self))) ;;
    st <- run_pool sched projects ;;
    log INFO "%s" [AStr "=================================================="] ;;
    log INFO "SUMMARY:" [] ;;
    log INFO "Successfully processed: %s" [AInt (Z.of_nat (successful st))] ;;
    log INFO "Failed: %s" [AInt (Z.of_nat (failed st))] ;;
    log INFO "Total: %s" [AInt (len projects)] ;;
    (if nonempty (failed_projects st) then
       log INFO "Failed projects:" [] ;;
       log_failed_projects (failed_projects st)
     else ret tt) ;;
    ret (Some {| sum_successful := successful st; sum_failed := failed st;
                 sum_total := List.length projects;
                 sum_failed_projects := failed_projects st |}).

(** [GitLabCloner.clone_all_projects] *)
Definition clone_all_projects (fuel : nat) (sched : list choice)
  : M World (option Summary) :=
  projects <- get_namespace_projects fuel ;;
  process_projects sched projects.

End Cloner.

(** ** [github_repos.clone_or_pull_repositories] *)

Module GitHub.

Section Script.

Variable World : Type.
Variable env : Env World.
Variable TARGET_DIRECTORY : option string.

(** [os.path.exists]: [False] where the path cannot be examined. *)
Definition os_path_exists (p : Path) : M World bool :=
  fun w =>
    match path_exists env p w with
    | (inl b, w') => (Return b, w', [EvExists p])
    | (inr _, w') => (Return false, w', [EvExists p])
    end.

Definition chdir (p : Path) : M World unit :=
  call (EvChdir p) (os_chdir env p).

(** [subprocess.run(argv, check=True)] in the current directory: no
    timeout and no capture. *)
Definition run_checked (argv_ : list string) (here : Path) : M World unit :=
  fun w =>
    let c := {| argv := argv_; cwd := here; check := true;
                timeout := None |} in
    match spawn env c w with
    | (Exited rc _ _, w') =>
        if negb (rc =? 0)%Z
        then (Raise (CalledProcessError rc EmptyString), w', [EvRun c])
        else (Return tt, w', [EvRun c])
    | (NotExited, w') => (Blocked, w', [EvRun c])
    | (SpawnFailed e, w') => (Raise e, w', [EvRun c])
    end.

Definition repo_name_of (repo_url : string) : string :=
  PyStr.remove_all ".git"
    (PyStr.last_part (PyStr.split PyStr.slash repo_url)).

Definition print (fmt : string) (args : list logarg) : M World unit :=
  log INFO fmt args.

(** The body of [for repo_url in repos], in the directory [here]. *)
Definition clone_or_pull_one (here : Path) (repo_url : string)
  : M World unit :=
  let repo_name := repo_name_of repo_url in
  present <- os_path_exists (PathJoin here repo_name) ;;
  if present then
    print "Updating %s..." [AStr repo_name] ;;
    chdir (PathJoin here repo_name) ;;
    try_except
      (run_checked ["git"; "pull"] (PathJoin here repo_name))
      (fun e =>
         if is_CalledProcessError e
         then Some (print "Failed to update %s: %s" [AStr repo_name; AExn e])
         else None) ;;
    chdir (PathJoin (PathJoin here repo_name) "..")
  else
    print "Cloning %s..." [AStr repo_name] ;;
    try_except
      (run_checked ["git"; "clone"; repo_url] here)
      (fun e =>
         if is_CalledProcessError e
         then Some (print "Failed to clone %s: %s" [AStr repo_name; AExn e])
         else None).

Fixpoint clone_or_pull_each (here : Path) (repos : list string)
  : M World unit :=
  match repos with
  | [] => ret tt
  | repo_url :: rest =>
      clone_or_pull_one here repo_url ;;
      clone_or_pull_each here rest
  end.

Definition clone_or_pull_repositories (repos : list string) : M World unit :=
  match TARGET_DIRECTORY with
  | None =>
      raise (ValueError "TARGET_DIRECTORY environment variable is not set")
  | Some target =>
      present <- os_path_exists (PathOf target) ;;
      (if negb present
       then call (EvMkdir (PathOf target)) (path_mkdir env (PathOf target))
       else ret tt) ;;
      chdir (PathOf target) ;;
      clone_or_pull_each (PathOf target) repos
  end.

End Script.

End GitHub.

(** ** The specification's wording and fixtures *)

(** "Strips exactly the first segment", in the words of the
    specification: the path without its first segment and separator. *)
Definition strip_first_segment (p : string) : string :=
  PyStr.join "/" (tl (PyStr.split PyStr.slash p)).

(** A cloner configured with a root namespace, a page size and a number of
    workers, and authenticated. *)
Definition cloner_for (root : string) (page_size workers : Z) : GitLabCloner :=
  {| config := {| Config.gitlab_url := "gitlab.com";
                  Config.gitlab_token := "token";
                  Config.clone_directory := "./repos";
                  Config.namespace := root;
                  Config.max_workers := workers;
                  Config.per_page := page_size |};
     gl := Some GitlabClient |}.

(** The path-mapper property as the specification words it. *)
Definition path_mapper_claim (r p : string) : Prop :=
  let f := get_relative_namespace_path (cloner_for r 20 4) in
  (r = EmptyString -> f p = p) /\
  (r <> EmptyString ->
     (PyStr.startswith (r ++ "/") p = true -> f p = strip_first_segment p) /\
     (p = r -> f p = EmptyString) /\
     (p <> r -> PyStr.startswith (r ++ "/") p = false -> f p = p)).

(** ** Observations on a run *)

Definition outcome_of {W A} (r : outcome A * W * list event) : outcome A :=
  fst (fst r).

Definition world_of {W A} (r : outcome A * W * list event) : W :=
  snd (fst r).

Definition trace_of {W A} (r : outcome A * W * list event) : list event :=
  snd r.

(** The call comes back: it returns or it raises. *)
Definition comes_back {A} (o : outcome A) : Prop :=
  match o with
  | Return _ | Raise _ => True
  | OutOfFuel | Blocked => False
  end.

Definition completes {W A} (m : M W A) : Prop :=
  forall w, comes_back (outcome_of (m w)).

Definition returns {W A} (m : M W A) : Prop :=
  forall w, exists a, outcome_of (m w) = Return a.

(** Every event of every run satisfies [P]. *)
Definition trace_all {W A} (P : event -> bool) (m : M W A) : Prop :=
  forall w, forallb P (trace_of (m w)) = true.

(** Two programs that differ in their log lines only. *)
Definition same_but_logs {W A} (m1 m2 : M W A) : Prop :=
  forall w,
    outcome_of (m1 w) = outcome_of (m2 w) /\
    world_of (m1 w) = world_of (m2 w) /\
    actions (trace_of (m1 w)) = actions (trace_of (m2 w)).

(** A [subprocess.run] call of the trace carries a timeout, of at most
    300 seconds. *)
Definition bounded_timeout (ev : event) : bool :=
  match ev with
  | EvRun c =>
      match timeout c with
      | Some t => (0 <? t)%Z && (t <=? 300)%Z
      | None => false
      end
  | _ => true
  end.

(** What [clone_project_parallel] hands back for a given success flag. *)
Definition outcome_tuple (project : Project.t) (success : bool)
  : sync_outcome :=
  (Project.name_with_namespace project, success,
   if success then None else Some "Partial failure").

(** *** The coordinator's accounts *)

Definition outcome_name (o : sync_outcome) : string := fst (fst o).

Definition outcome_success (o : sync_outcome) : bool := snd (fst o).

Definition outcome_failed (o : sync_outcome) : bool :=
  negb (outcome_success o).

(** The names in the futures that hold a tuple. *)
Definition future_names (l : list (sync_outcome + exn)) : list string :=
  flat_map (fun f => match f with
                     | inl o => [outcome_name o]
                     | inr _ => []
                     end) l.

Definition names (l : list Project.t) : list string :=
  map Project.name_with_namespace l.

Definition occ (l : list string) (x : string) : nat :=
  count_occ string_dec l x.

(** Every project is in exactly one place: pending, running, in a future
    or taken by the loop; the counters are those of the tuples taken. *)
Record pool_inv {W} (projects : list Project.t) (st : pool W) : Prop := {
  inv_crashed : crashed st = None;
  inv_futures : forall f, In f (finished st) -> exists o, f = inl o;
  inv_places :
    forall x,
      occ (names projects) x
      = occ (names (pending st)) x + occ (names (running st)) x
        + occ (future_names (finished st)) x
        + occ (map outcome_name (taken st)) x;
  inv_successful :
    successful st = List.length (filter outcome_success (taken st));
  inv_failed : failed st = List.length (filter outcome_failed (taken st));
  inv_failed_projects :
    failed_projects st
    = map (fun o => (outcome_name o, snd o))
          (filter outcome_failed (taken st));
  inv_pbar : pbar st = List.length (taken st)
}.

(** What is left to do: three steps for a pending task, two for a running
    one, one for a future. *)
Definition pool_measure {W} (st : pool W) : nat :=
  3 * List.length (pending st) + 2 * List.length (running st)
  + List.length (finished st).

(** The schedule of a pool that runs its tasks one after the other. *)
Fixpoint drain_schedule (n : nat) : list choice :=
  match n with
  | O => []
  | S n' => Start :: Finish 0 :: Collect 0 :: drain_schedule n'
  end.

(** The pool of [clone_all_projects] after the schedule [sched]. *)
Definition coordinator_run {W} (env : Env W) (self : GitLabCloner)
           (sched : list choice) (projects : list Project.t) (w : W)
  : pool W :=
  pool_exec (Z.to_nat (Config.max_workers (config self)))
            (clone_project_parallel env self) sched (pool_init projects w).

(** *** Stubs of the environment *)

Fixpoint eqb_list (l1 l2 : list string) : bool :=
  match l1, l2 with
  | [], [] => true
  | a :: l1', b :: l2' => String.eqb a b && eqb_list l1' l2'
  | _, _ => false
  end.

(** An environment without a state of its own: the listing answers by
    page number and page size, the file system by path, [git] by
    command. *)
Definition stub_env (group : string -> reply Group)
           (users : string -> reply (list User))
           (pages : Z -> Z -> reply (list Project.t))
           (present : Path -> bool) (git_ : command -> proc_outcome)
  : Env unit :=
  {| groups_get := fun ns w => (group ns, w);
     users_list := fun u w => (users u, w);
     projects_list := fun _ page per_page w => (pages page per_page, w);
     group_projects_list := fun _ page per_page w => (pages page per_page, w);
     path_mkdir := fun _ w => (inl tt, w);
     path_exists := fun p w => (inl (present p), w);
     os_chdir := fun _ w => (inl tt, w);
     spawn := fun c w => (git_ c, w) |}.

Definition sample_project (slug : string) : Project.t :=
  {| Project.name := slug;
     Project.path := slug;
     Project.name_with_namespace := "acme / " ++ slug;
     Project.namespace := {| Namespace.full_path := "acme";
                             Namespace.kind := "group" |};
     Project.ssh_url_to_repo := "git@gitlab.com:acme/" ++ slug ++ ".git" |}.

Definition no_pages (page per_page : Z) : reply (list Project.t) := inl [].

(** A [git] whose [clone] of [api] works and whose other commands never
    exit. *)
Definition git_clones_api_only (c : command) : proc_outcome :=
  if eqb_list (argv c) ["git"; "clone"; "git@gitlab.com:acme/api.git"]
  then Exited 0 "" ""
  else NotExited.

Definition env_clones_api_only : Env unit :=
  stub_env (fun ns => inl {| group_name := ns |}) (fun _ => inl [])
           no_pages (fun _ => false) git_clones_api_only.

(** Two projects, two workers; the second task ends first. *)
Definition two_projects : list Project.t :=
  [sample_project "api"; sample_project "web"].

Definition web_first : list choice :=
  [Start; Start; Finish 1; Finish 0; Collect 0; Collect 0].

(** *** Observations on the lister *)

(** A page request for the projects the token owns, with the configured
    page size and no user in it; log lines aside. *)
Definition owned_page_request (per_page : Z) (ev : event) : bool :=
  match ev with
  | EvApi (ReqProjectsList true _ pp) => (pp =? per_page)%Z
  | EvLog _ _ _ => true
  | _ => false
  end.

(** The calls of [m] that return give a value that satisfies [Q]. *)
Definition ensures {W A} (Q : A -> Prop) (m : M W A) : Prop :=
  forall w a, outcome_of (m w) = Return a -> Q a.

(** The state serves the pages [ls], one per request, from page number
    [page] on. *)
Inductive serves {W} (env : Env W) (g : Group) (per_page : Z)
  : Z -> list (list Project.t) -> W -> W -> Prop :=
| serves_nil page w : serves env g per_page page [] w w
| serves_cons page l ls w w' w'' :
    group_projects_list env g page per_page w = (inl l, w') ->
    serves env g per_page (page + 1)%Z ls w' w'' ->
    serves env g per_page page (l :: ls) w w''.

(** [n] page numbers from [start] on. *)
Fixpoint page_numbers (start : Z) (n : nat) : list Z :=
  match n with
  | O => []
  | S n' => start :: page_numbers (start + 1)%Z n'
  end.

(** A server that knows the group [acme] and the user [langburd] and
    nothing else. *)
Definition env_acme : Env unit :=
  stub_env (fun ns => if String.eqb ns "acme"
                      then inl {| group_name := "Acme" |}
                      else inr GitlabGetError)
           (fun u => if String.eqb u "langburd"
                     then inl [{| user_name := "Langburd" |}]
                     else inl [])
           no_pages (fun _ => false) (fun _ => NotExited).

(** A listing that never signals its end: every page is full. *)
Definition full_page (per_page : Z) : list Project.t :=
  repeat (sample_project "repo") (Z.to_nat per_page).

Definition env_full_pages : Env unit :=
  stub_env (fun ns => inl {| group_name := ns |})
           (fun u => inl [{| user_name := u |}])
           (fun _ per_page => inl (full_page per_page))
           (fun _ => false) (fun _ => NotExited).

(** A listing of eighteen projects in pages of three: six full pages, then
    an empty one. *)
Definition env_six_full_pages : Env unit :=
  stub_env (fun ns => inl {| group_name := ns |}) (fun _ => inl [])
           (fun page per_page =>
              if (page <=? 6)%Z then inl (full_page per_page) else inl [])
           (fun _ => false) (fun _ => NotExited).

(** The pagination property as the specification words it: for every page
    size, five pages of exactly that size and then a page of three items
    make six requests and [5 * pageSize + 3] descriptors. *)
Definition pagination_claim : Prop :=
  forall (W : Type) (env : Env W) (self : GitLabCloner) (group_path : string)
         (g : Group) (fulls : list (list Project.t)) (last : list Project.t)
         (w0 w1 w' : W),
    gl self <> None ->
    groups_get env group_path w0 = (inl g, w1) ->
    List.length fulls = 5 ->
    (forall l, In l fulls -> len l = Config.per_page (config self)) ->
    List.length last = 3 ->
    serves env g (Config.per_page (config self)) 1 (fulls ++ [last]) w1 w' ->
    pages_requested
      (trace_of (get_group_projects_by_namespace env self 1000 group_path w0))
    = [1; 2; 3; 4; 5; 6]%Z
    /\ exists l,
         outcome_of (get_group_projects_by_namespace env self 1000 group_path w0)
         = Return l
         /\ len l = (5 * Config.per_page (config self) + 3)%Z.

(** A listing of twenty-three projects in pages of four: five full pages,
    then three items. *)
Definition env_five_full_pages : Env unit :=
  stub_env (fun ns => inl {| group_name := ns |}) (fun _ => inl [])
           (fun page per_page =>
              if (page <=? 5)%Z then inl (full_page per_page)
              else if (page =? 6)%Z then inl (full_page 3)
              else inl [])
           (fun _ => false) (fun _ => NotExited).

(** *** The commands of the Sync Executor, by name *)

Definition clone_command (self : GitLabCloner) (project : Project.t)
  : command :=
  {| argv := ["git"; "clone"; Project.ssh_url_to_repo project];
     cwd := target_dir_of self project; check := true;
     timeout := Some 300%Z |}.

Definition init_command (self : GitLabCloner) (project : Project.t)
  : command :=
  git ["init"] (project_dir_of self project) true 30.

Definition remote_add_command (self : GitLabCloner) (project : Project.t)
  : command :=
  git ["remote"; "add"; "origin"; Project.ssh_url_to_repo project]
      (project_dir_of self project) true 30.

Definition symbolic_ref_command (repo_path : Path) : command :=
  git ["symbolic-ref"; "refs/remotes/origin/HEAD"] repo_path true 30.

Definition probe_command (repo_path : Path) (branch : string) : command :=
  git ["checkout"; branch] repo_path true 30.

Definition checkout_command (self : GitLabCloner) (project : Project.t)
           (branch : string) : command :=
  git ["checkout"; branch] (project_dir_of self project) true 60.

Definition pull_command (self : GitLabCloner) (project : Project.t)
  : command :=
  git ["pull"] (project_dir_of self project) true 60.

Definition branch_r_command (self : GitLabCloner) (project : Project.t)
  : command :=
  git ["branch"; "-r"] (project_dir_of self project) false 30.

(** A checked command fails: it exits with a code other than zero, or it
    does not exit before its timeout. *)
Definition run_failed (o : proc_outcome) : Prop :=
  match o with
  | Exited rc _ _ => rc <> 0%Z
  | NotExited => True
  | SpawnFailed _ => False
  end.

(** A [subprocess.run] call of the trace carries a timeout. *)
Definition carries_timeout (ev : event) : bool :=
  match ev with
  | EvRun c => match timeout c with Some _ => true | None => false end
  | _ => true
  end.

(** The timeout property as the specification words it, over both sync
    scripts: every command carries a timeout, and a command that exceeds
    its timeout makes the sync of its repository a failure.  The last part
    is stated for environments without a state, where a command of the run
    that the stub never lets exit is a command that exceeded its timeout. *)
Definition timeouts_claim : Prop :=
  (forall (W : Type) (env : Env W) (self : GitLabCloner)
          (project : Project.t) (w : W),
      forallb carries_timeout (trace_of (safe_clone_project env self project w))
      = true)
  /\ (forall (W : Type) (env : Env W) (target : option string)
             (repos : list string) (w : W),
         forallb carries_timeout
                 (trace_of (GitHub.clone_or_pull_repositories
                              env target repos w))
         = true)
  /\ (forall (env : Env unit) (self : GitLabCloner) (project : Project.t)
             (c : command),
         In c (commands (trace_of (safe_clone_project env self project tt))) ->
         spawn env c tt = (NotExited, tt) ->
         outcome_of (safe_clone_project env self project tt) = Return false).

(** Every repository is on disk; [git symbolic-ref] never exits, every
    other command works. *)
Definition git_head_hangs (c : command) : proc_outcome :=
  match argv c with
  | [_; "symbolic-ref"; _] => NotExited
  | _ => Exited 0 "" ""
  end.

Definition env_head_hangs : Env unit :=
  stub_env (fun ns => inl {| group_name := ns |}) (fun _ => inl [])
           no_pages (fun _ => true) git_head_hangs.

(** A remote without commits: [git clone] fails with the warning, the
    other commands work; nothing is on disk yet. *)
Definition git_empty_remote (c : command) : proc_outcome :=
  match argv c with
  | [_; "clone"; _] =>
      Exited 128 ""
             "warning: You appear to have cloned an empty repository."
  | _ => Exited 0 "" ""
  end.

Definition env_empty_remote : Env unit :=
  stub_env (fun ns => inl {| group_name := ns |}) (fun _ => inl [])
           no_pages (fun _ => false) git_empty_remote.

(** A remote that cannot be reached: [git clone] fails with another
    message. *)
Definition git_unreachable (c : command) : proc_outcome :=
  match argv c with
  | [_; "clone"; _] =>
      Exited 128 "" "fatal: Could not read from remote repository."
  | _ => Exited 0 "" ""
  end.

Definition env_unreachable : Env unit :=
  stub_env (fun ns => inl {| group_name := ns |}) (fun _ => inl [])
           no_pages (fun _ => false) git_unreachable.

(** Every repository is on disk, its remote HEAD names [main] and every
    command works. *)
Definition git_head_main (c : command) : proc_outcome :=
  match argv c with
  | [_; "symbolic-ref"; _] =>
      Exited 0 ("refs/remotes/origin/main" ++ String (ascii_of_nat 10) "") ""
  | _ => Exited 0 "" ""
  end.

Definition env_present : Env unit :=
  stub_env (fun ns => inl {| group_name := ns |}) (fun _ => inl [])
           no_pages (fun _ => true) git_head_main.

(** The environment answers the commands of the list, one after the
    other, with the outcomes given. *)
Inductive spawns {W} (env : Env W)
  : list (command * proc_outcome) -> W -> W -> Prop :=
| spawns_nil w : spawns env [] w w
| spawns_cons c o rest w w' w'' :
    spawn env c w = (o, w') ->
    spawns env rest w' w'' ->
    spawns env ((c, o) :: rest) w w''.

(** The branch names [get_default_branch] tries, in its order. *)
Definition common_branches : list string := ["main"; "master"; "develop"].

(** ** Further code of the cloner *)

(** [Config.gitlab_url_http] *)
Definition gitlab_url_http (c : Config.t) : string :=
  if negb (PyStr.startswith "http://" (Config.gitlab_url c)
           || PyStr.startswith "https://" (Config.gitlab_url c))
  then "https://" ++ Config.gitlab_url c
  else Config.gitlab_url c.

(** The configuration [c] with another [gitlab_url]. *)
Definition with_gitlab_url (c : Config.t) (url : string) : Config.t :=
  {| Config.gitlab_url := url;
     Config.gitlab_token := Config.gitlab_token c;
     Config.clone_directory := Config.clone_directory c;
     Config.namespace := Config.namespace c;
     Config.max_workers := Config.max_workers c;
     Config.per_page := Config.per_page c |}.

(** A project in the namespace [full_path] with the slug [slug]. *)
Definition project_in (full_path slug : string) : Project.t :=
  {| Project.name := slug;
     Project.path := slug;
     Project.name_with_namespace := full_path ++ " / " ++ slug;
     Project.namespace := {| Namespace.full_path := full_path;
                             Namespace.kind := "group" |};
     Project.ssh_url_to_repo :=
       "git@gitlab.com:" ++ full_path ++ "/" ++ slug ++ ".git" |}.

(** The state serves the pages [ls] of [projects.list], one per request,
    from page number [page] on. *)
Inductive serves_projects {W} (env : Env W) (owned : bool) (per_page : Z)
  : Z -> list (list Project.t) -> W -> W -> Prop :=
| serves_projects_nil page w : serves_projects env owned per_page page [] w w
| serves_projects_cons page l ls w w' w'' :
    projects_list env owned page per_page w = (inl l, w') ->
    serves_projects env owned per_page (page + 1)%Z ls w' w'' ->
    serves_projects env owned per_page page (l :: ls) w w''.

(** The filter of [get_group_projects]. *)
Definition in_group_namespace (p : Project.t) : bool :=
  String.eqb (Namespace.kind (Project.namespace p)) "group".

(** A project of a user namespace. *)
Definition user_project (slug : string) : Project.t :=
  {| Project.name := slug;
     Project.path := slug;
     Project.name_with_namespace := "langburd / " ++ slug;
     Project.namespace := {| Namespace.full_path := "langburd";
                             Namespace.kind := "user" |};
     Project.ssh_url_to_repo := "git@gitlab.com:langburd/" ++ slug ++ ".git" |}.

(** A listing of two pages, a group project and a user project on each,
    and then an empty page. *)
Definition env_mixed_pages : Env unit :=
  stub_env (fun ns => inl {| group_name := ns |}) (fun _ => inl [])
           (fun page _ =>
              if (page <=? 2)%Z
              then inl [sample_project "api"; user_project "dotfiles"]
              else inl [])
           (fun _ => false) (fun _ => NotExited).

(** A listing whose first two pages are full and whose third request
    fails: with a GitLab error, or with another exception. *)
Definition env_third_page_fails (e : exn) : Env unit :=
  stub_env (fun ns => inl {| group_name := ns |}) (fun _ => inl [])
           (fun page per_page =>
              if (page <=? 2)%Z then inl (full_page per_page) else inr e)
           (fun _ => false) (fun _ => NotExited).

(** A server that knows no group. *)
Definition env_no_group : Env unit :=
  stub_env (fun _ => inr GitlabGetError) (fun _ => inl [])
           (fun _ per_page => inl (full_page per_page))
           (fun _ => false) (fun _ => NotExited).

(** A cloner that has not authenticated. *)
Definition unauthenticated (root : string) : GitLabCloner :=
  {| config := config (cloner_for root 20 4); gl := None |}.

(** Every project of the list belongs to a group namespace. *)
Definition all_in_group (l : list Project.t) : Prop :=
  forall p, In p l -> Namespace.kind (Project.namespace p) = "group".

(** *** Observations on the commands of the Sync Executor *)

Fixpoint path_eqb (p q : Path) : bool :=
  match p, q with
  | PathOf a, PathOf b => String.eqb a b
  | PathJoin p' a, PathJoin q' b => path_eqb p' q' && String.eqb a b
  | _, _ => false
  end.

(** The [git] subcommand of a command: [argv[1]]. *)
Definition subcommand (c : command) : string := nth 1 (argv c) EmptyString.

(** Not a command that makes a repository: [clone], [init], [remote]. *)
Definition not_a_creation (ev : event) : bool :=
  match ev with
  | EvRun c =>
      negb (String.eqb (subcommand c) "clone"
            || String.eqb (subcommand c) "init"
            || String.eqb (subcommand c) "remote")
  | _ => true
  end.

(** Not a command that updates a repository: [pull], [branch]. *)
Definition not_an_update (ev : event) : bool :=
  match ev with
  | EvRun c =>
      negb (String.eqb (subcommand c) "pull"
            || String.eqb (subcommand c) "branch")
  | _ => true
  end.

(** The event stays with the project: a command runs in the target
    directory or the project directory, a directory made is one of the
    two, the path examined is the project directory; no request to the
    API and no change of the working directory. *)
Definition confined (self : GitLabCloner) (project : Project.t) (ev : event)
  : bool :=
  match ev with
  | EvRun c =>
      path_eqb (cwd c) (target_dir_of self project)
      || path_eqb (cwd c) (project_dir_of self project)
  | EvMkdir p =>
      path_eqb p (target_dir_of self project)
      || path_eqb p (project_dir_of self project)
  | EvExists p => path_eqb p (project_dir_of self project)
  | EvLog _ _ _ => true
  | EvApi _ => false
  | EvChdir _ => false
  end.

(** The remote HEAD names the branch [feature/login]. *)
Definition git_head_feature (c : command) : proc_outcome :=
  match argv c with
  | [_; "symbolic-ref"; _] =>
      Exited 0 ("refs/remotes/origin/feature/login"
                  ++ String (ascii_of_nat 10) "") ""
  | _ => Exited 0 "" ""
  end.

Definition env_head_feature : Env unit :=
  stub_env (fun ns => inl {| group_name := ns |}) (fun _ => inl [])
           no_pages (fun _ => true) git_head_feature.

(** A clone directory in which no directory can be made. *)
Definition env_read_only : Env unit :=
  {| groups_get := fun ns w => (inl {| group_name := ns |}, w);
     users_list := fun _ w => (inl [], w);
     projects_list := fun _ _ _ w => (inl [], w);
     group_projects_list := fun _ _ _ w => (inl [], w);
     path_mkdir := fun _ w => (inr PermissionError, w);
     path_exists := fun _ w => (inl false, w);
     os_chdir := fun _ w => (inl tt, w);
     spawn := fun _ w => (Exited 0 "" "", w) |}.

(** Nothing is on disk and every command works, without a word on
    stdout. *)
Definition env_fresh : Env unit :=
  stub_env (fun ns => inl {| group_name := ns |}) (fun _ => inl [])
           no_pages (fun _ => false) (fun _ => Exited 0 "" "").

(** Nothing is on disk, [git clone] works and leaves a repository in
    which no other command does. *)
Definition git_clone_only (c : command) : proc_outcome :=
  match argv c with
  | [_; "clone"; _] => Exited 0 "" ""
  | _ => Exited 1 "" "fatal: not a git repository"
  end.

Definition env_clone_only : Env unit :=
  stub_env (fun ns => inl {| group_name := ns |}) (fun _ => inl [])
           no_pages (fun _ => false) git_clone_only.

(** *** Observations on the coordinator *)

(** A request to the API or a log line: nothing on disk, no command. *)
Definition lister_event (ev : event) : bool :=
  match ev with
  | EvApi _ => true
  | EvLog _ _ _ => true
  | _ => false
  end.

(** What the futures and the loop hold are tuples that
    [clone_project_parallel] makes for projects of the list. *)
Definition tuple_of (projects : list Project.t) (o : sync_outcome) : Prop :=
  exists p b, In p projects /\ o = outcome_tuple p b.

Record pool_tuples {W} (projects : list Project.t) (st : pool W) : Prop := {
  tuples_pending : forall p, In p (pending st) -> In p projects;
  tuples_running : forall p, In p (running st) -> In p projects;
  tuples_finished :
    forall f, In f (finished st) ->
              exists o, f = inl o /\ tuple_of projects o;
  tuples_taken : forall o, In o (taken st) -> tuple_of projects o
}.

(** ** [authenticate] and [main] *)

(** The two calls of [authenticate]: the constructor of the client and
    its [auth] method. *)
Record AuthEnv (World : Type) := {
  gitlab_connect : string -> string -> World -> reply Gitlab * World;
  gitlab_auth : Gitlab -> World -> reply unit * World
}.

(** A call goes on with a value, or it has called [sys.exit]. *)
Inductive step (A : Type) :=
| Goes (a : A)
| SysExit (code : Z).

Arguments Goes {A} a.
Arguments SysExit {A} code.

(** How [main] ends: with [sys.exit(code)], or by returning. *)
Inductive ending :=
| Exits (code : Z)
| Ends.

(** A call to the environment that leaves no event. *)
Definition quiet_call {W A} (f : W -> reply A * W) : M W A :=
  fun w =>
    match f w with
    | (inl a, w') => (Return a, w', [])
    | (inr e, w') => (Raise e, w', [])
    end.

Section Main.

Variable World : Type.
Variable env : Env World.
Variable auth_env : AuthEnv World.

(** [GitLabCloner.authenticate]: the cloner with its client, or the exit
    status. *)
Definition authenticate (self : GitLabCloner) : M World (step GitLabCloner) :=
  try_except
    (client <- quiet_call (gitlab_connect auth_env
                             (gitlab_url_http (config self))
                             (Config.gitlab_token (config self))) ;;
     quiet_call (gitlab_auth auth_env client) ;;
     log INFO "Successfully authenticated with GitLab" [] ;;
     ret (Goes {| config := config self; gl := Some client |}))
    (fun e =>
       match e with
       | GitlabAuthenticationError =>
           Some (log ERROR "Authentication failed. Check your token." [] ;;
                 ret (SysExit 1))
       | _ =>
           if is_GitlabError e then
             Some (log ERROR "GitLab API error: %s" [AExn e] ;;
                   ret (SysExit 1))
           else
             Some (log ERROR "Unexpected error during authentication: %s"
                       [AExn e] ;;
                   ret (SysExit 1))
       end).

(** [main] from the loaded configuration on, for a command line without
    [--create-config]: [Config.from_file] is not modelled. *)
Definition main_with_config (cfg : Config.t) (fuel : nat)
           (sched : list choice) : M World ending :=
  log INFO "Starting GitLab repository cloner" [] ;;
  try_except
    (log INFO "Configuration loaded - GitLab: %s, Clone dir: %s%s"
         [AStr (Config.gitlab_url cfg); AStr (Config.clone_directory cfg);
          AStr (if PyStr.truthy (Config.namespace cfg)
                then ", Namespace: " ++ Config.namespace cfg
                else ", Namespace: all groups")] ;;
     r <- authenticate {| config := cfg; gl := None |} ;;
     match r with
     | SysExit code => ret (Exits code)
     | Goes cloner =>
         clone_all_projects env cloner fuel sched ;;
         log INFO "GitLab cloning process completed" [] ;;
         ret Ends
     end)
    (fun e =>
       Some (log ERROR "Unexpected error in main: %s" [AExn e] ;;
             ret (Exits 1))).

End Main.

(** A server that accepts every token, and one that rejects every token. *)
Definition auth_accepts : AuthEnv unit :=
  {| gitlab_connect := fun _ _ w => (inl GitlabClient, w);
     gitlab_auth := fun _ w => (inl tt, w) |}.

Definition auth_rejects : AuthEnv unit :=
  {| gitlab_connect := fun _ _ w => (inl GitlabClient, w);
     gitlab_auth := fun _ w => (inr GitlabAuthenticationError, w) |}.

(** A group [acme] with the two projects [api] and [web] on one page. *)
Definition env_two_projects : Env unit :=
  stub_env (fun ns => inl {| group_name := ns |}) (fun _ => inl [])
           (fun page _ =>
              if (page =? 1)%Z
              then inl [sample_project "api"; sample_project "web"]
              else inl [])
           (fun _ => false) git_clones_api_only.

(** The server of [env_two_projects] on a machine where no directory can
    be made. *)
Definition env_no_base_directory : Env unit :=
  {| groups_get := groups_get env_two_projects;
     users_list := users_list env_two_projects;
     projects_list := projects_list env_two_projects;
     group_projects_list := group_projects_list env_two_projects;
     path_mkdir := fun _ w => (inr PermissionError, w);
     path_exists := path_exists env_two_projects;
     os_chdir := os_chdir env_two_projects;
     spawn := spawn env_two_projects |}.

(** What the GitHub loop runs for [repo_url] from the target directory
    [here]: a checked [git pull] in the repository's directory or a
    checked [git clone] of the URL in [here]. *)
Definition pull_or_clone (here : Path) (c : command) (repo_url : string)
  : Prop :=
  check c = true /\
  ((argv c = ["git"; "pull"] /\
    cwd c = PathJoin here (GitHub.repo_name_of repo_url)) \/
   (argv c = ["git"; "clone"; repo_url] /\ cwd c = here)).

(** A machine without directories where every command exits with status 1. *)
Definition env_git_fails : Env unit :=
  stub_env (fun _ => inr GitlabGetError) (fun _ => inl []) no_pages
           (fun _ => false)
           (fun _ => Exited 1 EmptyString "fatal: repository not found").

(** ** [github_repos.get_repositories] *)

Module GitHubApi.

(** A repository object of the organisation listing, with the keys the
    script reads; the key [visibility] may be missing. *)
Record Repo := {
  private : bool;
  visibility : option string;
  ssh_url : string
}.

(** The decoded document of an answer: the text [print] shows for it and,
    for the array of a listing, its repository objects. *)
Record document := { shown : string; items : list Repo }.

(** Exceptions by the classes the loop tells apart:
    [requests.exceptions.Timeout], any other
    [requests.exceptions.RequestException], and the rest. *)
Inductive failure :=
| Timeout
| RequestException (msg : string)
| Another (e : exn).

(** An answer: its status and what [response.json()] gives. *)
Record response := { status_code : Z; json : document + failure }.

Record request := {
  url : string;
  headers : list (string * string);
  timeout : Z
}.

Inductive io :=
| Get (r : request)
| Print (text : string).

Record Http (World : Type) := {
  requests_get : request -> World -> (response + failure) * World
}.

Fixpoint gets (t : list io) : list request :=
  match t with
  | [] => []
  | Get r :: t' => r :: gets t'
  | Print _ :: t' => gets t'
  end.

(** [str(page)] *)
Definition str (z : Z) : string := NilZero.string_of_int (Z.to_int z).

Section Listing.

Variable World : Type.
Variable http : Http World.
Variable GITHUB_TOKEN : option string.

Definition request_headers : list (string * string) :=
  [("Authorization",
    ("token " ++ match GITHUB_TOKEN with Some t => t | None => "None" end)
    %string);
   ("Accept", "application/vnd.github+json")].

Definition page_request (org : string) (page : Z) : request :=
  {| url := (("https://api.github.com/orgs/" ++ org ++ "/repos?type=private")
             ++ "&page=" ++ str page)%string;
     headers := request_headers;
     timeout := 10 |}.

(** [repo["private"] or repo.get("visibility", "") == "internal"] *)
Definition wanted (repo : Repo) : bool :=
  private repo
  || String.eqb (match visibility repo with Some v => v | None => "" end)
                "internal".

(** The URLs the [for repo in data] loop appends. *)
Definition ssh_urls (data : list Repo) : list string :=
  map ssh_url (filter wanted data).

(** The [except] clauses: both print and leave the loop; any other
    exception goes on. *)
Definition handle (f : failure) (repos : list string) (w : World)
           (t : list io) : outcome (list string) * World * list io :=
  match f with
  | Timeout =>
      (Return repos, w,
       t ++ [Print ("Request timed out. Please check your network connection and "
                    ++ "try again.")%string])
  | RequestException msg =>
      (Return repos, w, t ++ [Print ("An error occurred: " ++ msg)%string])
  | Another e => (Raise e, w, t)
  end.

(** The [while True] loop, from the state [repos], [page]. *)
Fixpoint get_repositories_from (fuel : nat) (org : string)
         (repos : list string) (page : Z) (w : World)
  : outcome (list string) * World * list io :=
  match fuel with
  | O => (OutOfFuel, w, [])
  | S fuel' =>
      let rq := page_request org page in
      match requests_get http rq w with
      | (inl response, w') =>
          if negb (status_code response =? 200)%Z then
            match json response with
            | inl body =>
                (Return repos, w',
                 [Get rq;
                  Print ("Error fetching repositories: " ++ shown body)
                        %string])
            | inr f => handle f repos w' [Get rq]
            end
          else
            match json response with
            | inl data =>
                if negb (nonempty (items data)) then (Return repos, w', [Get rq])
                else
                  let '(o, w'', t) :=
                    get_repositories_from fuel' org
                                          (repos ++ ssh_urls (items data))
                                          (page + 1) w' in
                  (o, w'', Get rq :: t)
            | inr f => handle f repos w' [Get rq]
            end
      | (inr f, w') => handle f repos w' [Get rq]
      end
  end.

Definition get_repositories (fuel : nat) (org : string) (w : World)
  : outcome (list string) * World * list io :=
  get_repositories_from fuel org [] 1 w.

(** The server answers the requests from [page] on with the non-empty
    pages [pages]. *)
Inductive full_pages (org : string)
  : Z -> World -> list (list Repo) -> World -> Prop :=
| full_nil (page : Z) (w : World) : full_pages org page w [] w
| full_cons (page : Z) (w w1 w2 : World) (resp : response) (doc : document)
            (rest : list (list Repo)) :
    requests_get http (page_request org page) w = (inl resp, w1) ->
    status_code resp = 200%Z ->
    json resp = inl doc ->
    items doc <> [] ->
    full_pages org (page + 1) w1 rest w2 ->
    full_pages org page w (items doc :: rest) w2.

End Listing.

(** An exception that the loop catches. *)
Definition caught (f : failure) : Prop :=
  match f with
  | Another _ => False
  | _ => True
  end.

(** An answer after which the loop stops without an exception: an empty
    page, another status than 200, or an exception of [requests]. *)
Definition ends_listing (r : response + failure) : Prop :=
  match r with
  | inl resp =>
      match json resp with
      | inl doc => status_code resp <> 200%Z \/ items doc = []
      | inr f => caught f
      end
  | inr f => caught f
  end.

(** An organisation with one page of three repositories; the request for
    the second page runs into [last]. *)
Definition acme_page : list Repo :=
  [{| private := true; visibility := Some "private";
      ssh_url := "git@github.com:acme/api.git" |};
   {| private := false; visibility := Some "public";
      ssh_url := "git@github.com:acme/docs.git" |};
   {| private := false; visibility := Some "internal";
      ssh_url := "git@github.com:acme/web.git" |}].

Definition http_acme (last : response + failure) : Http unit :=
  {| requests_get := fun rq w =>
       if String.eqb (url rq)
                     "https://api.github.com/orgs/acme/repos?type=private&page=1"
       then (inl {| status_code := 200;
                    json := inl {| shown := "[...]"; items := acme_page |} |},
             w)
       else (last, w) |}.

(** A server that has a full page for every request. *)
Definition http_endless : Http unit :=
  {| requests_get := fun _ w =>
       (inl {| status_code := 200;
               json := inl {| shown := "[...]"; items := acme_page |} |}, w) |}.

End GitHubApi.

(** ** [gitlab-clone-repos.py] *)

Module CloneScript.

(** A project object with the attributes the script reads;
    [default_branch] is [None] for a repository without commits. *)
Record project := {
  name : string;
  path : string;
  namespace : Namespace.t;
  ssh_url_to_repo : string;
  default_branch : option string
}.

Inductive out :=
| Printed (text : string)
| System (command : string).

Fixpoint systems (t : list out) : list string :=
  match t with
  | [] => []
  | System c :: t' => c :: systems t'
  | Printed _ :: t' => systems t'
  end.

(** [s * n] *)
Fixpoint times (s : string) (n : nat) : string :=
  match n with
  | O => EmptyString
  | S n' => (s ++ times s n')%string
  end.

Definition ROOT_GROUP : string := "".

Definition excluded_projects : list string := ["ffdb"].

(** The two [if] tests of the loop. *)
Definition selected (p : project) : bool :=
  String.eqb (Namespace.kind (namespace p)) "group"
  && (PyStr.startswith ROOT_GROUP (Namespace.full_path (namespace p))
      && negb (existsb (String.eqb (path p)) excluded_projects)).

Definition shell_command (dir_to_clone : string) (p : project)
           (branch : string) : string :=
  ("mkdir -p "
   ++ dir_to_clone
   ++ "/"
   ++ Namespace.full_path (namespace p)
   ++ "; cd " ++ String (ascii_of_nat 34) "$_" ++ String (ascii_of_nat 34) ""
   ++ "; [ -d " ++ String (ascii_of_nat 34) ""
   ++ path p
   ++ String (ascii_of_nat 34) "" ++ " ] && cd "
   ++ path p
   ++ " && git checkout "
   ++ branch
   ++ " && git fetch --all --tags -f && git pull -f || git clone "
   ++ ssh_url_to_repo p)%string.

(** The body of [for project in projects].  Adding [None] to a string
    raises [TypeError] before [os.system] is called; [os.system] raises
    [ValueError] for a command with a NUL character and otherwise hands
    the command to the shell, whose exit status the script drops. *)
Definition clone_one (dir_to_clone : string) (p : project)
  : outcome unit * list out :=
  if String.eqb (Namespace.kind (namespace p)) "group" then
    if PyStr.startswith ROOT_GROUP (Namespace.full_path (namespace p))
       && negb (existsb (String.eqb (path p)) excluded_projects)
    then
      let prints := [Printed (times "=" 75);
                     Printed (name p);
                     Printed (Namespace.full_path (namespace p));
                     Printed (ssh_url_to_repo p)] in
      match default_branch p with
      | None => (Raise (OtherException "TypeError"), prints)
      | Some branch =>
          let command := shell_command dir_to_clone p branch in
          if PyStr.mem Ascii.zero command
          then (Raise (ValueError "embedded null byte"), prints)
          else (Return tt, prints ++ [System command])
      end
    else (Return tt, [])
  else (Return tt, []).

Fixpoint clone_each (dir_to_clone : string) (projects : list project)
  : outcome unit * list out :=
  match projects with
  | [] => (Return tt, [])
  | p :: rest =>
      match clone_one dir_to_clone p with
      | (Return _, t) =>
          let (o, t') := clone_each dir_to_clone rest in (o, t ++ t')
      | r => r
      end
  end.

(** The script from [gl.projects.list(all=True)] on, started in
    [current_dir]. *)
Definition script (current_dir : string) (listing : reply (list project))
  : outcome unit * list out :=
  match listing with
  | inr e => (Raise e, [])
  | inl projects =>
      clone_each (current_dir ++ "/gitlab-tl-ash1")%string projects
  end.

Definition group_project (slug : string) (branch : option string) : project :=
  {| name := slug; path := slug;
     namespace := {| Namespace.full_path := "acme"; Namespace.kind := "group" |};
     ssh_url_to_repo := ("git@gitlab.com:acme/" ++ slug ++ ".git")%string;
     default_branch := branch |}.

End CloneScript.

(** ** Path Mapper: proofs *)

Example relative_path_docstring :
  let f := get_relative_namespace_path (cloner_for "cynerio" 20 4) in
  f "cynerio" = "" /\
  f "cynerio/devops" = "devops" /\
  f "cynerio/devops/infra" = "devops/infra" /\
  f "cynerio/team/backend/api" = "team/backend/api" /\
  f "other-org/app" = "other-org/app".
Proof. repeat split; reflexivity. Qed.

Lemma split_not_nil (sep : ascii) (s : string) : PyStr.split sep s <> [].
Proof.
  destruct s as [|c s]; simpl; [discriminate|].
  destruct (Ascii.eqb c sep); [discriminate|].
  destruct (PyStr.split sep s); discriminate.
Qed.

Lemma split_no_sep (sep : ascii) (s : string) :
  PyStr.mem sep s = false -> PyStr.split sep s = [s].
Proof.
  induction s as [|c s IH]; simpl; intros H; [reflexivity|].
  apply orb_false_iff in H. destruct H as [Hc Hs].
  rewrite Hc, (IH Hs). reflexivity.
Qed.

Lemma split_app_sep (sep : ascii) (a b : string) :
  PyStr.mem sep a = false ->
  PyStr.split sep (a ++ String sep b) = a :: PyStr.split sep b.
Proof.
  induction a as [|c a IH]; simpl; intros H.
  - rewrite Ascii.eqb_refl. reflexivity.
  - apply orb_false_iff in H. destruct H as [Hc Hs].
    rewrite Hc, (IH Hs). reflexivity.
Qed.

Lemma hd_split_no_sep (sep : ascii) (s : string) :
  PyStr.mem sep (hd EmptyString (PyStr.split sep s)) = false.
Proof.
  induction s as [|c s IH]; simpl; [reflexivity|].
  destruct (Ascii.eqb c sep) eqn:E; [reflexivity|].
  destruct (PyStr.split sep s) as [|h t] eqn:Es; simpl in *.
  - rewrite E. reflexivity.
  - rewrite E, IH. reflexivity.
Qed.

Lemma join_split (s : string) :
  PyStr.join "/" (PyStr.split PyStr.slash s) = s.
Proof.
  induction s as [|c s IH]; simpl; [reflexivity|].
  destruct (Ascii.eqb c PyStr.slash) eqn:E.
  - apply Ascii.eqb_eq in E. subst c.
    pose proof (split_not_nil PyStr.slash s) as Hne.
    destruct (PyStr.split PyStr.slash s) as [|h t]; [contradiction|].
    simpl in *. rewrite IH. reflexivity.
  - destruct (PyStr.split PyStr.slash s) as [|h t] eqn:Es.
    + exfalso. exact (split_not_nil _ _ Es).
    + destruct t as [|h' t']; simpl in *; rewrite <- IH; reflexivity.
Qed.

(** A path is its first segment, or its first segment, a separator and
    what [join] makes of the other segments. *)
Lemma split_decompose (s : string) :
  match PyStr.split PyStr.slash s with
  | [] => False
  | [h] => s = h
  | h :: t => s = (h ++ "/" ++ PyStr.join "/" t)%string
  end.
Proof.
  pose proof (join_split s) as H.
  destruct (PyStr.split PyStr.slash s) as [|h [|h' t]] eqn:E.
  - exact (split_not_nil _ _ E).
  - simpl in H. auto.
  - simpl in H. simpl. auto.
Qed.

Lemma startswith_app (a b : string) : PyStr.startswith a (a ++ b) = true.
Proof.
  induction a as [|c a IH]; simpl; [reflexivity|].
  rewrite Ascii.eqb_refl. exact IH.
Qed.

Lemma startswith_inv (a s : string) :
  PyStr.startswith a s = true -> exists b, s = (a ++ b)%string.
Proof.
  revert s. induction a as [|c a IH]; intros s H; simpl in *.
  - exists s. reflexivity.
  - destruct s as [|d s]; [discriminate|].
    apply andb_true_iff in H. destruct H as [Hc Hs].
    apply Ascii.eqb_eq in Hc. subst d.
    destruct (IH _ Hs) as [b ->]. exists b. reflexivity.
Qed.

Lemma app_assoc_str (a b c : string) :
  ((a ++ b) ++ c = a ++ (b ++ c))%string.
Proof. induction a as [|x a IH]; simpl; [reflexivity|]. rewrite IH. reflexivity. Qed.

Lemma truthy_false (s : string) : PyStr.truthy s = false <-> s = EmptyString.
Proof. destruct s; simpl; split; intros; congruence. Qed.

(** The mapper in one equation: the decision is on the first segment. *)
Lemma relative_path_by_first_segment (self : GitLabCloner) (p : string) :
  get_relative_namespace_path self p =
  if PyStr.truthy (Config.namespace (config self))
     && String.eqb (hd EmptyString (PyStr.split PyStr.slash p))
                   (Config.namespace (config self))
  then strip_first_segment p
  else p.
Proof.
  unfold get_relative_namespace_path, strip_first_segment.
  destruct (PyStr.truthy (Config.namespace (config self))); simpl;
    [|reflexivity].
  pose proof (split_not_nil PyStr.slash p) as Hne.
  destruct (PyStr.split PyStr.slash p) as [|h t]; [contradiction|]. simpl.
  destruct (String.eqb h (Config.namespace (config self))); [|reflexivity].
  destruct t; reflexivity.
Qed.

Lemma relative_path_root_with_separator (self : GitLabCloner) (p : string) :
  PyStr.mem PyStr.slash (Config.namespace (config self)) = true ->
  get_relative_namespace_path self p = p.
Proof.
  intros Hm. rewrite relative_path_by_first_segment.
  destruct (String.eqb _ _) eqn:E; [|rewrite andb_false_r; reflexivity].
  apply String.eqb_eq in E.
  pose proof (hd_split_no_sep PyStr.slash p) as Hh.
  rewrite E in Hh. congruence.
Qed.

Lemma relative_path_strip (self : GitLabCloner) (rest : string) :
  let r := Config.namespace (config self) in
  r <> EmptyString -> PyStr.mem PyStr.slash r = false ->
  get_relative_namespace_path self (r ++ "/" ++ rest) = rest /\
  strip_first_segment (r ++ "/" ++ rest) = rest.
Proof.
  intros r Hne Hm.
  assert (Hs : PyStr.split PyStr.slash (r ++ "/" ++ rest)
               = r :: PyStr.split PyStr.slash rest)
    by (apply (split_app_sep PyStr.slash r rest Hm)).
  assert (Hstrip : strip_first_segment (r ++ "/" ++ rest) = rest).
  { unfold strip_first_segment. rewrite Hs. simpl. apply join_split. }
  split; [|exact Hstrip].
  rewrite relative_path_by_first_segment. fold r. rewrite Hs. simpl.
  rewrite String.eqb_refl.
  destruct r; [contradiction|]. simpl. exact Hstrip.
Qed.

Lemma relative_path_equal_root (self : GitLabCloner) :
  let r := Config.namespace (config self) in
  PyStr.mem PyStr.slash r = false ->
  get_relative_namespace_path self r = EmptyString.
Proof.
  intros r Hm. unfold get_relative_namespace_path. fold r.
  destruct (PyStr.truthy r) eqn:Et; simpl.
  - rewrite (split_no_sep _ _ Hm). simpl. rewrite String.eqb_refl. reflexivity.
  - apply truthy_false in Et. exact Et.
Qed.

Lemma relative_path_other (self : GitLabCloner) (p : string) :
  let r := Config.namespace (config self) in
  p <> r -> PyStr.startswith (r ++ "/") p = false ->
  get_relative_namespace_path self p = p.
Proof.
  intros r Hpr Hsw. rewrite relative_path_by_first_segment. fold r.
  destruct (PyStr.truthy r); simpl; [|reflexivity].
  destruct (String.eqb _ r) eqn:E; [|reflexivity].
  apply String.eqb_eq in E. exfalso.
  pose proof (split_decompose p) as Hd.
  destruct (PyStr.split PyStr.slash p) as [|h [|h' t]]; simpl in E.
  - exact Hd.
  - subst h. contradiction.
  - subst h. rewrite Hd in Hsw.
    rewrite <- app_assoc_str in Hsw. rewrite startswith_app in Hsw.
    discriminate.
Qed.

(** C1 (amended): for every full namespace path [p] and configured root
    namespace [r].  For a root without a separator in it: when [r] is
    empty the full path is returned unchanged; when [r] is not empty and
    [p] starts with [r] followed by the separator, exactly the first
    segment of [p] (which is [r]) and its separator are stripped; when [p]
    equals [r] the result is the empty relative path; in every other case
    [p] is returned unchanged.  For a root with a separator in it, which
    no first segment equals, [p] is returned unchanged. *)
Theorem path_mapper_single_segment_root (self : GitLabCloner) (p : string) :
  (PyStr.mem PyStr.slash (Config.namespace (config self)) = false ->
   (Config.namespace (config self) = EmptyString ->
      get_relative_namespace_path self p = p) /\
   (Config.namespace (config self) <> EmptyString ->
      (PyStr.startswith (Config.namespace (config self) ++ "/") p = true ->
         get_relative_namespace_path self p = strip_first_segment p /\
         p = (Config.namespace (config self) ++ "/"
                ++ get_relative_namespace_path self p)%string) /\
      (p = Config.namespace (config self) ->
         get_relative_namespace_path self p = EmptyString) /\
      (p <> Config.namespace (config self) ->
         PyStr.startswith (Config.namespace (config self) ++ "/") p = false ->
         get_relative_namespace_path self p = p)))
  /\ (PyStr.mem PyStr.slash (Config.namespace (config self)) = true ->
      get_relative_namespace_path self p = p).
Proof.
  split; [|apply relative_path_root_with_separator].
  intros Hm. split; [|intros Hne; split; [|split]].
  - intros Hr. unfold get_relative_namespace_path. rewrite Hr. reflexivity.
  - intros H. apply startswith_inv in H. destruct H as [rest ->].
    rewrite app_assoc_str.
    destruct (relative_path_strip self rest Hne Hm) as [Hf Hs].
    cbv zeta in Hf, Hs. rewrite Hf, Hs. split; reflexivity.
  - intros ->. apply (relative_path_equal_root self Hm).
  - intros Hpr Hsw. apply (relative_path_other self Hpr Hsw).
Qed.

Lemma path_mapper_single_segment_root_witness :
  get_relative_namespace_path (cloner_for "acme" 20 4) "acme/platform/api"
  = "platform/api"
  /\ get_relative_namespace_path (cloner_for "acme" 20 4) "acme" = ""
  /\ get_relative_namespace_path (cloner_for "acme" 20 4) "other-org/app"
     = "other-org/app"
  /\ get_relative_namespace_path (cloner_for "" 20 4) "acme/platform"
     = "acme/platform"
  /\ get_relative_namespace_path (cloner_for "a/b" 20 4) "a/b/c" = "a/b/c".
Proof.
  assert (Hm : PyStr.mem PyStr.slash
                 (Config.namespace (config (cloner_for "acme" 20 4))) = false)
    by reflexivity.
  assert (Hne : Config.namespace (config (cloner_for "acme" 20 4))
                <> EmptyString) by discriminate.
  split; [|split; [|split; [|split]]].
  - exact (proj1 (proj1 (proj2 (proj1 (path_mapper_single_segment_root
             (cloner_for "acme" 20 4) "acme/platform/api") Hm) Hne)
             eq_refl)).
  - exact (proj1 (proj2 (proj2 (proj1 (path_mapper_single_segment_root
             (cloner_for "acme" 20 4) "acme") Hm) Hne)) eq_refl).
  - apply (proj2 (proj2 (proj2 (proj1 (path_mapper_single_segment_root
             (cloner_for "acme" 20 4) "other-org/app") Hm) Hne)));
      [discriminate | reflexivity].
  - exact (proj1 (proj1 (path_mapper_single_segment_root
             (cloner_for "" 20 4) "acme/platform") eq_refl) eq_refl).
  - exact (proj2 (path_mapper_single_segment_root
             (cloner_for "a/b" 20 4) "a/b/c") eq_refl).
Defined.

(** C1 as worded fails for a root namespace that holds a separator: the
    path [a/b/c] starts with the root [a/b] and the separator, and the
    mapper returns it unchanged, because its first segment [a] is not the
    root. *)
Lemma path_mapper_nested_root_counterexample :
  get_relative_namespace_path (cloner_for "a/b" 20 4) "a/b/c" = "a/b/c"
  /\ ~ (forall r p, path_mapper_claim r p).
Proof.
  split; [reflexivity|].
  intros H. destruct (H "a/b" "a/b/c") as [_ H2].
  destruct (H2 ltac:(discriminate)) as [H3 _].
  specialize (H3 eq_refl). vm_compute in H3. discriminate.
Qed.

(** ** The monad: how runs compose *)

Section Runs.

Variable W : Type.

Lemma run_bind {A B} (m : M W A) (k : A -> M W B) (w : W) :
  bind m k w =
  match outcome_of (m w) with
  | Return a =>
      (outcome_of (k a (world_of (m w))), world_of (k a (world_of (m w))),
       trace_of (m w) ++ trace_of (k a (world_of (m w))))
  | Raise e => (Raise e, world_of (m w), trace_of (m w))
  | OutOfFuel => (OutOfFuel, world_of (m w), trace_of (m w))
  | Blocked => (Blocked, world_of (m w), trace_of (m w))
  end.
Proof.
  unfold bind, outcome_of, world_of, trace_of.
  destruct (m w) as [[[a|e| |] w'] t]; simpl; try reflexivity.
  destruct (k a w') as [[o w''] t']; reflexivity.
Qed.

Lemma run_bind_return {A B} (m : M W A) (k : A -> M W B) (w w' : W)
      (a : A) (t : list event) :
  m w = (Return a, w', t) ->
  bind m k w = (outcome_of (k a w'), world_of (k a w'), t ++ trace_of (k a w')).
Proof. intros H. rewrite run_bind, H. reflexivity. Qed.

Lemma run_bind_raise {A B} (m : M W A) (k : A -> M W B) (w w' : W)
      (e : exn) (t : list event) :
  m w = (Raise e, w', t) -> bind m k w = (Raise e, w', t).
Proof. intros H. rewrite run_bind, H. reflexivity. Qed.

Lemma run_try {A} (m : M W A) (h : exn -> option (M W A)) (w : W) :
  try_except m h w =
  match outcome_of (m w) with
  | Raise e =>
      match h e with
      | Some k =>
          (outcome_of (k (world_of (m w))), world_of (k (world_of (m w))),
           trace_of (m w) ++ trace_of (k (world_of (m w))))
      | None => m w
      end
  | _ => m w
  end.
Proof.
  unfold try_except, outcome_of, world_of, trace_of.
  destruct (m w) as [[[a|e| |] w'] t]; simpl; try reflexivity.
  destruct (h e) as [k|]; [|reflexivity].
  destruct (k w') as [[o w''] t']; reflexivity.
Qed.

Lemma triple_eta {A} (r : outcome A * W * list event) :
  r = (outcome_of r, world_of r, trace_of r).
Proof. destruct r as [[o w] t]. reflexivity. Qed.

(** *** Coming back *)

Lemma completes_ret {A} (a : A) : completes (@ret W A a).
Proof. intros w. exact I. Qed.

Lemma completes_raise {A} (e : exn) : completes (@raise W A e).
Proof. intros w. exact I. Qed.

Lemma completes_log lvl fmt args : completes (@log W lvl fmt args).
Proof. intros w. exact I. Qed.

Lemma completes_call {A} ev (f : W -> reply A * W) : completes (call ev f).
Proof.
  intros w. unfold call, outcome_of. destruct (f w) as [[a|e] w']; exact I.
Qed.

Lemma completes_bind {A B} (m : M W A) (k : A -> M W B) :
  completes m -> (forall a, completes (k a)) -> completes (bind m k).
Proof.
  intros Hm Hk w. rewrite run_bind. specialize (Hm w).
  destruct (outcome_of (m w)); simpl in *; try contradiction; try exact I.
  apply Hk.
Qed.

Lemma completes_try {A} (m : M W A) (h : exn -> option (M W A)) :
  completes m -> (forall e k, h e = Some k -> completes k) ->
  completes (try_except m h).
Proof.
  intros Hm Hh w. rewrite run_try. specialize (Hm w).
  destruct (outcome_of (m w)) eqn:E; try (rewrite E; exact I);
    try contradiction.
  destruct (h e) as [k|] eqn:Ek.
  - apply (Hh _ _ Ek).
  - rewrite E. exact I.
Qed.

(** A [try] whose clauses take every exception and return: the whole
    statement returns. *)
Lemma returns_try_catch_all {A} (m : M W A) (h : exn -> option (M W A)) :
  completes m -> (forall e, exists k, h e = Some k /\ returns k) ->
  returns (try_except m h).
Proof.
  intros Hm Hh w. rewrite run_try. specialize (Hm w).
  destruct (outcome_of (m w)) eqn:E; try contradiction.
  - exists a. exact E.
  - destruct (Hh e) as [k [-> Hk]]. destruct (Hk (world_of (m w))) as [a Ha].
    exists a. exact Ha.
Qed.

Lemma returns_ret {A} (a : A) : returns (@ret W A a).
Proof. intros w. exists a. reflexivity. Qed.

Lemma returns_log lvl fmt args : returns (@log W lvl fmt args).
Proof. intros w. exists tt. reflexivity. Qed.

Lemma returns_bind {A B} (m : M W A) (k : A -> M W B) :
  returns m -> (forall a, returns (k a)) -> returns (bind m k).
Proof.
  intros Hm Hk w. rewrite run_bind. destruct (Hm w) as [a ->].
  apply Hk.
Qed.

Lemma returns_completes {A} (m : M W A) : returns m -> completes m.
Proof. intros H w. destruct (H w) as [a ->]. exact I. Qed.

(** *** Events of a run *)

Lemma trace_all_ret {A} P (a : A) : trace_all P (@ret W A a).
Proof. intros w. reflexivity. Qed.

Lemma trace_all_raise {A} P (e : exn) : trace_all P (@raise W A e).
Proof. intros w. reflexivity. Qed.

Lemma trace_all_log P lvl fmt args :
  P (EvLog lvl fmt args) = true -> trace_all P (@log W lvl fmt args).
Proof. intros H w. simpl. rewrite H. reflexivity. Qed.

Lemma trace_all_call {A} P ev (f : W -> reply A * W) :
  P ev = true -> trace_all P (call ev f).
Proof.
  intros H w. unfold call, trace_of. destruct (f w) as [[a|e] w']; simpl;
    rewrite H; reflexivity.
Qed.

Lemma trace_all_bind {A B} P (m : M W A) (k : A -> M W B) :
  trace_all P m -> (forall a, trace_all P (k a)) -> trace_all P (bind m k).
Proof.
  intros Hm Hk w. rewrite run_bind. specialize (Hm w).
  destruct (outcome_of (m w)); unfold trace_of in *; simpl; try exact Hm.
  rewrite forallb_app, Hm. apply Hk.
Qed.

Lemma trace_all_try {A} P (m : M W A) (h : exn -> option (M W A)) :
  trace_all P m -> (forall e k, h e = Some k -> trace_all P k) ->
  trace_all P (try_except m h).
Proof.
  intros Hm Hh w. rewrite run_try. specialize (Hm w).
  destruct (outcome_of (m w)); try exact Hm.
  destruct (h e) as [k|] eqn:Ek; [|exact Hm].
  unfold trace_of in *; simpl. rewrite forallb_app, Hm. apply (Hh _ _ Ek).
Qed.

(** *** Programs that differ in their log lines *)

Lemma actions_app (t1 t2 : list event) :
  actions (t1 ++ t2) = actions t1 ++ actions t2.
Proof. unfold actions. apply filter_app. Qed.

Lemma same_refl {A} (m : M W A) : same_but_logs m m.
Proof. intros w. auto. Qed.

Lemma same_log {A} l1 f1 a1 l2 f2 a2 (k1 k2 : M W A) :
  same_but_logs k1 k2 ->
  same_but_logs (bind (log l1 f1 a1) (fun _ => k1))
                (bind (log l2 f2 a2) (fun _ => k2)).
Proof.
  intros H w. rewrite !run_bind. simpl.
  destruct (H w) as [Ho [Hw Ht]]. unfold outcome_of, world_of, trace_of in *.
  simpl. auto.
Qed.

Lemma same_bind {A B} (m1 m2 : M W A) (k1 k2 : A -> M W B) :
  same_but_logs m1 m2 -> (forall a, same_but_logs (k1 a) (k2 a)) ->
  same_but_logs (bind m1 k1) (bind m2 k2).
Proof.
  intros Hm Hk w. rewrite !run_bind.
  destruct (Hm w) as [Ho [Hw Ht]]. rewrite <- Ho, <- Hw.
  destruct (outcome_of (m1 w)); unfold outcome_of, world_of, trace_of;
    simpl; auto.
  destruct (Hk a (snd (fst (m1 w)))) as [Ho' [Hw' Ht']].
  unfold outcome_of, world_of, trace_of in *.
  rewrite !actions_app, Ht, Ht'. auto.
Qed.

Lemma same_try {A} (m1 m2 : M W A) (h1 h2 : exn -> option (M W A)) :
  same_but_logs m1 m2 ->
  (forall e, match h1 e, h2 e with
             | Some k1, Some k2 => same_but_logs k1 k2
             | None, None => True
             | _, _ => False
             end) ->
  same_but_logs (try_except m1 h1) (try_except m2 h2).
Proof.
  intros Hm Hh w. rewrite !run_try.
  destruct (Hm w) as [Ho [Hw Ht]]. rewrite <- Ho.
  destruct (outcome_of (m1 w)) eqn:E; auto.
  specialize (Hh e). destruct (h1 e) as [k1|], (h2 e) as [k2|];
    try contradiction; auto.
  rewrite <- Hw. destruct (Hh (world_of (m1 w))) as [Ho' [Hw' Ht']].
  unfold outcome_of, world_of, trace_of in *. simpl.
  rewrite !actions_app, Ht, Ht'. auto.
Qed.

(** *** Projections of a run *)

Lemma outcome_bind {A B} (m : M W A) (k : A -> M W B) (w : W) :
  outcome_of (bind m k w) =
  match outcome_of (m w) with
  | Return a => outcome_of (k a (world_of (m w)))
  | Raise e => Raise e
  | OutOfFuel => OutOfFuel
  | Blocked => Blocked
  end.
Proof. rewrite run_bind. destruct (outcome_of (m w)); reflexivity. Qed.

Lemma world_bind {A B} (m : M W A) (k : A -> M W B) (w : W) :
  world_of (bind m k w) =
  match outcome_of (m w) with
  | Return a => world_of (k a (world_of (m w)))
  | _ => world_of (m w)
  end.
Proof. rewrite run_bind. destruct (outcome_of (m w)); reflexivity. Qed.

Lemma trace_bind {A B} (m : M W A) (k : A -> M W B) (w : W) :
  trace_of (bind m k w) =
  match outcome_of (m w) with
  | Return a => trace_of (m w) ++ trace_of (k a (world_of (m w)))
  | _ => trace_of (m w)
  end.
Proof. rewrite run_bind. destruct (outcome_of (m w)); reflexivity. Qed.

Lemma outcome_try {A} (m : M W A) (h : exn -> option (M W A)) (w : W) :
  outcome_of (try_except m h w) =
  match outcome_of (m w) with
  | Raise e =>
      match h e with
      | Some k => outcome_of (k (world_of (m w)))
      | None => Raise e
      end
  | o => o
  end.
Proof.
  rewrite run_try. destruct (outcome_of (m w)) eqn:E; try exact E.
  destruct (h e); [reflexivity | exact E].
Qed.

Lemma world_try {A} (m : M W A) (h : exn -> option (M W A)) (w : W) :
  world_of (try_except m h w) =
  match outcome_of (m w) with
  | Raise e =>
      match h e with
      | Some k => world_of (k (world_of (m w)))
      | None => world_of (m w)
      end
  | _ => world_of (m w)
  end.
Proof.
  rewrite run_try. destruct (outcome_of (m w)) eqn:E; try reflexivity.
  destruct (h e); reflexivity.
Qed.

Lemma trace_try {A} (m : M W A) (h : exn -> option (M W A)) (w : W) :
  trace_of (try_except m h w) =
  match outcome_of (m w) with
  | Raise e =>
      match h e with
      | Some k => trace_of (m w) ++ trace_of (k (world_of (m w)))
      | None => trace_of (m w)
      end
  | _ => trace_of (m w)
  end.
Proof.
  rewrite run_try. destruct (outcome_of (m w)) eqn:E; try reflexivity.
  destruct (h e); reflexivity.
Qed.

Lemma run_call {A} (ev : event) (f : W -> reply A * W) (w w' : W)
      (r : reply A) :
  f w = (r, w') ->
  call ev f w = (match r with inl a => Return a | inr e => Raise e end,
                 w', [ev]).
Proof. intros H. unfold call. rewrite H. destruct r; reflexivity. Qed.

End Runs.

(** ** Sync Executor: it comes back, and its commands carry timeouts *)

Section SyncFacts.

Variable W : Type.
Variable env : Env W.
Variable self : GitLabCloner.

Lemma completes_subprocess_run (c : command) :
  timeout c <> None -> completes (subprocess_run env c).
Proof.
  intros Ht w. unfold subprocess_run, outcome_of.
  destruct (spawn env c w) as [[rc out err| |e] w']; simpl.
  - destruct (check c && negb (rc =? 0)%Z); exact I.
  - destruct (timeout c); [exact I | contradiction].
  - exact I.
Qed.

Lemma trace_all_subprocess_run (c : command) :
  bounded_timeout (EvRun c) = true ->
  trace_all bounded_timeout (subprocess_run env c).
Proof.
  intros Hb w. unfold subprocess_run, trace_of.
  destruct (spawn env c w) as [[rc out err| |e] w']; simpl.
  - destruct (check c && negb (rc =? 0)%Z); simpl; simpl in Hb; rewrite Hb;
      reflexivity.
  - destruct (timeout c); simpl; simpl in Hb; rewrite Hb; reflexivity.
  - simpl in Hb. rewrite Hb. reflexivity.
Qed.

Ltac handler_cases :=
  match goal with
  | H : (if ?b then _ else _) = Some _ |- _ =>
      destruct b; [|try discriminate H]; try (injection H as <-)
  | H : match ?e with _ => _ end = Some _ |- _ =>
      destruct e; try discriminate H; try (injection H as <-)
  | H : Some _ = Some _ |- _ => injection H as <-
  | H : None = Some _ |- _ => discriminate H
  end.

Ltac branch_cases tac :=
  match goal with
  | |- context [if ?b then _ else _] => destruct b
  | |- context [match ?x with _ => _ end] => destruct x
  end; tac.

Ltac comp :=
  first
    [ apply completes_ret
    | apply completes_raise
    | apply completes_log
    | apply completes_call
    | apply completes_subprocess_run; discriminate
    | apply completes_bind; [comp | intros; comp]
    | apply completes_try; [comp | intros; repeat handler_cases; comp]
    | assumption
    | match goal with
      | |- completes (if ?b then _ else _) => destruct b; comp
      | |- completes (match ?x with _ => _ end) => destruct x; comp
      end ].

Ltac bounded :=
  first
    [ apply trace_all_ret
    | apply trace_all_raise
    | apply trace_all_log; reflexivity
    | apply trace_all_call; reflexivity
    | apply trace_all_subprocess_run; reflexivity
    | apply trace_all_bind; [bounded | intros; bounded]
    | apply trace_all_try; [bounded | intros; repeat handler_cases; bounded]
    | assumption
    | match goal with
      | |- trace_all _ (if ?b then _ else _) => destruct b; bounded
      | |- trace_all _ (match ?x with _ => _ end) => destruct x; bounded
      end ].

Lemma completes_probe_branches (p : Path) (bs : list string) :
  completes (probe_branches env p bs).
Proof.
  induction bs as [|b bs IH]; simpl; [apply completes_ret|]. comp.
Qed.

Lemma trace_all_probe_branches (p : Path) (bs : list string) :
  trace_all bounded_timeout (probe_branches env p bs).
Proof.
  induction bs as [|b bs IH]; simpl; [apply trace_all_ret|]. bounded.
Qed.

Lemma completes_get_default_branch (p : Path) :
  completes (get_default_branch env p).
Proof.
  pose proof (completes_probe_branches p ["main"; "master"; "develop"]).
  unfold get_default_branch. comp.
Qed.

Lemma trace_all_get_default_branch (p : Path) :
  trace_all bounded_timeout (get_default_branch env p).
Proof.
  pose proof (trace_all_probe_branches p ["main"; "master"; "develop"]).
  unfold get_default_branch. bounded.
Qed.

Lemma completes_sync_body (project : Project.t) :
  completes (sync_body env self project).
Proof.
  pose proof (completes_get_default_branch (project_dir_of self project)).
  unfold sync_body, update_existing, clone_new, mkdir, exists_. comp.
Qed.

Lemma trace_all_sync_body (project : Project.t) :
  trace_all bounded_timeout (sync_body env self project).
Proof.
  pose proof (trace_all_get_default_branch (project_dir_of self project)).
  unfold sync_body, update_existing, clone_new, mkdir, exists_. bounded.
Qed.

Lemma sync_handlers_total (project : Project.t) (e : exn) :
  exists k, sync_handlers W project e = Some k /\
            (forall w : W, outcome_of (k w) = Return false) /\
            trace_all bounded_timeout k.
Proof.
  unfold sync_handlers.
  destruct e; simpl; eexists; (split; [reflexivity|]); split;
    try (intros w; reflexivity); try bounded.
  intros w. destruct (PyStr.truthy stderr); reflexivity.
Qed.

(** [safe_clone_project] returns a boolean, whatever the environment
    does. *)
Lemma safe_clone_project_returns (project : Project.t) :
  returns (safe_clone_project env self project).
Proof.
  unfold safe_clone_project. apply returns_try_catch_all.
  - apply completes_sync_body.
  - intros e. destruct (sync_handlers_total project e) as [k [Hk [Hr _]]].
    exists k. split; [exact Hk|]. intros w. exists false. apply Hr.
Qed.

(** Whatever the [try] block raises, the result is [False]. *)
Lemma safe_clone_project_raise (project : Project.t) (w : W) (e : exn) :
  outcome_of (sync_body env self project w) = Raise e ->
  outcome_of (safe_clone_project env self project w) = Return false.
Proof.
  intros H. unfold safe_clone_project. rewrite run_try, H.
  destruct (sync_handlers_total project e) as [k [-> [Hr _]]].
  unfold outcome_of at 1. simpl. apply Hr.
Qed.

Lemma trace_all_safe_clone_project (project : Project.t) :
  trace_all bounded_timeout (safe_clone_project env self project).
Proof.
  unfold safe_clone_project. apply trace_all_try.
  - apply trace_all_sync_body.
  - intros e k Hk. destruct (sync_handlers_total project e) as [k' [Hk' [_ Ht]]].
    congruence.
Qed.

Lemma clone_project_parallel_run (project : Project.t) (w : W) :
  exists b,
    outcome_of (safe_clone_project env self project w) = Return b /\
    outcome_of (clone_project_parallel env self project w)
    = Return (outcome_tuple project b) /\
    world_of (clone_project_parallel env self project w)
    = world_of (safe_clone_project env self project w).
Proof.
  destruct (safe_clone_project_returns project w) as [b Hb].
  exists b. split; [exact Hb|].
  unfold clone_project_parallel. rewrite run_try, run_bind, Hb.
  destruct b; unfold outcome_of, world_of; simpl; auto.
Qed.

End SyncFacts.

(** ** Parallel Coordinator: the accounts of the pool *)

Lemma occ_app (l1 l2 : list string) (x : string) :
  occ (l1 ++ l2) x = occ l1 x + occ l2 x.
Proof. apply count_occ_app. Qed.

Lemma remove_nth_occ {A} (f : A -> string) (l : list A) (i : nat) (a : A)
      (x : string) :
  nth_error l i = Some a ->
  occ (map f l) x = occ [f a] x + occ (map f (remove_nth i l)) x.
Proof.
  revert i. induction l as [|b l IH]; intros [|i] H; simpl in H;
    try discriminate.
  - injection H as ->. simpl. destruct (string_dec (f a) x); reflexivity.
  - simpl. rewrite (IH _ H). simpl.
    destruct (string_dec (f a) x), (string_dec (f b) x); lia.
Qed.

Lemma remove_nth_length {A} (l : list A) (i : nat) (a : A) :
  nth_error l i = Some a ->
  List.length l = S (List.length (remove_nth i l)).
Proof.
  revert i. induction l as [|b l IH]; intros [|i] H; simpl in H;
    try discriminate; simpl; [reflexivity|].
  rewrite (IH _ H). reflexivity.
Qed.

Lemma remove_nth_In {A} (l : list A) (i : nat) (a : A) :
  In a (remove_nth i l) -> In a l.
Proof.
  revert i. induction l as [|b l IH]; intros [|i] H; simpl in *; auto.
  destruct H as [H|H]; eauto.
Qed.

Lemma remove_nth_future_occ (l : list (sync_outcome + exn)) (i : nat)
      (o : sync_outcome) (x : string) :
  nth_error l i = Some (inl o) ->
  occ (future_names l) x
  = occ [outcome_name o] x + occ (future_names (remove_nth i l)) x.
Proof.
  revert i. induction l as [|b l IH]; intros [|i] H; simpl in H;
    try discriminate.
  - injection H as ->.
    change (future_names (inl o :: l))
      with ([outcome_name o] ++ future_names l).
    rewrite occ_app. reflexivity.
  - change (future_names (b :: l))
      with ((match b with inl o' => [outcome_name o'] | inr _ => [] end)
              ++ future_names l).
    change (future_names (remove_nth (S i) (b :: l)))
      with ((match b with inl o' => [outcome_name o'] | inr _ => [] end)
              ++ future_names (remove_nth i l)).
    rewrite !occ_app, (IH _ H). lia.
Qed.

Lemma future_names_app (l1 l2 : list (sync_outcome + exn)) :
  future_names (l1 ++ l2) = future_names l1 ++ future_names l2.
Proof. unfold future_names. apply flat_map_app. Qed.

Lemma filter_split_length {A} (f : A -> bool) (l : list A) :
  List.length (filter f l) + List.length (filter (fun a => negb (f a)) l)
  = List.length l.
Proof.
  induction l as [|a l IH]; simpl; [reflexivity|].
  destruct (f a); simpl; lia.
Qed.

Section PoolFacts.

Variable W : Type.
Variable workers : nat.
Variable task : Project.t -> M W sync_outcome.
Variable projects : list Project.t.

(** What the pool needs of its task: it returns a tuple that carries the
    name of its project. *)
Hypothesis task_returns :
  forall p w, exists r,
    outcome_of (task p w) = Return r
    /\ outcome_name r = Project.name_with_namespace p.

Lemma pool_init_inv (w : W) : pool_inv projects (pool_init projects w).
Proof.
  constructor; simpl; try reflexivity.
  - intros f [].
  - intros x. lia.
Qed.

Lemma pool_step_inv (c : choice) (st st' : pool W) :
  pool_inv projects st -> pool_step workers task c st = Some st' ->
  pool_inv projects st'.
Proof.
  intros [Hc Hf Hp Hs Hfl Hfp Hb] Hstep. destruct c as [|i|i]; simpl in Hstep.
  - unfold step_start in Hstep.
    destruct (pending st) as [|p rest] eqn:Ep; [discriminate|].
    destruct (List.length (running st) <? workers)%nat; [|discriminate].
    injection Hstep as <-. constructor; simpl; auto.
    intros x. specialize (Hp x). unfold names in *. simpl in Hp.
    rewrite map_app, occ_app. simpl.
    unfold occ in *. simpl in *.
    destruct (string_dec (Project.name_with_namespace p) x); lia.
  - unfold step_finish in Hstep.
    destruct (nth_error (running st) i) as [p|] eqn:En; [|discriminate].
    destruct (task_returns p (pool_world st)) as [r [Hr Hn]].
    unfold outcome_of in Hr.
    destruct (task p (pool_world st)) as [[o w'] t]. simpl in Hr. subst o.
    injection Hstep as <-. constructor; simpl; auto.
    + intros f Hin. apply in_app_or in Hin. destruct Hin as [Hin|[<-|[]]];
        eauto.
    + intros x. specialize (Hp x). unfold names in *.
      rewrite (remove_nth_occ Project.name_with_namespace _ _ x En) in Hp.
      rewrite future_names_app, occ_app. simpl. rewrite Hn.
      unfold occ in *. simpl in *. lia.
  - unfold step_collect in Hstep. rewrite Hc in Hstep.
    destruct (nth_error (finished st) i) as [[[[nm success] error]|e]|] eqn:En;
      try discriminate.
    + injection Hstep as <-. constructor; simpl; auto.
      * intros f Hin. apply Hf. eapply remove_nth_In; eauto.
      * intros x. specialize (Hp x).
        rewrite (remove_nth_future_occ _ _ x En) in Hp.
        rewrite map_app, occ_app. simpl. unfold occ in *. simpl in *. lia.
      * rewrite filter_app, length_app. unfold outcome_success at 2. simpl.
        destruct success; simpl; lia.
      * rewrite filter_app, length_app. unfold outcome_failed at 2.
        unfold outcome_success. simpl. destruct success; simpl; lia.
      * rewrite filter_app, map_app. unfold outcome_failed at 2.
        unfold outcome_success. simpl.
        destruct success; simpl; rewrite Hfp; [rewrite app_nil_r|];
          reflexivity.
      * rewrite length_app. simpl. lia.
    + exfalso. apply nth_error_In in En. destruct (Hf _ En) as [o Ho].
      discriminate.
Qed.

Lemma pool_exec_inv (sched : list choice) (st : pool W) :
  pool_inv projects st ->
  pool_inv projects (pool_exec workers task sched st).
Proof.
  revert st. induction sched as [|c sched IH]; intros st Hi; simpl; auto.
  destruct (pool_step workers task c st) as [st'|] eqn:E; auto.
  apply IH. eapply pool_step_inv; eauto.
Qed.

(** At the end the loop has taken one tuple for every project. *)
Lemma pool_terminal_accounts (st : pool W) :
  pool_inv projects st -> pool_terminal st = true ->
  Permutation (map outcome_name (taken st)) (names projects)
  /\ List.length (taken st) = List.length projects
  /\ successful st + failed st = List.length projects
  /\ List.length (failed_projects st) = failed st
  /\ pbar st = List.length projects.
Proof.
  intros [Hc Hf Hp Hs Hfl Hfp Hb] Ht. unfold pool_terminal in Ht.
  rewrite Hc in Ht.
  destruct (pending st) eqn:E1; [|discriminate].
  destruct (running st) eqn:E2; [|discriminate].
  destruct (finished st) eqn:E3; [|discriminate].
  assert (Hperm : Permutation (map outcome_name (taken st)) (names projects)).
  { apply (proj2 (Permutation_count_occ string_dec _ _)). intros x.
    specialize (Hp x). unfold occ in Hp. simpl in Hp. lia. }
  assert (Hlen : List.length (taken st) = List.length projects).
  { apply Permutation_length in Hperm. unfold names in Hperm.
    rewrite !length_map in Hperm. exact Hperm. }
  split; [exact Hperm|]. split; [exact Hlen|].
  split; [|split].
  - rewrite Hs, Hfl, <- Hlen. apply filter_split_length.
  - rewrite Hfp, Hfl, length_map. reflexivity.
  - rewrite Hb. exact Hlen.
Qed.

(** No deadlock: a pool that is not at its end can take a step. *)
Lemma pool_progress (st : pool W) :
  0 < workers -> pool_inv projects st -> pool_terminal st = false ->
  exists c st', pool_step workers task c st = Some st'.
Proof.
  intros Hw [Hc Hf Hp Hs Hfl Hfp Hb] Ht. unfold pool_terminal in Ht.
  rewrite Hc in Ht.
  destruct (finished st) as [|f fs] eqn:E3.
  - destruct (running st) as [|p ps] eqn:E2.
    + destruct (pending st) as [|q qs] eqn:E1; [discriminate|].
      exists Start. simpl. unfold step_start. rewrite E1, E2. simpl.
      destruct workers; [lia|]. simpl. eauto.
    + exists (Finish 0). simpl. unfold step_finish. rewrite E2. simpl.
      destruct (task_returns p (pool_world st)) as [r [Hr _]].
      unfold outcome_of in Hr.
      destruct (task p (pool_world st)) as [[o w'] t]. simpl in Hr. subst o.
      eauto.
  - exists (Collect 0). simpl. unfold step_collect. rewrite Hc, E3. simpl.
    destruct (Hf f) as [[[nm success] error] ->]; [left; reflexivity|].
    eauto.
Qed.

(** No endless run: every step uses up some of the measure. *)
Lemma pool_step_measure (c : choice) (st st' : pool W) :
  pool_step workers task c st = Some st' ->
  pool_measure st' < pool_measure st.
Proof.
  intros Hstep. unfold pool_measure. destruct c as [|i|i]; simpl in Hstep.
  - unfold step_start in Hstep.
    destruct (pending st) as [|p rest]; [discriminate|].
    destruct (List.length (running st) <? workers)%nat; [|discriminate].
    injection Hstep as <-. simpl. rewrite length_app. simpl. lia.
  - unfold step_finish in Hstep.
    destruct (nth_error (running st) i) as [p|] eqn:En; [|discriminate].
    pose proof (remove_nth_length _ _ En) as Hl.
    destruct (task p (pool_world st)) as [[[r|e| |] w'] t];
      try discriminate; injection Hstep as <-; simpl; rewrite length_app;
      simpl; lia.
  - unfold step_collect in Hstep.
    destruct (crashed st); [discriminate|].
    destruct (nth_error (finished st) i) as [f|] eqn:En; [|discriminate].
    pose proof (remove_nth_length _ _ En) as Hl.
    destruct f as [[[nm success] error]|e]; injection Hstep as <-; simpl; lia.
Qed.

(** One round of the sequential schedule: the first pending task is
    started, finishes and is taken. *)
Lemma pool_round (st : pool W) (p : Project.t) (rest : list Project.t) :
  0 < workers -> crashed st = None -> running st = [] -> finished st = [] ->
  pending st = p :: rest ->
  exists st',
    pool_exec workers task [Start; Finish 0; Collect 0] st = st'
    /\ pending st' = rest /\ running st' = [] /\ finished st' = []
    /\ crashed st' = None.
Proof.
  intros Hw Hc Hr Hf Ep. simpl.
  unfold step_start at 1. rewrite Ep, Hr. simpl.
  destruct workers as [|k]; [lia|]. simpl.
  unfold step_finish at 1. simpl.
  destruct (task_returns p (pool_world st)) as [r [Hret _]].
  unfold outcome_of in Hret.
  destruct (task p (pool_world st)) as [[o w'] t]. simpl in Hret. subst o.
  unfold step_collect at 1. simpl. rewrite Hc, Hf. simpl.
  destruct r as [[nm success] error]. eexists. split; [reflexivity|].
  simpl. auto.
Qed.

(** The schedule that runs the tasks one after the other ends the pool. *)
Lemma drain_schedule_terminal (n : nat) (st : pool W) :
  0 < workers -> crashed st = None -> running st = [] -> finished st = [] ->
  List.length (pending st) = n ->
  pool_terminal (pool_exec workers task (drain_schedule n) st) = true.
Proof.
  intros Hw. revert st. induction n as [|n IH]; intros st Hc Hr Hf En.
  - simpl. unfold pool_terminal. rewrite Hc, Hr, Hf.
    destruct (pending st); [reflexivity|discriminate].
  - destruct (pending st) as [|p rest] eqn:Ep; [discriminate|].
    simpl in En. injection En as En.
    destruct (pool_round st Hw Hc Hr Hf Ep) as [st' [He [P' [R' [F' C']]]]].
    change (drain_schedule (S n))
      with ([Start; Finish 0; Collect 0] ++ drain_schedule n).
    assert (Happ : forall s1 s2 s,
               pool_exec workers task (s1 ++ s2) s
               = pool_exec workers task s2 (pool_exec workers task s1 s)).
    { induction s1 as [|c s1 IH1]; intros s2 s; simpl; [reflexivity|].
      destruct (pool_step workers task c s); apply IH1. }
    rewrite Happ, He. apply IH; auto. rewrite P'. exact En.
Qed.

End PoolFacts.

(** ** Parallel Coordinator and Sync Executor: the claims *)

Lemma clone_project_parallel_task {W} (env : Env W) (self : GitLabCloner)
      (p : Project.t) (w : W) :
  exists r,
    outcome_of (clone_project_parallel env self p w) = Return r
    /\ outcome_name r = Project.name_with_namespace p.
Proof.
  destruct (clone_project_parallel_run env self p w) as [b [_ [Hr _]]].
  exists (outcome_tuple p b). split; [exact Hr | reflexivity].
Qed.

(** [clone_all_projects] from the project list on, for a list that is not
    empty, a base directory that can be made and a worker count above
    zero: the summary of the pool if the schedule ends it. *)
Lemma process_projects_run {W} (env : Env W) (self : GitLabCloner)
      (sched : list choice) (projects : list Project.t) (w w1 : W) :
  projects <> [] -> (0 < Config.max_workers (config self))%Z ->
  path_mkdir env (PathOf (Config.clone_directory (config self))) w
  = (inl tt, w1) ->
  outcome_of (process_projects env self sched projects w)
  = if pool_terminal (coordinator_run env self sched projects w1)
    then Return
           (Some {| sum_successful :=
                      successful (coordinator_run env self sched projects w1);
                    sum_failed :=
                      failed (coordinator_run env self sched projects w1);
                    sum_total := List.length projects;
                    sum_failed_projects :=
                      failed_projects
                        (coordinator_run env self sched projects w1) |})
    else OutOfFuel.
Proof.
  intros Hne Hw Hmk.
  pose proof (@pool_exec_inv W (Z.to_nat (Config.max_workers (config self)))
                _ projects (clone_project_parallel_task env self) sched
                _ (pool_init_inv projects w1)) as Hinv.
  fold (coordinator_run env self sched projects w1) in Hinv.
  destruct Hinv as [Hc _ _ _ _ _ _].
  unfold process_projects.
  destruct projects as [|p ps]; [contradiction|].
  cbn [nonempty negb].
  assert (Hlog : forall l, outcome_of (log_failed_projects (World:=W) l
                   (pool_world (coordinator_run env self sched (p :: ps) w1)))
                 = Return tt).
  { intros l.
    generalize (pool_world (coordinator_run env self sched (p :: ps) w1)).
    induction l as [|[nm er] l IH]; intros w0; [reflexivity|].
    simpl. rewrite outcome_bind. cbn. apply IH. }
  rewrite outcome_bind. cbn [log outcome_of world_of fst snd].
  rewrite outcome_bind. unfold mkdir.
  rewrite (run_call _ _ _ Hmk). cbn [outcome_of world_of fst snd].
  rewrite outcome_bind.
  assert (Hrun : run_pool env self sched (p :: ps) w1
                 = if pool_terminal (coordinator_run env self sched (p :: ps) w1)
                   then (Return (coordinator_run env self sched (p :: ps) w1),
                         pool_world (coordinator_run env self sched (p :: ps) w1),
                         pool_trace (coordinator_run env self sched (p :: ps) w1))
                   else (OutOfFuel,
                         pool_world (coordinator_run env self sched (p :: ps) w1),
                         pool_trace (coordinator_run env self sched (p :: ps) w1))).
  { unfold run_pool.
    destruct (Config.max_workers (config self) <=? 0)%Z eqn:El;
      [apply Z.leb_le in El; lia|].
    fold (coordinator_run env self sched (p :: ps) w1). rewrite Hc.
    reflexivity. }
  rewrite Hrun.
  destruct (pool_terminal (coordinator_run env self sched (p :: ps) w1));
    [|reflexivity].
  cbn [outcome_of world_of fst snd].
  repeat (rewrite outcome_bind; cbn [log outcome_of world_of fst snd]).
  destruct (nonempty (failed_projects _)).
  - rewrite outcome_bind. cbn [log outcome_of world_of fst snd].
    fold (outcome_of (log_failed_projects
            (failed_projects (coordinator_run env self sched (p :: ps) w1))
            (pool_world (coordinator_run env self sched (p :: ps) w1)))).
    rewrite Hlog. reflexivity.
  - reflexivity.
Qed.

(** C2: for every list of [n] project descriptors and every positive
    worker count (so for every [w <= n] too), whatever the schedule and
    however many syncs fail: the coordinator is never left by an
    exception; a pool that has not ended can always take a step, and each
    step brings it nearer its end; a schedule that ends the pool exists;
    and at the end the loop has taken exactly one outcome per descriptor,
    with [successful + failed = n].  [clone_all_projects] then returns the
    summary with these counts. *)
Theorem coordinator_one_outcome_per_project
        {W} (env : Env W) (self : GitLabCloner)
        (projects : list Project.t) (w : W) :
  (0 < Config.max_workers (config self))%Z ->
  (forall sched,
      crashed (coordinator_run env self sched projects w) = None
      /\ (pool_terminal (coordinator_run env self sched projects w) = true ->
          Permutation
            (map outcome_name (taken (coordinator_run env self sched projects w)))
            (names projects)
          /\ List.length (taken (coordinator_run env self sched projects w))
             = List.length projects
          /\ successful (coordinator_run env self sched projects w)
             + failed (coordinator_run env self sched projects w)
             = List.length projects
          /\ List.length
               (failed_projects (coordinator_run env self sched projects w))
             = failed (coordinator_run env self sched projects w)
          /\ pbar (coordinator_run env self sched projects w)
             = List.length projects)
      /\ (pool_terminal (coordinator_run env self sched projects w) = false ->
          exists c st',
            pool_step (Z.to_nat (Config.max_workers (config self)))
                      (clone_project_parallel env self) c
                      (coordinator_run env self sched projects w) = Some st'
            /\ pool_measure st'
               < pool_measure (coordinator_run env self sched projects w)))
  /\ (exists sched,
         pool_terminal (coordinator_run env self sched projects w) = true)
  /\ (forall sched s,
         outcome_of (process_projects env self sched projects w)
         = Return (Some s) ->
         sum_successful s + sum_failed s = List.length projects
         /\ List.length (sum_failed_projects s) = sum_failed s)
  /\ (forall w1,
         projects <> [] ->
         path_mkdir env (PathOf (Config.clone_directory (config self))) w
         = (inl tt, w1) ->
         exists sched s,
           outcome_of (process_projects env self sched projects w)
           = Return (Some s)
           /\ sum_successful s + sum_failed s = List.length projects).
Proof.
  intros Hw.
  assert (Hpos : 0 < Z.to_nat (Config.max_workers (config self))) by lia.
  assert (Hinv : forall sched w0,
             pool_inv projects (coordinator_run env self sched projects w0)).
  { intros sched w0. unfold coordinator_run.
    apply (@pool_exec_inv W _ _ projects (clone_project_parallel_task env self)).
    apply pool_init_inv. }
  assert (Hdrain : forall w0,
             pool_terminal (coordinator_run env self
                              (drain_schedule (List.length projects))
                              projects w0) = true).
  { intros w0. unfold coordinator_run.
    apply (@drain_schedule_terminal W _ _
             (clone_project_parallel_task env self)); auto. }
  split; [|split; [|split]].
  - intros sched. split; [apply (Hinv sched w)|]. split.
    + apply (pool_terminal_accounts (Hinv sched w)).
    + intros Ht.
      destruct (@pool_progress W _ _ projects
                  (clone_project_parallel_task env self) _ Hpos
                  (Hinv sched w) Ht) as [c [st' Hs]].
      exists c, st'. split; [exact Hs|]. eapply pool_step_measure; eauto.
  - exists (drain_schedule (List.length projects)). apply Hdrain.
  - intros sched s Hs.
    destruct projects as [|p ps] eqn:Ep.
    + unfold process_projects in Hs. cbn [nonempty negb] in Hs.
      rewrite outcome_bind in Hs. cbn in Hs. discriminate.
    + destruct (path_mkdir env (PathOf (Config.clone_directory (config self))) w)
        as [[[]|e] w1] eqn:Hmk.
      * assert (Hne : p :: ps <> []) by discriminate.
        rewrite (@process_projects_run W env self sched _ w w1 Hne Hw Hmk)
          in Hs.
        destruct (pool_terminal _) eqn:Ht; [|discriminate].
        injection Hs as <-. cbn [sum_successful sum_failed sum_failed_projects].
        rewrite <- Ep in *.
        destruct (pool_terminal_accounts (Hinv sched w1) Ht)
          as [_ [_ [H1 [H2 _]]]].
        split; assumption.
      * unfold process_projects in Hs. cbn [nonempty negb] in Hs.
        rewrite outcome_bind in Hs. cbn [log outcome_of world_of fst snd] in Hs.
        rewrite outcome_bind in Hs. unfold mkdir in Hs.
        rewrite (run_call _ _ _ Hmk) in Hs. cbn in Hs. discriminate.
  - intros w1 Hne Hmk.
    exists (drain_schedule (List.length projects)).
    rewrite (@process_projects_run W env self _ _ w w1 Hne Hw Hmk).
    rewrite Hdrain. eexists. split; [reflexivity|].
    cbn [sum_successful sum_failed].
    apply (pool_terminal_accounts (Hinv _ w1) (Hdrain w1)).
Qed.

Lemma coordinator_one_outcome_per_project_witness :
  successful (coordinator_run env_clones_api_only (cloner_for "acme" 20 2)
                              web_first two_projects tt)
  + failed (coordinator_run env_clones_api_only (cloner_for "acme" 20 2)
                            web_first two_projects tt)
  = 2.
Proof.
  assert (Hw : (0 < Config.max_workers (config (cloner_for "acme" 20 2)))%Z)
    by reflexivity.
  exact (proj1 (proj2 (proj2
           (proj1 (proj2 (proj1 (coordinator_one_outcome_per_project
                                   env_clones_api_only (cloner_for "acme" 20 2)
                                   two_projects tt Hw) web_first))
                  eq_refl)))).
Defined.

Example coordinator_two_projects :
  let st := coordinator_run env_clones_api_only (cloner_for "acme" 20 2)
                            web_first two_projects tt in
  pool_terminal st = true /\ successful st = 1 /\ failed st = 1
  /\ failed_projects st = [("acme / web", Some "Partial failure")]
  /\ taken st = [("acme / web", false, Some "Partial failure");
                 ("acme / api", true, None)].
Proof. vm_compute. repeat split. Qed.

(** C3: for every project descriptor and every environment, the Sync
    Executor returns: [safe_clone_project] gives a boolean and
    [clone_project_parallel] the tuple for it; whatever exception the
    sync raises (timeout, failed git command, file-system or permission
    error, any other), the result is the failed outcome of that
    repository; and in no schedule is the coordinator left by an
    exception of a sync. *)
Theorem sync_errors_stay_inside
        {W} (env : Env W) (self : GitLabCloner) (project : Project.t) (w : W) :
  (exists b,
      outcome_of (safe_clone_project env self project w) = Return b
      /\ outcome_of (clone_project_parallel env self project w)
         = Return (outcome_tuple project b))
  /\ (forall e,
         outcome_of (sync_body env self project w) = Raise e ->
         outcome_of (safe_clone_project env self project w) = Return false
         /\ outcome_of (clone_project_parallel env self project w)
            = Return (Project.name_with_namespace project, false,
                      Some "Partial failure"))
  /\ (forall workers sched projects w0,
         crashed (pool_exec workers (clone_project_parallel env self) sched
                            (pool_init projects w0)) = None).
Proof.
  split; [|split].
  - destruct (clone_project_parallel_run env self project w) as [b [H1 [H2 _]]].
    exists b. split; assumption.
  - intros e He.
    pose proof (safe_clone_project_raise env self project w He) as Hf.
    split; [exact Hf|].
    destruct (clone_project_parallel_run env self project w) as [b [H1 [H2 _]]].
    rewrite Hf in H1. injection H1 as <-. exact H2.
  - intros workers sched projects w0.
    apply (@pool_exec_inv W workers _ projects
             (clone_project_parallel_task env self) sched _
             (pool_init_inv projects w0)).
Qed.

Lemma sync_errors_stay_inside_witness :
  outcome_of (sync_body env_clones_api_only (cloner_for "acme" 20 2)
                        (sample_project "web") tt) = Raise TimeoutExpired
  /\ outcome_of (clone_project_parallel env_clones_api_only
                   (cloner_for "acme" 20 2) (sample_project "web") tt)
     = Return ("acme / web", false, Some "Partial failure").
Proof.
  split; [reflexivity|].
  exact (proj2 (proj1 (proj2 (sync_errors_stay_inside env_clones_api_only
                                (cloner_for "acme" 20 2)
                                (sample_project "web") tt))
                      TimeoutExpired eq_refl)).
Defined.

(** ** Remote Project Lister: proofs *)

Lemma api_requests_actions (t : list event) :
  api_requests (actions t) = api_requests t.
Proof.
  induction t as [|ev t IH]; [reflexivity|].
  destruct ev; simpl; rewrite ?IH; reflexivity.
Qed.

Lemma completes_bind_ensures {W A B} (Q : A -> Prop)
      (m : M W A) (k : A -> M W B) :
  completes m -> ensures Q m -> (forall a, Q a -> completes (k a)) ->
  completes (bind m k).
Proof.
  intros Hm Hq Hk w. rewrite outcome_bind. specialize (Hm w).
  destruct (outcome_of (m w)) eqn:E; simpl in *; try contradiction;
    try exact I.
  apply Hk. apply (Hq w). exact E.
Qed.

Ltac handler_cases :=
  match goal with
  | H : (if ?b then _ else _) = Some _ |- _ =>
      destruct b; [|try discriminate H]; try (injection H as <-)
  | H : Some _ = Some _ |- _ => injection H as <-
  | H : None = Some _ |- _ => discriminate H
  end.

Ltac comp :=
  first
    [ apply completes_ret
    | apply completes_raise
    | apply completes_log
    | apply completes_call
    | apply completes_bind; [comp | intros; comp]
    | apply completes_try; [comp | intros; repeat handler_cases; comp]
    | assumption
    | match goal with
      | |- completes (if ?b then _ else _) => destruct b; comp
      | |- completes (match ?x with _ => _ end) => destruct x; comp
      end ].

Section ListerFacts.

Variable W : Type.
Variable env : Env W.
Variable self : GitLabCloner.

(** *** The user lister does not read the user name *)

Lemma same_get_user_projects_body (u1 u2 : string)
      (projects : list Project.t) (page : Z) :
  same_but_logs (get_user_projects_body env self u1 projects page)
                (get_user_projects_body env self u2 projects page).
Proof.
  unfold get_user_projects_body. apply same_try.
  - apply same_bind; [apply same_refl|]. intros pp.
    destruct (negb (nonempty pp) || _); [apply same_refl|].
    apply same_log. destruct (_ >? 50)%Z; [|apply same_refl].
    apply same_log. apply same_refl.
  - intros e. destruct (is_GitlabError e); [apply same_refl | exact I].
Qed.

Lemma same_get_user_projects_loop (u1 u2 : string) (fuel : nat)
      (projects : list Project.t) (page : Z) :
  same_but_logs (get_user_projects_loop env self fuel u1 projects page)
                (get_user_projects_loop env self fuel u2 projects page).
Proof.
  revert projects page. induction fuel as [|fuel IH]; intros projects page;
    simpl; [apply same_refl|].
  apply same_bind; [apply same_get_user_projects_body|].
  intros [ps|[ps pg]]; [apply same_refl | apply IH].
Qed.

Lemma same_get_user_projects (u1 u2 : string) (fuel : nat) :
  same_but_logs (get_user_projects env self fuel u1)
                (get_user_projects env self fuel u2).
Proof.
  unfold get_user_projects. destruct (gl self); [|apply same_refl].
  apply same_log. apply same_log.
  apply same_bind; [apply same_get_user_projects_loop|].
  intros ps. apply same_refl.
Qed.

Lemma owned_get_user_projects_body (u : string)
      (projects : list Project.t) (page : Z) :
  trace_all (owned_page_request (Config.per_page (config self)))
            (get_user_projects_body env self u projects page).
Proof.
  unfold get_user_projects_body, gl_projects_list.
  apply trace_all_try.
  - apply trace_all_bind.
    + apply trace_all_call. simpl. apply Z.eqb_refl.
    + intros pp. destruct (negb (nonempty pp) || _).
      * destruct (nonempty pp); [apply trace_all_bind; intros|];
          first [apply trace_all_log; reflexivity | apply trace_all_ret].
      * apply trace_all_bind; [apply trace_all_log; reflexivity|]. intros _.
        destruct (_ >? 50)%Z; [apply trace_all_bind; intros|];
          first [apply trace_all_log; reflexivity | apply trace_all_ret].
  - intros e k Hk. destruct (is_GitlabError e); [|discriminate].
    injection Hk as <-. apply trace_all_bind; intros;
      first [apply trace_all_log; reflexivity | apply trace_all_ret].
Qed.

Lemma owned_get_user_projects (u : string) (fuel : nat) :
  trace_all (owned_page_request (Config.per_page (config self)))
            (get_user_projects env self fuel u).
Proof.
  assert (Hloop : forall projects page,
             trace_all (owned_page_request (Config.per_page (config self)))
                       (get_user_projects_loop env self fuel u projects page)).
  { induction fuel as [|f IH]; intros projects page; simpl.
    - intros w. reflexivity.
    - apply trace_all_bind; [apply owned_get_user_projects_body|].
      intros [ps|[ps pg]]; [apply trace_all_ret | apply IH]. }
  unfold get_user_projects. destruct (gl self); [|apply trace_all_raise].
  repeat (apply trace_all_bind; [apply trace_all_log; reflexivity|intros _]).
  apply trace_all_bind; [apply Hloop|]. intros ps.
  apply trace_all_bind; [apply trace_all_log; reflexivity|intros _].
  apply trace_all_ret.
Qed.

Lemma owned_requests_of_trace (per_page : Z) (t : list event) :
  forallb (owned_page_request per_page) t = true ->
  forall r, In r (api_requests t) ->
            exists page, r = ReqProjectsList true page per_page.
Proof.
  induction t as [|ev t IH]; simpl; intros H r Hin; [contradiction|].
  apply andb_true_iff in H. destruct H as [Hev Ht].
  destruct ev as [q| | | | |]; simpl in Hev; try discriminate;
    try (apply IH; assumption).
  destruct q as [| |[|] pg pp|]; try discriminate.
  apply Z.eqb_eq in Hev. subst pp. destruct Hin as [<-|Hin];
    [exists pg; reflexivity | apply IH; assumption].
Qed.

(** *** The capped loops come back *)

Lemma ensures_user_body (u : string) (projects : list Project.t) (page : Z) :
  ensures (fun r => match r with
                    | Break _ => True
                    | Continue (_, pg) => pg = (page + 1)%Z /\ (pg <= 50)%Z
                    end)
          (get_user_projects_body env self u projects page).
Proof.
  intros w r. unfold get_user_projects_body, gl_projects_list.
  rewrite outcome_try, outcome_bind.
  destruct (outcome_of (call _ _ w)) as [pp|e| |]; try discriminate.
  - destruct (negb (nonempty pp) || _).
    + destruct (nonempty pp); [rewrite outcome_bind|]; cbn;
        intros H; injection H as <-; exact I.
    + rewrite outcome_bind. cbn [log outcome_of world_of fst snd].
      destruct (page + 1 >? 50)%Z eqn:Ec.
      * rewrite outcome_bind. cbn. intros H. injection H as <-. exact I.
      * cbn. intros H. injection H as <-. split; [reflexivity|].
        rewrite Z.gtb_ltb in Ec. apply Z.ltb_ge in Ec. exact Ec.
  - destruct (is_GitlabError e); [|discriminate].
    rewrite outcome_bind. cbn. intros H. injection H as <-. exact I.
Qed.

Lemma completes_user_body (u : string) (projects : list Project.t) (page : Z) :
  completes (get_user_projects_body env self u projects page).
Proof. unfold get_user_projects_body, gl_projects_list. comp. Qed.

Lemma completes_user_loop (u : string) (fuel : nat)
      (projects : list Project.t) (page : Z) :
  (page <= 50)%Z -> (51 <= Z.of_nat fuel + page)%Z ->
  completes (get_user_projects_loop env self fuel u projects page).
Proof.
  revert projects page. induction fuel as [|fuel IH]; intros projects page Hp Hf.
  - simpl in Hf. lia.
  - simpl. eapply completes_bind_ensures.
    + apply completes_user_body.
    + apply ensures_user_body.
    + intros [ps|[ps pg]]; [intros _; apply completes_ret|].
      intros [-> Hle]. apply IH; lia.
Qed.

Lemma completes_get_user_projects (u : string) (fuel : nat) :
  50 <= fuel -> completes (get_user_projects env self fuel u).
Proof.
  intros Hf. unfold get_user_projects. destruct (gl self); [|comp].
  pose proof (@completes_user_loop u fuel [] 1%Z ltac:(lia) ltac:(lia)).
  comp.
Qed.

Lemma ensures_group_body (gp : string) (g : Group)
      (projects : list Project.t) (page : Z) :
  ensures (fun r => match r with
                    | Break _ => True
                    | Continue (_, pg) => pg = (page + 1)%Z /\ (pg <= 1000)%Z
                    end)
          (get_group_projects_by_namespace_body env self gp g projects page).
Proof.
  intros w r.
  unfold get_group_projects_by_namespace_body, group_projects_list_call.
  rewrite outcome_try, outcome_bind.
  destruct (outcome_of (call _ _ w)) as [pp|e| |]; try discriminate.
  - destruct (negb (nonempty pp) || _).
    + destruct (nonempty pp); [rewrite outcome_bind|]; cbn;
        intros H; injection H as <-; exact I.
    + rewrite outcome_bind. cbn [log outcome_of world_of fst snd].
      destruct (page + 1 >? 1000)%Z eqn:Ec.
      * rewrite outcome_bind. cbn. intros H. injection H as <-. exact I.
      * cbn. intros H. injection H as <-. split; [reflexivity|].
        rewrite Z.gtb_ltb in Ec. apply Z.ltb_ge in Ec. exact Ec.
  - destruct (is_GitlabError e); [|discriminate].
    rewrite outcome_bind. cbn. intros H. injection H as <-. exact I.
Qed.

Lemma completes_group_body (gp : string) (g : Group)
      (projects : list Project.t) (page : Z) :
  completes (get_group_projects_by_namespace_body env self gp g projects page).
Proof.
  unfold get_group_projects_by_namespace_body, group_projects_list_call. comp.
Qed.

Lemma completes_group_loop (gp : string) (g : Group) (fuel : nat)
      (projects : list Project.t) (page : Z) :
  (page <= 1000)%Z -> (1001 <= Z.of_nat fuel + page)%Z ->
  completes
    (get_group_projects_by_namespace_loop env self fuel gp g projects page).
Proof.
  revert projects page. induction fuel as [|fuel IH]; intros projects page Hp Hf.
  - simpl in Hf. lia.
  - simpl. eapply completes_bind_ensures.
    + apply completes_group_body.
    + apply ensures_group_body.
    + intros [ps|[ps pg]]; [intros _; apply completes_ret|].
      intros [-> Hle]. apply IH; lia.
Qed.

Lemma completes_get_group_projects_by_namespace (gp : string) (fuel : nat) :
  1000 <= fuel ->
  completes (get_group_projects_by_namespace env self fuel gp).
Proof.
  intros Hf. unfold get_group_projects_by_namespace, gl_groups_get.
  destruct (gl self); [|comp].
  assert (Hloop : forall grp, completes
            (get_group_projects_by_namespace_loop env self fuel gp grp [] 1%Z))
    by (intros grp; apply completes_group_loop; lia).
  apply completes_bind; [comp|]. intros _.
  apply completes_bind; [comp|]. intros [grp|]; [|comp].
  apply completes_bind; [apply Hloop|]. intros ps. comp.
Qed.

End ListerFacts.

(** C10: for any two user names and the same state of the API,
    [get_user_projects] gives the same result, leaves the same state and
    sends the same requests; every request is a page request with
    [owned=True] and the configured page size, and none carries a user
    name.  With fuel for 50 passes the call comes back. *)
Theorem user_lister_ignores_username
        {W} (env : Env W) (self : GitLabCloner) (u1 u2 : string)
        (fuel : nat) (w : W) :
  outcome_of (get_user_projects env self fuel u1 w)
  = outcome_of (get_user_projects env self fuel u2 w)
  /\ world_of (get_user_projects env self fuel u1 w)
     = world_of (get_user_projects env self fuel u2 w)
  /\ api_requests (trace_of (get_user_projects env self fuel u1 w))
     = api_requests (trace_of (get_user_projects env self fuel u2 w))
  /\ (forall r,
         In r (api_requests (trace_of (get_user_projects env self fuel u1 w))) ->
         exists page,
           r = ReqProjectsList true page (Config.per_page (config self)))
  /\ (50 <= fuel ->
      comes_back (outcome_of (get_user_projects env self fuel u1 w))).
Proof.
  destruct (same_get_user_projects env self u1 u2 fuel w) as [Ho [Hw Ht]].
  split; [exact Ho|]. split; [exact Hw|]. split; [|split].
  - rewrite <- (api_requests_actions (trace_of (get_user_projects env self fuel u1 w))),
      <- (api_requests_actions (trace_of (get_user_projects env self fuel u2 w))),
      Ht.
    reflexivity.
  - apply owned_requests_of_trace. apply owned_get_user_projects.
  - intros Hf. apply (completes_get_user_projects env self u1 Hf).
Qed.

Lemma user_lister_ignores_username_witness :
  comes_back (outcome_of (get_user_projects env_acme (cloner_for "langburd" 20 4)
                                            50 "langburd" tt)).
Proof.
  apply (proj2 (proj2 (proj2 (proj2
           (user_lister_ignores_username env_acme (cloner_for "langburd" 20 4)
              "langburd" "someone-else" 50 tt))))).
  lia.
Defined.

(** ** Namespace classification *)

Section Detect.

Variable W : Type.
Variable env : Env W.
Variable self : GitLabCloner.

Lemma completes_detect_namespace_type (ns : string) :
  completes (detect_namespace_type env self ns).
Proof.
  unfold detect_namespace_type, gl_groups_get, gl_users_list. comp.
Qed.

Lemma detect_group (ns : string) (g : Group) (w w1 : W) :
  ns <> EmptyString -> gl self <> None ->
  groups_get env ns w = (inl g, w1) ->
  outcome_of (detect_namespace_type env self ns w) = Return "group"
  /\ api_requests (trace_of (detect_namespace_type env self ns w))
     = [ReqGroupsGet ns].
Proof.
  intros Hns Hgl Hg. unfold detect_namespace_type.
  destruct ns as [|c ns]; [contradiction|]. cbn [PyStr.truthy negb].
  destruct (gl self); [|contradiction].
  unfold outcome_of, trace_of, try_except, bind, gl_groups_get, call, log, ret.
  rewrite Hg. simpl. auto.
Qed.

Lemma detect_user (ns : string) (u : User) (us : list User) (w w1 w2 : W) :
  ns <> EmptyString -> gl self <> None ->
  groups_get env ns w = (inr GitlabGetError, w1) ->
  users_list env ns w1 = (inl (u :: us), w2) ->
  outcome_of (detect_namespace_type env self ns w) = Return "user"
  /\ api_requests (trace_of (detect_namespace_type env self ns w))
     = [ReqGroupsGet ns; ReqUsersList ns].
Proof.
  intros Hns Hgl Hg Hu. unfold detect_namespace_type.
  destruct ns as [|c ns]; [contradiction|]. cbn [PyStr.truthy negb].
  destruct (gl self); [|contradiction].
  unfold outcome_of, trace_of, try_except, bind, gl_groups_get, gl_users_list,
    call, log, ret.
  rewrite Hg. simpl. rewrite Hu. simpl. auto.
Qed.

Lemma detect_not_found (ns : string) (r : reply (list User)) (w w1 w2 : W) :
  ns <> EmptyString -> gl self <> None ->
  groups_get env ns w = (inr GitlabGetError, w1) ->
  users_list env ns w1 = (r, w2) ->
  r = inl [] \/ r = inr GitlabGetError ->
  outcome_of (detect_namespace_type env self ns w)
  = Raise (ValueError ("Namespace '" ++ ns ++ "' not found or not accessible"))
  /\ api_requests (trace_of (detect_namespace_type env self ns w))
     = [ReqGroupsGet ns; ReqUsersList ns].
Proof.
  intros Hns Hgl Hg Hu Hr. unfold detect_namespace_type.
  destruct ns as [|c ns]; [contradiction|]. cbn [PyStr.truthy negb].
  destruct (gl self); [|contradiction].
  unfold outcome_of, trace_of, try_except, bind, gl_groups_get, gl_users_list,
    call, log, ret, raise.
  rewrite Hg. simpl. rewrite Hu. destruct Hr as [-> | ->]; simpl; auto.
Qed.

(** The listing boundary returns a list, the empty one when the
    classification fails. *)
Lemma get_namespace_projects_boundary (fuel : nat) (w : W) :
  Config.namespace (config self) <> EmptyString -> 1000 <= fuel ->
  (exists l, outcome_of (get_namespace_projects env self fuel w) = Return l)
  /\ (forall e,
         outcome_of (detect_namespace_type env self
                       (Config.namespace (config self)) w) = Raise e ->
         outcome_of (get_namespace_projects env self fuel w) = Return []).
Proof.
  intros Hns Hf. unfold get_namespace_projects.
  destruct (Config.namespace (config self)) as [|c ns] eqn:En;
    [contradiction|].
  cbn [PyStr.truthy negb]. split.
  - apply returns_try_catch_all.
    + apply completes_bind; [apply completes_detect_namespace_type|].
      intros t. destruct (String.eqb t "user").
      * apply completes_get_user_projects. lia.
      * destruct (String.eqb t "group").
        -- apply completes_get_group_projects_by_namespace. exact Hf.
        -- comp.
    + intros e. destruct (is_ValueError e), (is_GitlabError e);
        eexists; (split; [reflexivity|]);
        (apply returns_bind; [apply returns_log | intros; apply returns_ret]).
  - intros e He. rewrite outcome_try, outcome_bind, He.
    destruct (is_ValueError e), (is_GitlabError e);
      rewrite outcome_bind; reflexivity.
Qed.

End Detect.

(** C9: for every non-empty namespace string and an authenticated client,
    the classification asks for the group first and answers [group] if the
    lookup succeeds, without a user lookup; if the group is not found it
    asks for the user and answers [user] if the lookup yields one; if that
    yields none either it raises the namespace-not-found [ValueError].  At
    the listing boundary, [get_namespace_projects] returns a list whatever
    the server does, and the empty list whenever the classification
    raised: the sync of that namespace stops and the process goes on. *)
Theorem namespace_classification
        {W} (env : Env W) (self : GitLabCloner) (ns : string) (w : W) :
  ns <> EmptyString -> gl self <> None ->
  (forall g w1,
      groups_get env ns w = (inl g, w1) ->
      outcome_of (detect_namespace_type env self ns w) = Return "group"
      /\ api_requests (trace_of (detect_namespace_type env self ns w))
         = [ReqGroupsGet ns])
  /\ (forall w1 u us w2,
         groups_get env ns w = (inr GitlabGetError, w1) ->
         users_list env ns w1 = (inl (u :: us), w2) ->
         outcome_of (detect_namespace_type env self ns w) = Return "user"
         /\ api_requests (trace_of (detect_namespace_type env self ns w))
            = [ReqGroupsGet ns; ReqUsersList ns])
  /\ (forall w1 r w2,
         groups_get env ns w = (inr GitlabGetError, w1) ->
         users_list env ns w1 = (r, w2) ->
         r = inl [] \/ r = inr GitlabGetError ->
         outcome_of (detect_namespace_type env self ns w)
         = Raise (ValueError
                    ("Namespace '" ++ ns ++ "' not found or not accessible"))
         /\ api_requests (trace_of (detect_namespace_type env self ns w))
            = [ReqGroupsGet ns; ReqUsersList ns])
  /\ (Config.namespace (config self) = ns ->
      forall fuel,
        1000 <= fuel ->
        (exists l,
            outcome_of (get_namespace_projects env self fuel w) = Return l)
        /\ (forall e,
               outcome_of (detect_namespace_type env self ns w) = Raise e ->
               outcome_of (get_namespace_projects env self fuel w)
               = Return [])).
Proof.
  intros Hns Hgl. split; [|split; [|split]].
  - intros g w1 Hg. eapply detect_group; eassumption.
  - intros w1 u us w2 Hg Hu. eapply detect_user; eassumption.
  - intros w1 r w2 Hg Hu Hr. eapply detect_not_found; eassumption.
  - intros <- fuel Hf. apply get_namespace_projects_boundary; assumption.
Qed.

Lemma namespace_classification_witness :
  outcome_of (detect_namespace_type env_acme (cloner_for "nobody" 20 4)
                                    "nobody" tt)
  = Raise (ValueError "Namespace 'nobody' not found or not accessible")
  /\ outcome_of (get_namespace_projects env_acme (cloner_for "nobody" 20 4)
                                        1000 tt) = Return [].
Proof.
  assert (Hns : "nobody" <> EmptyString) by discriminate.
  assert (Hgl : gl (cloner_for "nobody" 20 4) <> None) by discriminate.
  pose proof (namespace_classification env_acme (cloner_for "nobody" 20 4)
                tt Hns Hgl) as [_ [_ [Hnf Hb]]].
  assert (Hd : outcome_of (detect_namespace_type env_acme
                             (cloner_for "nobody" 20 4) "nobody" tt)
               = Raise (ValueError
                          "Namespace 'nobody' not found or not accessible")).
  { exact (proj1 (Hnf tt (inl []) tt eq_refl eq_refl (or_introl eq_refl))). }
  split; [exact Hd|].
  exact (proj2 (Hb eq_refl 1000 (le_n 1000)) _ Hd).
Defined.

Example classification_examples :
  outcome_of (detect_namespace_type env_acme (cloner_for "acme" 20 4)
                                    "acme" tt) = Return "group"
  /\ outcome_of (detect_namespace_type env_acme (cloner_for "langburd" 20 4)
                                       "langburd" tt) = Return "user"
  /\ outcome_of (detect_namespace_type env_acme (cloner_for "" 20 4) "" tt)
     = Raise (ValueError "Namespace cannot be empty").
Proof. repeat split. Qed.

(** ** Pagination *)

Section Pagination.

Variable W : Type.
Variable env : Env W.
Variable self : GitLabCloner.
Variable group_path : string.
Variable g : Group.

(** A full page below the cap: the loop goes on with the next page. *)
Lemma group_body_full (projects l : list Project.t) (page : Z) (w w1 : W) :
  group_projects_list env g page (Config.per_page (config self)) w = (inl l, w1) ->
  nonempty l = true -> (len l <? (Config.per_page (config self)))%Z = false ->
  (page + 1 <= 1000)%Z ->
  exists t,
    get_group_projects_by_namespace_body env self group_path g projects page w
    = (Return (Continue (projects ++ l, (page + 1)%Z)), w1, t)
    /\ pages_requested t = [page].
Proof.
  intros Hl Hne Hfull Hcap.
  unfold get_group_projects_by_namespace_body, group_projects_list_call,
    try_except, bind, call, log, ret.
  rewrite Hl, Hne, Hfull. cbn [negb orb].
  assert (Hc : (page + 1 >? 1000)%Z = false)
    by (rewrite Z.gtb_ltb; apply Z.ltb_ge; exact Hcap).
  rewrite Hc. eexists. split; reflexivity.
Qed.

(** A page with fewer items than the page size: it is appended and the
    loop stops. *)
Lemma group_body_partial (projects l : list Project.t) (page : Z) (w w1 : W) :
  group_projects_list env g page (Config.per_page (config self)) w = (inl l, w1) ->
  nonempty l = true -> (len l <? (Config.per_page (config self)))%Z = true ->
  exists t,
    get_group_projects_by_namespace_body env self group_path g projects page w
    = (Return (Break (projects ++ l)), w1, t)
    /\ pages_requested t = [page].
Proof.
  intros Hl Hne Hshort.
  unfold get_group_projects_by_namespace_body, group_projects_list_call,
    try_except, bind, call, log, ret.
  rewrite Hl, Hne, Hshort. cbn [negb orb]. eexists. split; reflexivity.
Qed.

(** An empty page: nothing is appended and the loop stops. *)
Lemma group_body_empty (projects : list Project.t) (page : Z) (w w1 : W) :
  group_projects_list env g page (Config.per_page (config self)) w = (inl [], w1) ->
  exists t,
    get_group_projects_by_namespace_body env self group_path g projects page w
    = (Return (Break projects), w1, t)
    /\ pages_requested t = [page].
Proof.
  intros Hl.
  unfold get_group_projects_by_namespace_body, group_projects_list_call,
    try_except, bind, call, log, ret.
  rewrite Hl. cbn. eexists. split; reflexivity.
Qed.

Lemma pages_requested_app (t1 t2 : list event) :
  pages_requested (t1 ++ t2) = pages_requested t1 ++ pages_requested t2.
Proof.
  induction t1 as [|ev t1 IH]; [reflexivity|].
  destruct ev as [[]| | | | |]; simpl; rewrite IH; reflexivity.
Qed.

(** Full pages, then a short one: the loop asks for each page once, in
    order, and returns them all. *)
Lemma group_loop_pages (fulls : list (list Project.t)) (last : list Project.t) :
  forall (fuel : nat) (page : Z) (projects : list Project.t) (w w' : W),
    (forall l, In l fulls ->
               nonempty l = true /\ (len l <? (Config.per_page (config self)))%Z = false) ->
    negb (nonempty last) || (len last <? (Config.per_page (config self)))%Z = true ->
    (page + Z.of_nat (List.length fulls) <= 1000)%Z ->
    List.length fulls < fuel ->
    serves env g (Config.per_page (config self)) page (fulls ++ [last]) w w' ->
    exists t,
      get_group_projects_by_namespace_loop env self fuel group_path g
                                           projects page w
      = (Return (projects ++ List.concat fulls ++ last), w', t)
      /\ pages_requested t = page_numbers page (S (List.length fulls)).
Proof.
  induction fulls as [|l ls IH]; intros fuel page projects w w' Hfull Hlast
                                        Hcap Hfuel Hs.
  - destruct fuel as [|fuel]; [simpl in Hfuel; lia|].
    inversion Hs as [|pg l0 ls0 wa wb wc Hreq Hrest]; subst.
    inversion Hrest; subst.
    simpl. destruct (nonempty last) eqn:Hne.
    + simpl in Hlast.
      destruct (@group_body_partial projects last page w w' Hreq Hne Hlast)
        as [t [Hb Ht]].
      unfold bind. rewrite Hb. simpl. eexists. split; [reflexivity|].
      rewrite app_nil_r. exact Ht.
    + destruct last; [|discriminate].
      destruct (@group_body_empty projects page w w' Hreq) as [t [Hb Ht]].
      unfold bind. rewrite Hb. simpl. rewrite !app_nil_r.
      eexists. split; [reflexivity|]. exact Ht.
  - destruct fuel as [|fuel]; [simpl in Hfuel; lia|].
    simpl in Hs. inversion Hs as [|pg l0 ls0 wa wb wc Hreq Hrest]; subst.
    destruct (Hfull l (or_introl eq_refl)) as [Hne Hf].
    simpl in Hcap.
    assert (Hnext : (page + 1 <= 1000)%Z) by lia.
    destruct (@group_body_full projects l page w wb Hreq Hne Hf Hnext)
      as [t [Hb Ht]].
    destruct (IH fuel (page + 1)%Z (projects ++ l) wb w') as [t' [Hl Ht']].
    + intros l' Hin. apply Hfull. right. exact Hin.
    + exact Hlast.
    + lia.
    + simpl in Hfuel. lia.
    + exact Hrest.
    + change (get_group_projects_by_namespace_loop env self (S fuel)
                group_path g projects page)
        with (bind (get_group_projects_by_namespace_body env self group_path
                      g projects page)
                   (fun r => match r with
                             | Break ps => ret ps
                             | Continue (ps, pg) =>
                                 get_group_projects_by_namespace_loop
                                   env self fuel group_path g ps pg
                             end)).
      unfold bind. rewrite Hb, Hl. eexists. split.
      * simpl. rewrite <- !app_assoc. reflexivity.
      * rewrite pages_requested_app, Ht, Ht'. reflexivity.
Qed.

(** The whole lister on top of the loop. *)
Lemma group_lister_pages (fulls : list (list Project.t))
      (last : list Project.t) (fuel : nat) (w0 w1 w' : W) :
  gl self <> None ->
  groups_get env group_path w0 = (inl g, w1) ->
  (forall l, In l fulls ->
             nonempty l = true /\ (len l <? (Config.per_page (config self)))%Z = false) ->
  negb (nonempty last) || (len last <? (Config.per_page (config self)))%Z = true ->
  (1 + Z.of_nat (List.length fulls) <= 1000)%Z ->
  List.length fulls < fuel ->
  serves env g (Config.per_page (config self)) 1 (fulls ++ [last]) w1 w' ->
  outcome_of (get_group_projects_by_namespace env self fuel group_path w0)
  = Return (List.concat fulls ++ last)
  /\ world_of (get_group_projects_by_namespace env self fuel group_path w0) = w'
  /\ pages_requested
       (trace_of (get_group_projects_by_namespace env self fuel group_path w0))
     = page_numbers 1 (S (List.length fulls)).
Proof.
  intros Hgl Hg Hfull Hlast Hcap Hfuel Hs.
  destruct (@group_loop_pages fulls last fuel 1%Z [] w1 w'
              Hfull Hlast Hcap Hfuel Hs) as [t [Hl Ht]].
  unfold get_group_projects_by_namespace. destruct (gl self); [|contradiction].
  unfold outcome_of, world_of, trace_of, try_except, bind, gl_groups_get,
    call, log, ret.
  rewrite Hg. cbn [fst snd]. rewrite Hl. cbn [fst snd app].
  repeat split.
  cbn [pages_requested]. rewrite pages_requested_app, Ht. cbn.
  rewrite app_nil_r. reflexivity.
Qed.

End Pagination.

Lemma len_app {A} (l1 l2 : list A) : len (l1 ++ l2) = (len l1 + len l2)%Z.
Proof. unfold len. rewrite length_app. lia. Qed.

Lemma len_nonempty {A} (l : list A) : (0 < len l)%Z -> nonempty l = true.
Proof. destruct l; [unfold len; simpl; lia | reflexivity]. Qed.

(** C4 (amended): for every page size above 3, when the listing returns
    pages of exactly that size for 5 consecutive pages and then a page of 3
    items, [get_group_projects_by_namespace] sends exactly the page
    requests 1, 2, 3, 4, 5, 6 and returns the [5 * pageSize + 3]
    descriptors in order; a page with fewer items than the page size is
    appended and ends the loop, an empty page ends it with nothing
    appended. *)
Theorem pagination_six_requests
        {W} (env : Env W) (self : GitLabCloner) (group_path : string)
        (g : Group) (fulls : list (list Project.t)) (last : list Project.t)
        (w0 w1 w' : W) (fuel : nat) :
  gl self <> None ->
  groups_get env group_path w0 = (inl g, w1) ->
  (3 < Config.per_page (config self))%Z ->
  List.length fulls = 5 ->
  (forall l, In l fulls -> len l = Config.per_page (config self)) ->
  List.length last = 3 ->
  serves env g (Config.per_page (config self)) 1 (fulls ++ [last]) w1 w' ->
  6 <= fuel ->
  (outcome_of (get_group_projects_by_namespace env self fuel group_path w0)
   = Return (List.concat fulls ++ last)
   /\ len (List.concat fulls ++ last)
      = (5 * Config.per_page (config self) + 3)%Z
   /\ pages_requested
        (trace_of (get_group_projects_by_namespace env self fuel group_path w0))
      = [1; 2; 3; 4; 5; 6]%Z
   /\ world_of (get_group_projects_by_namespace env self fuel group_path w0)
      = w')
  /\ (forall projects l page w w2,
         group_projects_list env g page (Config.per_page (config self)) w
         = (inl l, w2) ->
         l <> [] -> (len l < Config.per_page (config self))%Z ->
         outcome_of (get_group_projects_by_namespace_body
                       env self group_path g projects page w)
         = Return (Break (projects ++ l)))
  /\ (forall projects page w w2,
         group_projects_list env g page (Config.per_page (config self)) w
         = (inl [], w2) ->
         outcome_of (get_group_projects_by_namespace_body
                       env self group_path g projects page w)
         = Return (Break projects)).
Proof.
  intros Hgl Hg Hpp Hlen Hfull Hlast Hs Hfuel. split; [|split].
  - assert (Hfull' : forall l, In l fulls ->
              nonempty l = true
              /\ (len l <? Config.per_page (config self))%Z = false).
    { intros l Hin. rewrite (Hfull l Hin). split.
      - apply len_nonempty. rewrite (Hfull l Hin). lia.
      - apply Z.ltb_irrefl. }
    assert (Hshort : negb (nonempty last)
                     || (len last <? Config.per_page (config self))%Z = true).
    { apply orb_true_iff. right. apply Z.ltb_lt. unfold len. rewrite Hlast.
      simpl. lia. }
    destruct (@group_lister_pages W env self group_path g fulls last fuel
                w0 w1 w' Hgl Hg Hfull' Hshort) as [Ho [Hw Ht]];
      [lia | lia | exact Hs |].
    split; [exact Ho|]. split; [|split; [|exact Hw]].
    + destruct fulls as [|l1 [|l2 [|l3 [|l4 [|l5 [|l6 ls]]]]]];
        try discriminate.
      pose proof (Hfull l1 ltac:(simpl; auto)) as H1.
      pose proof (Hfull l2 ltac:(simpl; auto)) as H2.
      pose proof (Hfull l3 ltac:(simpl; auto)) as H3.
      pose proof (Hfull l4 ltac:(simpl; auto)) as H4.
      pose proof (Hfull l5 ltac:(simpl; auto 10)) as H5.
      unfold len in *. cbn [List.concat]. rewrite app_nil_r, !length_app. lia.
    + rewrite Ht, Hlen. reflexivity.
  - intros projects l page w w2 Hl Hne Hlt.
    destruct (@group_body_partial W env self group_path g projects l page w w2 Hl)
      as [t [Hb _]].
    + destruct l; [contradiction | reflexivity].
    + apply Z.ltb_lt. exact Hlt.
    + rewrite Hb. reflexivity.
  - intros projects page w w2 Hl.
    destruct (@group_body_empty W env self group_path g projects page w w2 Hl)
      as [t [Hb _]].
    rewrite Hb. reflexivity.
Qed.

Lemma pagination_six_requests_witness :
  pages_requested
    (trace_of (get_group_projects_by_namespace
                 env_five_full_pages (cloner_for "acme" 4 4) 6 "acme" tt))
  = [1; 2; 3; 4; 5; 6]%Z
  /\ outcome_of (get_group_projects_by_namespace
                   env_five_full_pages (cloner_for "acme" 4 4) 6 "acme" tt)
     = Return (repeat (sample_project "repo") 23).
Proof.
  assert (Hs : serves env_five_full_pages {| group_name := "acme" |}
                 (Config.per_page (config (cloner_for "acme" 4 4))) 1
                 (repeat (full_page 4) 5 ++ [full_page 3]) tt tt).
  { repeat (eapply serves_cons; [reflexivity|]). apply serves_nil. }
  assert (Hfull : forall l, In l (repeat (full_page 4) 5) ->
                    len l = Config.per_page (config (cloner_for "acme" 4 4))).
  { intros l Hin. apply repeat_spec in Hin. subst l. reflexivity. }
  pose proof (@pagination_six_requests unit env_five_full_pages
                (cloner_for "acme" 4 4) "acme" {| group_name := "acme" |}
                (repeat (full_page 4) 5) (full_page 3) tt tt tt 6
                ltac:(discriminate) eq_refl eq_refl eq_refl Hfull eq_refl Hs
                (le_n 6)) as [[Ho [_ [Ht _]]] _].
  split; [exact Ht | exact Ho].
Defined.

(** C4 as worded fails at page size 3: five pages of exactly three items
    and then a page of three items leave the sixth page full, and the
    lister asks for a seventh page. *)
Lemma pagination_page_size_three_counterexample :
  pages_requested
    (trace_of (get_group_projects_by_namespace
                 env_six_full_pages (cloner_for "acme" 3 4) 1000 "acme" tt))
  = [1; 2; 3; 4; 5; 6; 7]%Z
  /\ ~ pagination_claim.
Proof.
  split; [vm_compute; reflexivity|].
  intros H.
  assert (Hs : serves env_six_full_pages {| group_name := "acme" |}
                 (Config.per_page (config (cloner_for "acme" 3 4))) 1
                 (repeat (full_page 3) 5 ++ [full_page 3]) tt tt).
  { repeat (eapply serves_cons; [reflexivity|]). apply serves_nil. }
  assert (Hfull : forall l, In l (repeat (full_page 3) 5) ->
                    len l = Config.per_page (config (cloner_for "acme" 3 4))).
  { intros l Hin. apply repeat_spec in Hin. subst l. reflexivity. }
  destruct (H unit env_six_full_pages (cloner_for "acme" 3 4) "acme"
              {| group_name := "acme" |} (repeat (full_page 3) 5)
              (full_page 3) tt tt tt ltac:(discriminate) eq_refl eq_refl
              Hfull eq_refl Hs) as [Hp _].
  vm_compute in Hp. discriminate.
Qed.

(** ** The page caps *)

Lemma group_projects_body_full_pages (projects : list Project.t) (page : Z) :
  get_group_projects_body env_full_pages (cloner_for "" 20 4) projects page tt
  = (Return (Continue (projects ++ full_page 20, (page + 1)%Z)), tt,
     [EvApi (ReqProjectsList false page 20);
      EvLog INFO "Fetched page %s, found %s group projects"
            [AInt page; AInt 20]]).
Proof. reflexivity. Qed.

Lemma group_projects_loop_full_pages (fuel : nat) :
  forall (projects : list Project.t) (page : Z),
  exists t,
    get_group_projects_loop env_full_pages (cloner_for "" 20 4)
                            fuel projects page tt
    = (OutOfFuel, tt, t)
    /\ List.length (pages_requested t) = fuel /\ warnings t = [].
Proof.
  induction fuel as [|fuel IH]; intros projects page.
  - exists []. repeat split.
  - destruct (IH (projects ++ full_page 20) (page + 1)%Z) as [t [Hl [Hp Hw]]].
    change (get_group_projects_loop env_full_pages (cloner_for "" 20 4)
              (S fuel) projects page)
      with (bind (get_group_projects_body env_full_pages (cloner_for "" 20 4)
                    projects page)
                 (fun r => match r with
                           | Break ps => ret ps
                           | Continue (ps, pg) =>
                               get_group_projects_loop
                                 env_full_pages (cloner_for "" 20 4) fuel ps pg
                           end)).
    unfold bind. rewrite group_projects_body_full_pages, Hl.
    eexists. split; [reflexivity|]. cbn [app pages_requested warnings List.length].
    rewrite Hp, Hw. split; reflexivity.
Qed.

(** C5, at the input where it fails: with no namespace configured and a
    listing whose every page is full, the fallback lister
    [get_group_projects] has not returned after any number [fuel] of
    passes: it has sent [fuel] page requests and has logged no warning
    about a page limit. *)
Theorem fallback_lister_has_no_page_cap (fuel : nat) :
  outcome_of (get_namespace_projects env_full_pages (cloner_for "" 20 4)
                                     fuel tt) = OutOfFuel
  /\ List.length
       (pages_requested
          (trace_of (get_namespace_projects env_full_pages
                       (cloner_for "" 20 4) fuel tt))) = fuel
  /\ warnings (trace_of (get_namespace_projects env_full_pages
                           (cloner_for "" 20 4) fuel tt))
     = ["No namespace specified, falling back to all group projects"].
Proof.
  destruct (group_projects_loop_full_pages fuel [] 1%Z) as [t [Hl [Hp Hw]]].
  unfold get_namespace_projects, get_group_projects. cbn [cloner_for gl config
    Config.namespace PyStr.truthy negb].
  unfold outcome_of, trace_of, bind, log. rewrite Hl.
  cbn [fst snd app pages_requested warnings]. rewrite Hp, Hw.
  repeat split.
Qed.

(** The two capped listers on the same listing: they stop at their cap
    with a warning. *)
Example user_lister_stops_at_cap :
  let r := get_user_projects env_full_pages (cloner_for "langburd" 20 4)
                             50 "langburd" tt in
  match outcome_of r with Return l => len l | _ => (-1)%Z end = 1000%Z
  /\ pages_requested (trace_of r) = page_numbers 1 50
  /\ warnings (trace_of r)
     = ["Reached maximum page limit (50) for user %s, stopping pagination"].
Proof. vm_compute. repeat split. Qed.

Example group_lister_stops_at_cap :
  let r := get_group_projects_by_namespace
             env_full_pages (cloner_for "acme" 20 4) 1000 "acme" tt in
  match outcome_of r with Return l => len l | _ => (-1)%Z end = 20000%Z
  /\ pages_requested (trace_of r) = page_numbers 1 1000
  /\ warnings (trace_of r)
     = ["Reached maximum page limit (1000) for group %s, stopping pagination"].
Proof. vm_compute. repeat split. Qed.

(** ** Sync Executor: the two branches *)

Section SyncRuns.

Variable W : Type.
Variable env : Env W.
Variable self : GitLabCloner.
Variable project : Project.t.

Lemma run_exited_ok (c : command) (out err : string) (w w' : W) :
  spawn env c w = (Exited 0 out err, w') ->
  subprocess_run env c w
  = (Return {| cp_returncode := 0; cp_stdout := out; cp_stderr := err |},
     w', [EvRun c]).
Proof.
  intros H. unfold subprocess_run. rewrite H. simpl.
  rewrite andb_false_r. reflexivity.
Qed.

Lemma run_exited_unchecked (c : command) (rc : Z) (out err : string)
      (w w' : W) :
  check c = false ->
  spawn env c w = (Exited rc out err, w') ->
  subprocess_run env c w
  = (Return {| cp_returncode := rc; cp_stdout := out; cp_stderr := err |},
     w', [EvRun c]).
Proof. intros Hc H. unfold subprocess_run. rewrite H, Hc. reflexivity. Qed.

Lemma run_exited_error (c : command) (rc : Z) (out err : string) (w w' : W) :
  check c = true -> rc <> 0%Z ->
  spawn env c w = (Exited rc out err, w') ->
  subprocess_run env c w = (Raise (CalledProcessError rc err), w', [EvRun c]).
Proof.
  intros Hc Hrc H. unfold subprocess_run. rewrite H, Hc.
  apply Z.eqb_neq in Hrc. rewrite Hrc. reflexivity.
Qed.

(** A checked command with a timeout that fails raises one of the two
    subprocess errors. *)
Lemma run_failed_raises (c : command) (o : proc_outcome) (w w' : W) :
  check c = true -> timeout c <> None ->
  spawn env c w = (o, w') -> run_failed o ->
  exists e, subprocess_run env c w = (Raise e, w', [EvRun c])
            /\ subprocess_error e = true.
Proof.
  intros Hc Ht H Hf. destruct o as [rc out err| |e]; simpl in Hf.
  - exists (CalledProcessError rc err). split; [|reflexivity].
    eapply run_exited_error; eassumption.
  - exists TimeoutExpired. split; [|reflexivity].
    unfold subprocess_run. rewrite H. destruct (timeout c); [reflexivity|].
    contradiction.
  - contradiction.
Qed.

Ltac unfold_sync :=
  unfold safe_clone_project, sync_body, clone_new, update_existing,
    try_except, bind, mkdir, exists_, call, log, ret, raise;
  cbv beta.

Ltac next H := rewrite H; cbv beta iota.

(** The remote is absent on disk and [git clone] fails with an
    empty-repository message: directory, [git init], [git remote add]. *)
Lemma clone_empty_remote_run (rc : Z) (out err o1 e1 o2 e2 : string)
      (w0 w1 w2 w3 w4 w5 w6 : W) :
  path_mkdir env (target_dir_of self project) w0 = (inl tt, w1) ->
  path_exists env (project_dir_of self project) w1 = (inl false, w2) ->
  spawn env (clone_command self project) w2 = (Exited rc out err, w3) ->
  rc <> 0%Z ->
  empty_repository_stderr err = true ->
  path_mkdir env (project_dir_of self project) w3 = (inl tt, w4) ->
  spawn env (init_command self project) w4 = (Exited 0 o1 e1, w5) ->
  spawn env (remote_add_command self project) w5 = (Exited 0 o2 e2, w6) ->
  exists t,
    safe_clone_project env self project w0 = (Return true, w6, t)
    /\ actions t
       = [EvMkdir (target_dir_of self project);
          EvExists (project_dir_of self project);
          EvRun (clone_command self project);
          EvMkdir (project_dir_of self project);
          EvRun (init_command self project);
          EvRun (remote_add_command self project)].
Proof.
  intros Hmk Hex Hclone Hrc Hempty Hmk2 Hinit Hremote.
  pose proof (@run_exited_error (clone_command self project) rc out err w2 w3
                eq_refl Hrc Hclone)
    as Rclone.
  pose proof (@run_exited_ok _ _ _ _ _ Hinit) as Rinit.
  pose proof (@run_exited_ok _ _ _ _ _ Hremote) as Rremote.
  unfold clone_command in Rclone. unfold init_command in Rinit.
  unfold remote_add_command in Rremote.
  unfold_sync. next Hmk. next Hex. next Rclone. next Hempty. next Hmk2.
  next Rinit. next Rremote.
  eexists. split; reflexivity.
Qed.

(** [git clone] fails with any other message: the failure stands. *)
Lemma clone_hard_failure_run (rc : Z) (out err : string) (w0 w1 w2 w3 : W) :
  path_mkdir env (target_dir_of self project) w0 = (inl tt, w1) ->
  path_exists env (project_dir_of self project) w1 = (inl false, w2) ->
  spawn env (clone_command self project) w2 = (Exited rc out err, w3) ->
  rc <> 0%Z ->
  empty_repository_stderr err = false ->
  exists t,
    safe_clone_project env self project w0 = (Return false, w3, t)
    /\ actions t
       = [EvMkdir (target_dir_of self project);
          EvExists (project_dir_of self project);
          EvRun (clone_command self project)].
Proof.
  intros Hmk Hex Hclone Hrc Hempty.
  pose proof (@run_exited_error (clone_command self project) rc out err w2 w3
                eq_refl Hrc Hclone)
    as Rclone.
  unfold clone_command in Rclone.
  unfold_sync. next Hmk. next Hex. next Rclone. next Hempty.
  unfold sync_handlers. cbn [is_TimeoutExpired is_CalledProcessError].
  unfold bind, log, ret. cbv beta iota.
  destruct (PyStr.truthy err); eexists; split; reflexivity.
Qed.

(** *** The default branch *)

Lemma commands_app (t1 t2 : list event) :
  commands (t1 ++ t2) = commands t1 ++ commands t2.
Proof.
  induction t1 as [|ev t1 IH]; [reflexivity|].
  destruct ev; simpl; rewrite IH; reflexivity.
Qed.

Lemma commands_runs (cs : list command) : commands (map EvRun cs) = cs.
Proof. induction cs as [|c cs IH]; simpl; [|rewrite IH]; reflexivity. Qed.

Lemma default_branch_from_head (p : Path) (out err : string) (w w' : W) :
  spawn env (symbolic_ref_command p) w = (Exited 0 out err, w') ->
  get_default_branch env p w
  = (Return (Some (PyStr.last_part
                     (PyStr.split PyStr.slash (PyStr.strip out)))),
     w', [EvRun (symbolic_ref_command p)]).
Proof.
  intros H. pose proof (@run_exited_ok _ _ _ _ _ H) as R.
  unfold symbolic_ref_command in R.
  unfold get_default_branch, try_except, bind, ret. cbv beta.
  rewrite R. reflexivity.
Qed.

Lemma probe_branches_step (p : Path) (b : string) (rest : list string)
      (o : proc_outcome) (w w' : W) :
  spawn env (probe_command p b) w = (o, w') -> run_failed o ->
  probe_branches env p (b :: rest) w
  = (outcome_of (probe_branches env p rest w'),
     world_of (probe_branches env p rest w'),
     EvRun (probe_command p b) :: trace_of (probe_branches env p rest w')).
Proof.
  intros H Hf.
  destruct (@run_failed_raises (probe_command p b) o w w' eq_refl
              ltac:(discriminate) H Hf) as [e [R He]].
  unfold probe_command in R. cbn [probe_branches].
  unfold try_except, bind, ret. cbv beta. rewrite R. cbv beta iota.
  rewrite He. cbv beta iota.
  destruct (probe_branches env p rest w') as [[o' w''] t']. reflexivity.
Qed.

Lemma probe_branches_found (p : Path) (b : string) (after : list string)
      (out err : string) :
  forall (before : list string) (os : list proc_outcome) (w w' : W),
    List.length os = List.length before ->
    Forall run_failed os ->
    spawns env (combine (map (probe_command p) before) os
                  ++ [(probe_command p b, Exited 0 out err)]) w w' ->
    probe_branches env p (before ++ b :: after) w
    = (Return (Some b), w',
       map EvRun (map (probe_command p) (before ++ [b]))).
Proof.
  induction before as [|b0 before IH]; intros os w w' Hlen Hf Hs.
  - destruct os; [|discriminate]. simpl in Hs.
    inversion Hs as [|c o rest wa wb wc Hsp Hrest]; subst.
    inversion Hrest; subst.
    pose proof (@run_exited_ok _ _ _ _ _ Hsp) as R. unfold probe_command in R.
    cbn [app probe_branches]. unfold try_except, bind, ret. cbv beta.
    rewrite R. reflexivity.
  - destruct os as [|o os]; [discriminate|]. simpl in Hlen, Hs.
    injection Hlen as Hlen.
    inversion Hf as [|o' os' Ho Hos]; subst.
    inversion Hs as [|c o1 rest wa wb wc Hsp Hrest]; subst.
    change ((b0 :: before) ++ b :: after) with (b0 :: (before ++ b :: after)).
    rewrite (@probe_branches_step p b0 _ o w wb Hsp Ho).
    rewrite (IH os wb w' Hlen Hos Hrest). reflexivity.
Qed.

Lemma probe_branches_none (p : Path) :
  forall (bs : list string) (os : list proc_outcome) (w w' : W),
    List.length os = List.length bs ->
    Forall run_failed os ->
    spawns env (combine (map (probe_command p) bs) os) w w' ->
    probe_branches env p bs w
    = (Return None, w', map EvRun (map (probe_command p) bs)).
Proof.
  induction bs as [|b bs IH]; intros os w w' Hlen Hf Hs.
  - destruct os; [|discriminate]. inversion Hs; subst. reflexivity.
  - destruct os as [|o os]; [discriminate|]. simpl in Hlen, Hs.
    injection Hlen as Hlen.
    inversion Hf as [|o' os' Ho Hos]; subst.
    inversion Hs as [|c o1 rest wa wb wc Hsp Hrest]; subst.
    rewrite (@probe_branches_step p b _ o w wb Hsp Ho).
    rewrite (IH os wb w' Hlen Hos Hrest). reflexivity.
Qed.

Lemma default_branch_fallback (p : Path) (o : proc_outcome) (w w' : W) :
  spawn env (symbolic_ref_command p) w = (o, w') -> run_failed o ->
  get_default_branch env p w
  = (outcome_of (probe_branches env p common_branches w'),
     world_of (probe_branches env p common_branches w'),
     EvRun (symbolic_ref_command p)
       :: trace_of (probe_branches env p common_branches w')).
Proof.
  intros H Hf.
  destruct (@run_failed_raises (symbolic_ref_command p) o w w' eq_refl
              ltac:(discriminate) H Hf) as [e [R He]].
  unfold symbolic_ref_command in R.
  unfold get_default_branch, try_except, bind, ret. cbv beta. rewrite R.
  cbv beta iota. rewrite He. cbv beta iota.
  fold common_branches.
  destruct (probe_branches env p common_branches w') as [[o' w''] t'].
  reflexivity.
Qed.

(** [get_default_branch] lets no timeout and no failed command out. *)
Lemma probe_branches_swallows (p : Path) (bs : list string) (w : W) (e : exn) :
  outcome_of (probe_branches env p bs w) = Raise e ->
  subprocess_error e = false.
Proof.
  revert w. induction bs as [|b bs IH]; intros w; cbn [probe_branches].
  - discriminate.
  - rewrite outcome_bind, outcome_try, outcome_bind.
    destruct (outcome_of (subprocess_run env _ w)) as [cp|e0| |];
      try discriminate.
    destruct (subprocess_error e0) eqn:E0.
    + cbn [ret outcome_of fst]. apply IH.
    + intros H. injection H as <-. exact E0.
Qed.

Lemma get_default_branch_swallows (p : Path) (w : W) (e : exn) :
  outcome_of (get_default_branch env p w) = Raise e ->
  subprocess_error e = false.
Proof.
  unfold get_default_branch. rewrite outcome_try, outcome_bind.
  destruct (outcome_of (subprocess_run env _ w)) as [cp|e0| |];
    try discriminate.
  destruct (subprocess_error e0) eqn:E0.
  - apply probe_branches_swallows.
  - intros H. injection H as <-. exact E0.
Qed.

(** *** A repository that is on disk *)

Lemma update_found_run (b : string) (t : list event)
      (o1 e1 o2 e2 : string) (w0 w1 w2 w3 w4 w5 : W) :
  path_mkdir env (target_dir_of self project) w0 = (inl tt, w1) ->
  path_exists env (project_dir_of self project) w1 = (inl true, w2) ->
  get_default_branch env (project_dir_of self project) w2
  = (Return (Some b), w3, t) ->
  PyStr.truthy b = true ->
  spawn env (checkout_command self project b) w3 = (Exited 0 o1 e1, w4) ->
  spawn env (pull_command self project) w4 = (Exited 0 o2 e2, w5) ->
  exists t',
    safe_clone_project env self project w0 = (Return true, w5, t')
    /\ commands t'
       = commands t
           ++ [checkout_command self project b; pull_command self project].
Proof.
  intros Hmk Hex Hdb Hb Hco Hpull.
  pose proof (@run_exited_ok _ _ _ _ _ Hco) as Rco.
  pose proof (@run_exited_ok _ _ _ _ _ Hpull) as Rpull.
  unfold checkout_command in Rco. unfold pull_command in Rpull.
  unfold_sync. next Hmk. next Hex. next Hdb.
  cbn [truthy_opt]. next Hb. next Rco. next Rpull.
  eexists. split; [reflexivity|].
  cbn [app commands]. rewrite commands_app. reflexivity.
Qed.

Lemma update_no_branch_run (db : option string) (t : list event) (rc : Z)
      (out err : string) (w0 w1 w2 w3 w4 : W) :
  path_mkdir env (target_dir_of self project) w0 = (inl tt, w1) ->
  path_exists env (project_dir_of self project) w1 = (inl true, w2) ->
  get_default_branch env (project_dir_of self project) w2
  = (Return db, w3, t) ->
  truthy_opt db = false ->
  spawn env (branch_r_command self project) w3 = (Exited rc out err, w4) ->
  exists t',
    safe_clone_project env self project w0
    = (Return (negb (PyStr.truthy (PyStr.strip out))), w4, t')
    /\ commands t' = commands t ++ [branch_r_command self project].
Proof.
  intros Hmk Hex Hdb Hno Hbr.
  pose proof (@run_exited_unchecked (branch_r_command self project) rc out err
                w3 w4 eq_refl Hbr) as Rbr.
  unfold branch_r_command in Rbr.
  unfold_sync. next Hmk. next Hex. next Hdb. next Hno. next Rbr.
  cbn [cp_stdout].
  destruct (PyStr.truthy (PyStr.strip out)); cbn [negb]; cbv beta iota;
    eexists; (split; [reflexivity|]);
    cbn [app commands]; rewrite commands_app; reflexivity.
Qed.

End SyncRuns.

(** ** Sync Executor: the claims *)

(** C6: for every descriptor whose target directory is absent, when
    [git clone] fails: if its stderr holds one of the three recognised
    empty-repository substrings, the executor makes the project directory,
    runs [git init] in it and adds the remote [origin] with the
    descriptor's clone URL, and, these steps done, returns success with no
    further command; if its stderr holds none of them, the outcome is the
    failure of that repository and nothing is initialised. *)
Theorem empty_remote_is_success
        {W} (env : Env W) (self : GitLabCloner) (project : Project.t)
        (rc : Z) (out err : string) (w0 w1 w2 w3 : W) :
  path_mkdir env (target_dir_of self project) w0 = (inl tt, w1) ->
  path_exists env (project_dir_of self project) w1 = (inl false, w2) ->
  spawn env (clone_command self project) w2 = (Exited rc out err, w3) ->
  rc <> 0%Z ->
  (empty_repository_stderr err = true <->
   PyStr.contains "does not appear to be a git repository" err = true
   \/ PyStr.contains
        "remote: warning: You appear to have cloned an empty repository" err
      = true
   \/ PyStr.contains "warning: You appear to have cloned an empty repository"
        err = true)
  /\ (empty_repository_stderr err = true ->
      forall o1 e1 o2 e2 w4 w5 w6,
        path_mkdir env (project_dir_of self project) w3 = (inl tt, w4) ->
        spawn env (init_command self project) w4 = (Exited 0 o1 e1, w5) ->
        spawn env (remote_add_command self project) w5
        = (Exited 0 o2 e2, w6) ->
        outcome_of (safe_clone_project env self project w0) = Return true
        /\ world_of (safe_clone_project env self project w0) = w6
        /\ actions (trace_of (safe_clone_project env self project w0))
           = [EvMkdir (target_dir_of self project);
              EvExists (project_dir_of self project);
              EvRun (clone_command self project);
              EvMkdir (project_dir_of self project);
              EvRun (init_command self project);
              EvRun (remote_add_command self project)]
        /\ outcome_of (clone_project_parallel env self project w0)
           = Return (Project.name_with_namespace project, true, None))
  /\ (empty_repository_stderr err = false ->
      outcome_of (safe_clone_project env self project w0) = Return false
      /\ actions (trace_of (safe_clone_project env self project w0))
         = [EvMkdir (target_dir_of self project);
            EvExists (project_dir_of self project);
            EvRun (clone_command self project)]
      /\ outcome_of (clone_project_parallel env self project w0)
         = Return (Project.name_with_namespace project, false,
                   Some "Partial failure")).
Proof.
  intros Hmk Hex Hclone Hrc. split; [|split].
  - unfold empty_repository_stderr. rewrite !orb_true_iff. tauto.
  - intros Hempty o1 e1 o2 e2 w4 w5 w6 Hmk2 Hinit Hremote.
    destruct (@clone_empty_remote_run W env self project rc out err o1 e1 o2 e2
                w0 w1 w2 w3 w4 w5 w6 Hmk Hex Hclone Hrc Hempty Hmk2 Hinit
                Hremote) as [t [Hrun Hact]].
    destruct (clone_project_parallel_run env self project w0)
      as [b [Hb [Hp _]]].
    rewrite Hrun in *. cbn [outcome_of world_of trace_of fst snd] in *.
    injection Hb as <-. auto.
  - intros Hhard.
    destruct (@clone_hard_failure_run W env self project rc out err
                w0 w1 w2 w3 Hmk Hex Hclone Hrc Hhard) as [t [Hrun Hact]].
    destruct (clone_project_parallel_run env self project w0)
      as [b [Hb [Hp _]]].
    rewrite Hrun in *. cbn [outcome_of world_of trace_of fst snd] in *.
    injection Hb as <-. auto.
Qed.

Lemma empty_remote_is_success_witness :
  outcome_of (safe_clone_project env_empty_remote (cloner_for "acme" 20 4)
                                 (sample_project "api") tt) = Return true
  /\ outcome_of (safe_clone_project env_unreachable (cloner_for "acme" 20 4)
                                    (sample_project "api") tt) = Return false.
Proof.
  split.
  - assert (Hrc : (128 <> 0)%Z) by discriminate.
    pose proof (@empty_remote_is_success unit env_empty_remote
                  (cloner_for "acme" 20 4) (sample_project "api") 128 ""
                  "warning: You appear to have cloned an empty repository."
                  tt tt tt tt eq_refl eq_refl eq_refl Hrc) as [_ [H _]].
    exact (proj1 (H eq_refl "" "" "" "" tt tt tt eq_refl eq_refl eq_refl)).
  - assert (Hrc : (128 <> 0)%Z) by discriminate.
    pose proof (@empty_remote_is_success unit env_unreachable
                  (cloner_for "acme" 20 4) (sample_project "api") 128 ""
                  "fatal: Could not read from remote repository."
                  tt tt tt tt eq_refl eq_refl eq_refl Hrc) as [_ [_ H]].
    exact (proj1 (H eq_refl)).
Defined.

(** C7: for every descriptor whose target directory exists.  The default
    branch is the last segment of what [git symbolic-ref
    refs/remotes/origin/HEAD] prints; when that command fails, the
    branches [main], [master], [develop] are probed in this order with
    [git checkout] and the first that checks out is the default branch,
    none if all three fail.  If a branch is found, the executor checks it
    out, then pulls, and, these two done, the sync succeeds.  If none is
    found, it lists the remote branches: without any the sync succeeds
    with no further command, with some it fails. *)
Theorem existing_repository_update
        {W} (env : Env W) (self : GitLabCloner) (project : Project.t)
        (w0 w1 w2 : W) :
  path_mkdir env (target_dir_of self project) w0 = (inl tt, w1) ->
  path_exists env (project_dir_of self project) w1 = (inl true, w2) ->
  (forall p out err w w',
      spawn env (symbolic_ref_command p) w = (Exited 0 out err, w') ->
      get_default_branch env p w
      = (Return (Some (PyStr.last_part
                         (PyStr.split PyStr.slash (PyStr.strip out)))),
         w', [EvRun (symbolic_ref_command p)]))
  /\ (forall p o0 before b after os out err w wa w',
         before ++ b :: after = common_branches ->
         spawn env (symbolic_ref_command p) w = (o0, wa) -> run_failed o0 ->
         List.length os = List.length before -> Forall run_failed os ->
         spawns env (combine (map (probe_command p) before) os
                       ++ [(probe_command p b, Exited 0 out err)]) wa w' ->
         get_default_branch env p w
         = (Return (Some b), w',
            EvRun (symbolic_ref_command p)
              :: map EvRun (map (probe_command p) (before ++ [b]))))
  /\ (forall p o0 os w wa w',
         spawn env (symbolic_ref_command p) w = (o0, wa) -> run_failed o0 ->
         List.length os = 3 -> Forall run_failed os ->
         spawns env (combine (map (probe_command p) common_branches) os)
                wa w' ->
         get_default_branch env p w
         = (Return None, w',
            EvRun (symbolic_ref_command p)
              :: map EvRun (map (probe_command p) common_branches)))
  /\ (forall b t o1 e1 o2 e2 w3 w4 w5,
         get_default_branch env (project_dir_of self project) w2
         = (Return (Some b), w3, t) ->
         PyStr.truthy b = true ->
         spawn env (checkout_command self project b) w3
         = (Exited 0 o1 e1, w4) ->
         spawn env (pull_command self project) w4 = (Exited 0 o2 e2, w5) ->
         outcome_of (safe_clone_project env self project w0) = Return true
         /\ world_of (safe_clone_project env self project w0) = w5
         /\ commands (trace_of (safe_clone_project env self project w0))
            = commands t ++ [checkout_command self project b;
                             pull_command self project])
  /\ (forall db t rc out err w3 w4,
         get_default_branch env (project_dir_of self project) w2
         = (Return db, w3, t) ->
         truthy_opt db = false ->
         spawn env (branch_r_command self project) w3
         = (Exited rc out err, w4) ->
         commands (trace_of (safe_clone_project env self project w0))
         = commands t ++ [branch_r_command self project]
         /\ (PyStr.strip out = EmptyString ->
             outcome_of (safe_clone_project env self project w0) = Return true)
         /\ (PyStr.strip out <> EmptyString ->
             outcome_of (safe_clone_project env self project w0)
             = Return false)).
Proof.
  intros Hmk Hex. split; [|split; [|split; [|split]]].
  - intros p out err w w' H.
    apply (@default_branch_from_head W env p out err w w' H).
  - intros p o0 before b after os out err w wa w' Hb H0 Hf0 Hlen Hf Hs.
    rewrite (@default_branch_fallback W env p o0 w wa H0 Hf0).
    rewrite <- Hb.
    rewrite (@probe_branches_found W env p b after out err before os wa w'
               Hlen Hf Hs).
    reflexivity.
  - intros p o0 os w wa w' H0 Hf0 Hlen Hf Hs.
    rewrite (@default_branch_fallback W env p o0 w wa H0 Hf0).
    rewrite (@probe_branches_none W env p common_branches os wa w'
               Hlen Hf Hs).
    reflexivity.
  - intros b t o1 e1 o2 e2 w3 w4 w5 Hdb Hb Hco Hpull.
    destruct (@update_found_run W env self project b t o1 e1 o2 e2
                w0 w1 w2 w3 w4 w5 Hmk Hex Hdb Hb Hco Hpull) as [t' [-> Hc]].
    auto.
  - intros db t rc out err w3 w4 Hdb Hno Hbr.
    destruct (@update_no_branch_run W env self project db t rc out err
                w0 w1 w2 w3 w4 Hmk Hex Hdb Hno Hbr) as [t' [-> Hc]].
    cbn [outcome_of trace_of fst snd]. split; [exact Hc|]. split.
    + intros ->. reflexivity.
    + intros Hne. destruct (PyStr.strip out); [contradiction | reflexivity].
Qed.

Lemma existing_repository_update_witness :
  outcome_of (safe_clone_project env_present (cloner_for "acme" 20 4)
                                 (sample_project "api") tt) = Return true
  /\ commands (trace_of (safe_clone_project env_present
                           (cloner_for "acme" 20 4) (sample_project "api") tt))
     = [symbolic_ref_command
          (project_dir_of (cloner_for "acme" 20 4) (sample_project "api"));
        checkout_command (cloner_for "acme" 20 4) (sample_project "api") "main";
        pull_command (cloner_for "acme" 20 4) (sample_project "api")].
Proof.
  pose proof (@existing_repository_update unit env_present
                (cloner_for "acme" 20 4) (sample_project "api") tt tt tt
                eq_refl eq_refl) as [_ [_ [_ [H _]]]].
  destruct (H "main"
              [EvRun (symbolic_ref_command
                        (project_dir_of (cloner_for "acme" 20 4)
                                        (sample_project "api")))]
              "" "" "" "" tt tt tt eq_refl eq_refl eq_refl eq_refl)
    as [Ho [_ Hc]].
  split; [exact Ho | exact Hc].
Defined.

Lemma bounded_commands (t : list event) :
  forallb bounded_timeout t = true ->
  forall c, In c (commands t) ->
            exists secs, timeout c = Some secs /\ (0 < secs <= 300)%Z.
Proof.
  induction t as [|ev t IH]; simpl; intros H c Hin; [contradiction|].
  apply andb_true_iff in H. destruct H as [Hev Ht].
  destruct ev as [| | | |c0|]; try (apply IH; assumption).
  destruct Hin as [<-|Hin]; [|apply IH; assumption].
  simpl in Hev. destruct (timeout c0) as [secs|]; [|discriminate].
  apply andb_true_iff in Hev. destruct Hev as [H1 H2].
  apply Z.ltb_lt in H1. apply Z.leb_le in H2. exists secs. auto.
Qed.

(** C8 (amended): every [git] command the GitLab cloner's sync logic
    issues (clone, checkout, pull, branch probe, symbolic-ref, branch
    listing, init, remote add) carries a timeout, of at most 300 seconds;
    the sync of a repository always returns, so a command that exceeds its
    timeout is never fatal to the process; a timeout of [symbolic-ref] or
    of a branch probe stays inside [get_default_branch], which treats it
    as a failed probe; a timeout that leaves the sync is recorded as the
    failure of that one repository, and in no schedule does it leave the
    coordinator. *)
Theorem gitlab_commands_carry_timeouts
        {W} (env : Env W) (self : GitLabCloner) (project : Project.t) (w : W) :
  (forall c,
      In c (commands (trace_of (safe_clone_project env self project w))) ->
      exists secs, timeout c = Some secs /\ (0 < secs <= 300)%Z)
  /\ (exists b, outcome_of (safe_clone_project env self project w) = Return b)
  /\ (forall p w1,
         outcome_of (get_default_branch env p w1) <> Raise TimeoutExpired)
  /\ (outcome_of (sync_body env self project w) = Raise TimeoutExpired ->
      outcome_of (safe_clone_project env self project w) = Return false
      /\ outcome_of (clone_project_parallel env self project w)
         = Return (Project.name_with_namespace project, false,
                   Some "Partial failure"))
  /\ (forall workers sched projects w0,
         crashed (pool_exec workers (clone_project_parallel env self) sched
                            (pool_init projects w0)) = None).
Proof.
  split; [|split; [|split; [|split]]].
  - apply bounded_commands. apply trace_all_safe_clone_project.
  - apply safe_clone_project_returns.
  - intros p w1 H. apply get_default_branch_swallows in H. discriminate.
  - intros He.
    pose proof (safe_clone_project_raise env self project w He) as Hf.
    split; [exact Hf|].
    destruct (clone_project_parallel_run env self project w) as [b [H1 [H2 _]]].
    rewrite Hf in H1. injection H1 as <-. exact H2.
  - intros workers sched projects w0.
    apply (@pool_exec_inv W workers _ projects
             (clone_project_parallel_task env self) sched _
             (pool_init_inv projects w0)).
Qed.

Lemma gitlab_commands_carry_timeouts_witness :
  outcome_of (clone_project_parallel env_acme (cloner_for "acme" 20 4)
                                     (sample_project "api") tt)
  = Return ("acme / api", false, Some "Partial failure").
Proof.
  exact (proj2 (proj1 (proj2 (proj2 (proj2
           (gitlab_commands_carry_timeouts env_acme (cloner_for "acme" 20 4)
              (sample_project "api") tt)))) eq_refl)).
Defined.

(** C8 as worded fails twice.  On the GitHub script:
    [clone_or_pull_repositories] runs [git clone] with no timeout; when
    [git] does not exit, the call never comes back and the second
    repository is never reached.  In the GitLab cloner: a
    [git symbolic-ref] that exceeds its timeout is taken for a failed
    probe, and the sync of that repository still succeeds. *)
Lemma github_commands_have_no_timeout_counterexample :
  commands
    (trace_of (GitHub.clone_or_pull_repositories
                 env_acme (Some "/srv/mirror")
                 ["git@github.com:acme/api.git"; "git@github.com:acme/web.git"]
                 tt))
  = [{| argv := ["git"; "clone"; "git@github.com:acme/api.git"];
        cwd := PathOf "/srv/mirror"; check := true; timeout := None |}]
  /\ outcome_of (GitHub.clone_or_pull_repositories
                   env_acme (Some "/srv/mirror")
                   ["git@github.com:acme/api.git";
                    "git@github.com:acme/web.git"] tt) = Blocked
  /\ outcome_of (safe_clone_project env_head_hangs (cloner_for "acme" 20 4)
                                    (sample_project "api") tt) = Return true
  /\ ~ timeouts_claim
  /\ ~ (forall (env : Env unit) (self : GitLabCloner) (project : Project.t)
               (c : command),
           In c (commands (trace_of (safe_clone_project env self project tt))) ->
           spawn env c tt = (NotExited, tt) ->
           outcome_of (safe_clone_project env self project tt) = Return false).
Proof.
  split; [reflexivity|]. split; [reflexivity|]. split; [reflexivity|]. split.
  - intros [_ [H _]].
    specialize (H unit env_acme (Some "/srv/mirror")
                  ["git@github.com:acme/api.git"] tt).
    vm_compute in H. discriminate.
  - intros H.
    specialize (H env_head_hangs (cloner_for "acme" 20 4) (sample_project "api")
                  (symbolic_ref_command
                     (project_dir_of (cloner_for "acme" 20 4)
                                     (sample_project "api")))).
    assert (Hin : In (symbolic_ref_command
                        (project_dir_of (cloner_for "acme" 20 4)
                                        (sample_project "api")))
                     (commands (trace_of (safe_clone_project env_head_hangs
                                            (cloner_for "acme" 20 4)
                                            (sample_project "api") tt))))
      by (left; reflexivity).
    specialize (H Hin eq_refl). vm_compute in H. discriminate.
Qed.

(** ** More on the Path Mapper and the configuration *)

Lemma append_empty_r (s : string) : (s ++ "")%string = s.
Proof. induction s as [|c s IH]; simpl; [|rewrite IH]; reflexivity. Qed.

(** X1: the relative namespace path is always a suffix of the full
    namespace path: the mapper removes a prefix or nothing, and never
    makes up a path component. *)
Theorem mapper_result_is_suffix (self : GitLabCloner) (p : string) :
  exists prefix,
    p = (prefix ++ get_relative_namespace_path self p)%string
    /\ (prefix = EmptyString
        \/ prefix = Config.namespace (config self)
        \/ prefix = (Config.namespace (config self) ++ "/")%string).
Proof.
  rewrite relative_path_by_first_segment.
  destruct (PyStr.truthy (Config.namespace (config self))); simpl;
    [|exists EmptyString; auto].
  destruct (String.eqb _ _) eqn:E; [|exists EmptyString; auto].
  apply String.eqb_eq in E. unfold strip_first_segment.
  pose proof (split_decompose p) as Hd.
  destruct (PyStr.split PyStr.slash p) as [|h [|h' t]]; simpl in E.
  - contradiction.
  - exists p. simpl. split; [symmetry; apply append_empty_r|].
    right. left. rewrite Hd. exact E.
  - exists (Config.namespace (config self) ++ "/")%string.
    split; [|auto]. rewrite <- E, app_assoc_str. exact Hd.
Qed.

(** X2: where a project is cloned, for a non-empty root namespace without
    a separator: a project of the root namespace itself goes to
    [clone_directory/slug]; a project of [root/rest] goes to
    [clone_directory/rest/slug]; a project of a namespace that neither is
    the root nor starts with [root/] goes to
    [clone_directory/full_path/slug]. *)
Theorem project_directory_layout (self : GitLabCloner) (project : Project.t) :
  Config.namespace (config self) <> EmptyString ->
  PyStr.mem PyStr.slash (Config.namespace (config self)) = false ->
  (Namespace.full_path (Project.namespace project)
   = Config.namespace (config self) ->
   project_dir_of self project
   = PathJoin (PathOf (Config.clone_directory (config self)))
              (Project.path project))
  /\ (forall rest,
         rest <> EmptyString ->
         Namespace.full_path (Project.namespace project)
         = (Config.namespace (config self) ++ "/" ++ rest)%string ->
         project_dir_of self project
         = PathJoin (PathJoin (PathOf (Config.clone_directory (config self)))
                              rest)
                    (Project.path project))
  /\ (Namespace.full_path (Project.namespace project) <> EmptyString ->
      Namespace.full_path (Project.namespace project)
      <> Config.namespace (config self) ->
      PyStr.startswith (Config.namespace (config self) ++ "/")
                       (Namespace.full_path (Project.namespace project))
      = false ->
      project_dir_of self project
      = PathJoin (PathJoin (PathOf (Config.clone_directory (config self)))
                           (Namespace.full_path (Project.namespace project)))
                 (Project.path project)).
Proof.
  intros Hne Hm. unfold project_dir_of, target_dir_of. split; [|split].
  - intros ->. rewrite (relative_path_equal_root self Hm). reflexivity.
  - intros rest Hrest ->.
    destruct (relative_path_strip self rest Hne Hm) as [Hf _].
    cbv zeta in Hf. rewrite Hf. destruct rest; [contradiction|]. reflexivity.
  - intros Hfull Hpr Hsw. rewrite (relative_path_other self Hpr Hsw).
    destruct (Namespace.full_path (Project.namespace project));
      [contradiction|]. reflexivity.
Qed.

Lemma project_directory_layout_witness :
  project_dir_of (cloner_for "acme" 20 4) (project_in "acme" "root-tool")
  = PathJoin (PathOf "./repos") "root-tool"
  /\ project_dir_of (cloner_for "acme" 20 4)
                    (project_in "acme/platform/api" "gateway")
     = PathJoin (PathJoin (PathOf "./repos") "platform/api") "gateway"
  /\ project_dir_of (cloner_for "acme" 20 4) (project_in "other-org/app" "app")
     = PathJoin (PathJoin (PathOf "./repos") "other-org/app") "app".
Proof.
  assert (Hne : Config.namespace (config (cloner_for "acme" 20 4))
                <> EmptyString) by discriminate.
  assert (Hm : PyStr.mem PyStr.slash
                 (Config.namespace (config (cloner_for "acme" 20 4))) = false)
    by reflexivity.
  split; [|split].
  - exact (proj1 (project_directory_layout (cloner_for "acme" 20 4)
                    (project_in "acme" "root-tool") Hne Hm) eq_refl).
  - apply (proj1 (proj2 (project_directory_layout (cloner_for "acme" 20 4)
                    (project_in "acme/platform/api" "gateway") Hne Hm))
                 "platform/api"); [discriminate | reflexivity].
  - apply (proj2 (proj2 (project_directory_layout (cloner_for "acme" 20 4)
                    (project_in "other-org/app" "app") Hne Hm)));
      [discriminate | discriminate | reflexivity].
Defined.

Lemma length_append_str (a b : string) :
  String.length (a ++ b)%string = String.length a + String.length b.
Proof. induction a as [|c a IH]; simpl; [|rewrite IH]; reflexivity. Qed.

(** X3: the mapping to directories is not one to one.  For a non-empty
    root without a separator, a project of the namespace [root/rest] and a
    project with the same slug of the foreign namespace [rest] are sent to
    the same directory. *)
Theorem project_directories_collide
        (self : GitLabCloner) (p1 p2 : Project.t) (rest : string) :
  Config.namespace (config self) <> EmptyString ->
  PyStr.mem PyStr.slash (Config.namespace (config self)) = false ->
  rest <> EmptyString ->
  rest <> Config.namespace (config self) ->
  PyStr.startswith (Config.namespace (config self) ++ "/") rest = false ->
  Namespace.full_path (Project.namespace p1)
  = (Config.namespace (config self) ++ "/" ++ rest)%string ->
  Namespace.full_path (Project.namespace p2) = rest ->
  Project.path p1 = Project.path p2 ->
  Namespace.full_path (Project.namespace p1)
  <> Namespace.full_path (Project.namespace p2)
  /\ project_dir_of self p1 = project_dir_of self p2.
Proof.
  intros Hne Hm Hrest Hrr Hsw H1 H2 Hslug. split.
  - rewrite H1, H2. intros Heq.
    assert (Hl : String.length
                   (Config.namespace (config self) ++ "/" ++ rest)%string
                 = String.length rest) by (rewrite Heq; reflexivity).
    rewrite length_append_str in Hl. simpl in Hl. lia.
  - unfold project_dir_of, target_dir_of. rewrite H1, H2, Hslug.
    destruct (relative_path_strip self rest Hne Hm) as [Hf _].
    cbv zeta in Hf. rewrite Hf.
    rewrite (relative_path_other self Hrr Hsw). reflexivity.
Qed.

Lemma project_directories_collide_witness :
  project_dir_of (cloner_for "acme" 20 4) (project_in "acme/tools" "cli")
  = project_dir_of (cloner_for "acme" 20 4) (project_in "tools" "cli").
Proof.
  refine (proj2 (@project_directories_collide (cloner_for "acme" 20 4)
                   (project_in "acme/tools" "cli") (project_in "tools" "cli")
                   "tools" _ eq_refl _ _ eq_refl eq_refl eq_refl eq_refl));
    discriminate.
Defined.

(** X4: [gitlab_url_http] gives a URL that starts with [http://] or
    [https://], and it leaves such a URL as it is: applying it to its own
    result changes nothing. *)
Theorem gitlab_url_http_normalises (c : Config.t) :
  PyStr.startswith "http://" (gitlab_url_http c)
  || PyStr.startswith "https://" (gitlab_url_http c) = true
  /\ gitlab_url_http (with_gitlab_url c (gitlab_url_http c))
     = gitlab_url_http c.
Proof.
  assert (H : PyStr.startswith "http://" (gitlab_url_http c)
              || PyStr.startswith "https://" (gitlab_url_http c) = true).
  { unfold gitlab_url_http.
    destruct (PyStr.startswith "http://" (Config.gitlab_url c)
              || PyStr.startswith "https://" (Config.gitlab_url c)) eqn:E;
      simpl; [exact E | reflexivity]. }
  split; [exact H|].
  unfold gitlab_url_http at 1. cbn [with_gitlab_url Config.gitlab_url].
  rewrite H. reflexivity.
Qed.

(** ** More on the Remote Project Lister *)

Lemma ensures_bind {W A B} (Qa : A -> Prop) (Q : B -> Prop)
      (m : M W A) (k : A -> M W B) :
  ensures Qa m -> (forall a, Qa a -> ensures Q (k a)) -> ensures Q (bind m k).
Proof.
  intros Hm Hk w b H. rewrite outcome_bind in H.
  destruct (outcome_of (m w)) as [a| | |] eqn:E; try discriminate.
  eapply Hk; [eapply Hm; exact E | exact H].
Qed.

Lemma page_numbers_length (start : Z) (n : nat) :
  List.length (page_numbers start n) = n.
Proof.
  revert start. induction n as [|n IH]; intros start; simpl;
    [|rewrite IH]; reflexivity.
Qed.

Section ListerMore.

Variable W : Type.
Variable env : Env W.
Variable self : GitLabCloner.

(** *** The requests of the capped loops *)

Lemma user_body_pages (u : string) (projects : list Project.t) (page : Z)
      (w : W) :
  pages_requested
    (trace_of (get_user_projects_body env self u projects page w)) = [page].
Proof.
  unfold get_user_projects_body, gl_projects_list, trace_of, try_except, bind,
    call, log, ret.
  destruct (projects_list env true page (Config.per_page (config self)) w)
    as [[l|e] w1]; cbv beta iota.
  - destruct (negb (nonempty l) || _); [destruct (nonempty l); reflexivity|].
    destruct (page + 1 >? 50)%Z; reflexivity.
  - destruct (is_GitlabError e); reflexivity.
Qed.

Lemma user_loop_pages (u : string) (fuel : nat) :
  forall (projects : list Project.t) (page : Z) (w : W),
    (page <= 50)%Z ->
    exists n,
      pages_requested
        (trace_of (get_user_projects_loop env self fuel u projects page w))
      = page_numbers page n
      /\ (Z.of_nat n <= 51 - page)%Z.
Proof.
  induction fuel as [|fuel IH]; intros projects page w Hp.
  - exists 0. split; [reflexivity | lia].
  - cbn [get_user_projects_loop]. rewrite trace_bind.
    pose proof (user_body_pages u projects page w) as Hb.
    pose proof (@ensures_user_body W env self u projects page w) as He.
    destruct (outcome_of (get_user_projects_body env self u projects page w))
      as [[ps|[ps pg]]| | |] eqn:E;
      try (exists 1; split; [rewrite ?pages_requested_app, Hb; reflexivity
                            | lia]).
    destruct (He _ eq_refl) as [-> Hle].
    destruct (IH ps (page + 1)%Z
                 (world_of (get_user_projects_body env self u projects page w))
                 Hle) as [n [Hn Hb']].
    exists (S n). rewrite pages_requested_app, Hb, Hn.
    split; [reflexivity | lia].
Qed.

Lemma group_body_pages (gp : string) (g : Group)
      (projects : list Project.t) (page : Z) (w : W) :
  pages_requested
    (trace_of (get_group_projects_by_namespace_body env self gp g
                 projects page w)) = [page].
Proof.
  unfold get_group_projects_by_namespace_body, group_projects_list_call,
    trace_of, try_except, bind, call, log, ret.
  destruct (group_projects_list env g page (Config.per_page (config self)) w)
    as [[l|e] w1]; cbv beta iota.
  - destruct (negb (nonempty l) || _); [destruct (nonempty l); reflexivity|].
    destruct (page + 1 >? 1000)%Z; reflexivity.
  - destruct (is_GitlabError e); reflexivity.
Qed.

Lemma group_loop_requests (gp : string) (g : Group) (fuel : nat) :
  forall (projects : list Project.t) (page : Z) (w : W),
    (page <= 1000)%Z ->
    exists n,
      pages_requested
        (trace_of (get_group_projects_by_namespace_loop env self fuel gp g
                     projects page w))
      = page_numbers page n
      /\ (Z.of_nat n <= 1001 - page)%Z.
Proof.
  induction fuel as [|fuel IH]; intros projects page w Hp.
  - exists 0. split; [reflexivity | lia].
  - cbn [get_group_projects_by_namespace_loop]. rewrite trace_bind.
    pose proof (group_body_pages gp g projects page w) as Hb.
    pose proof (@ensures_group_body W env self gp g projects page w) as He.
    destruct (outcome_of (get_group_projects_by_namespace_body env self gp g
                            projects page w))
      as [[ps|[ps pg]]| | |] eqn:E;
      try (exists 1; split; [rewrite ?pages_requested_app, Hb; reflexivity
                            | lia]).
    destruct (He _ eq_refl) as [-> Hle].
    destruct (IH ps (page + 1)%Z
                 (world_of (get_group_projects_by_namespace_body env self gp g
                              projects page w))
                 Hle) as [n [Hn Hb']].
    exists (S n). rewrite pages_requested_app, Hb, Hn.
    split; [reflexivity | lia].
Qed.

End ListerMore.

(** X5: whatever the server answers and however long it is left to run,
    [get_user_projects] asks for the pages 1, 2, ..., n in this order and
    for no other, with n at most 50. *)
Theorem user_lister_requests_at_most_50_pages
        {W} (env : Env W) (self : GitLabCloner) (fuel : nat) (username : string)
        (w : W) :
  exists n,
    pages_requested (trace_of (get_user_projects env self fuel username w))
    = page_numbers 1 n
    /\ n <= 50.
Proof.
  unfold get_user_projects. destruct (gl self).
  - destruct (@user_loop_pages W env self username fuel [] 1%Z w ltac:(lia))
      as [n [Hn Hb]].
    exists n. split; [|lia].
    rewrite trace_bind. cbn [log outcome_of world_of trace_of fst snd].
    rewrite trace_bind. cbn [log outcome_of world_of trace_of fst snd].
    rewrite trace_bind.
    fold (trace_of (get_user_projects_loop env self fuel username [] 1 w)).
    destruct (outcome_of (get_user_projects_loop env self fuel username [] 1 w));
      cbn [app pages_requested]; try exact Hn.
    rewrite pages_requested_app, Hn.
    rewrite trace_bind. cbn. apply app_nil_r.
  - exists 0. split; [reflexivity | lia].
Qed.

(** X6: whatever the server answers and however long it is left to run,
    [get_group_projects_by_namespace] asks for the pages 1, 2, ..., n in
    this order and for no other, with n at most 1000. *)
Theorem group_lister_requests_at_most_1000_pages
        {W} (env : Env W) (self : GitLabCloner) (fuel : nat)
        (group_path : string) (w : W) :
  exists n,
    pages_requested
      (trace_of (get_group_projects_by_namespace env self fuel group_path w))
    = page_numbers 1 n
    /\ (Z.of_nat n <= 1000)%Z.
Proof.
  unfold get_group_projects_by_namespace. destruct (gl self).
  - rewrite trace_bind. cbn [log outcome_of world_of trace_of fst snd].
    rewrite trace_bind.
    assert (Hfound : pages_requested
                       (trace_of
                          (try_except
                             (bind (gl_groups_get env group_path)
                                   (fun group => ret (Some group)))
                             (fun e =>
                                if is_GitlabGetError e
                                then Some
                                       (bind (log ERROR "Group '%s' not found: %s"
                                                  [AStr group_path; AExn e])
                                             (fun _ => ret None))
                                else None) w)) = []).
    { unfold gl_groups_get, trace_of, try_except, bind, call, log, ret.
      destruct (groups_get env group_path w) as [[g0|e] w1]; cbv beta iota;
        [reflexivity|]. destruct (is_GitlabGetError e); reflexivity. }
    destruct (outcome_of (try_except _ _ w)) as [[grp|]| | |];
      cbn [app pages_requested]; rewrite ?pages_requested_app, ?Hfound;
      try (exists 0; split; [reflexivity | lia]).
    destruct (@group_loop_requests W env self group_path grp fuel [] 1%Z
                (world_of (try_except
                             (bind (gl_groups_get env group_path)
                                   (fun group => ret (Some group)))
                             (fun e =>
                                if is_GitlabGetError e
                                then Some
                                       (bind (log ERROR "Group '%s' not found: %s"
                                                  [AStr group_path; AExn e])
                                             (fun _ => ret None))
                                else None) w)) ltac:(lia)) as [n [Hn Hb]].
    exists n. split; [|lia]. rewrite trace_bind.
    destruct (outcome_of (get_group_projects_by_namespace_loop _ _ _ _ _ _ _ _));
      cbn [app]; try exact Hn.
    rewrite pages_requested_app, Hn. rewrite trace_bind. cbn. apply app_nil_r.
  - exists 0. split; [reflexivity | lia].
Qed.

Section ListerErrors.

Variable W : Type.
Variable env : Env W.
Variable self : GitLabCloner.
Variable group_path : string.
Variable g : Group.

Lemma group_body_gitlab_error (projects : list Project.t) (page : Z)
      (e : exn) (w w1 : W) :
  group_projects_list env g page (Config.per_page (config self)) w
  = (inr e, w1) ->
  is_GitlabError e = true ->
  exists t,
    get_group_projects_by_namespace_body env self group_path g projects page w
    = (Return (Break projects), w1, t)
    /\ pages_requested t = [page].
Proof.
  intros H He.
  unfold get_group_projects_by_namespace_body, group_projects_list_call,
    try_except, bind, call, log, ret.
  rewrite H. cbv beta iota. rewrite He. eexists. split; reflexivity.
Qed.

Lemma group_body_other_error (projects : list Project.t) (page : Z)
      (e : exn) (w w1 : W) :
  group_projects_list env g page (Config.per_page (config self)) w
  = (inr e, w1) ->
  is_GitlabError e = false ->
  get_group_projects_by_namespace_body env self group_path g projects page w
  = (Raise e, w1,
     [EvApi (ReqGroupProjectsList g page (Config.per_page (config self)) true)]).
Proof.
  intros H He.
  unfold get_group_projects_by_namespace_body, group_projects_list_call,
    try_except, bind, call, log, ret.
  rewrite H. cbv beta iota. rewrite He. reflexivity.
Qed.

(** Full pages below the cap are fetched one after the other; the loop
    then goes on from the page after them. *)
Lemma group_loop_prefix (fulls : list (list Project.t)) (fuel : nat) :
  forall (page : Z) (projects : list Project.t) (w w' : W),
    (forall l, In l fulls ->
               nonempty l = true
               /\ (len l <? Config.per_page (config self))%Z = false) ->
    (page + Z.of_nat (List.length fulls) <= 1000)%Z ->
    serves env g (Config.per_page (config self)) page fulls w w' ->
    exists t,
      pages_requested t = page_numbers page (List.length fulls)
      /\ get_group_projects_by_namespace_loop
           env self (List.length fulls + fuel) group_path g projects page w
         = (outcome_of
              (get_group_projects_by_namespace_loop
                 env self fuel group_path g (projects ++ List.concat fulls)
                 (page + Z.of_nat (List.length fulls))%Z w'),
            world_of
              (get_group_projects_by_namespace_loop
                 env self fuel group_path g (projects ++ List.concat fulls)
                 (page + Z.of_nat (List.length fulls))%Z w'),
            t ++ trace_of
                   (get_group_projects_by_namespace_loop
                      env self fuel group_path g
                      (projects ++ List.concat fulls)
                      (page + Z.of_nat (List.length fulls))%Z w')).
Proof.
  induction fulls as [|l ls IH]; intros page projects w w' Hfull Hcap Hs.
  - inversion Hs; subst. exists []. split; [reflexivity|].
    cbn [List.length List.concat Nat.add Z.of_nat app].
    rewrite app_nil_r, Z.add_0_r. apply triple_eta.
  - inversion Hs as [|pg l0 ls0 wa wb wc Hreq Hrest]; subst.
    destruct (Hfull l (or_introl eq_refl)) as [Hne Hf].
    cbn [List.length] in Hcap.
    assert (Hnext : (page + 1 <= 1000)%Z) by lia.
    destruct (@group_body_full W env self group_path g projects l page w wb
                Hreq Hne Hf Hnext) as [t [Hb Ht]].
    destruct (IH (page + 1)%Z (projects ++ l) wb w') as [t' [Ht' Hl]].
    + intros l' Hin. apply Hfull. right. exact Hin.
    + lia.
    + exact Hrest.
    + exists (t ++ t'). split.
      * rewrite pages_requested_app, Ht, Ht'. reflexivity.
      * cbn [List.length Nat.add get_group_projects_by_namespace_loop].
        unfold bind at 1. rewrite Hb. cbv beta iota. rewrite Hl.
        cbn [List.concat].
        replace (page + Z.of_nat (S (List.length ls)))%Z
          with (page + 1 + Z.of_nat (List.length ls))%Z by lia.
        rewrite <- !app_assoc. reflexivity.
Qed.

(** The lister after full pages and a failed request. *)
Lemma group_lister_error_run (fulls : list (list Project.t)) (e : exn)
      (fuel : nat) (w0 w1 w2 w3 : W) :
  gl self <> None ->
  groups_get env group_path w0 = (inl g, w1) ->
  (forall l, In l fulls ->
             nonempty l = true
             /\ (len l <? Config.per_page (config self))%Z = false) ->
  (Z.of_nat (List.length fulls) < 1000)%Z ->
  serves env g (Config.per_page (config self)) 1 fulls w1 w2 ->
  group_projects_list env g (1 + Z.of_nat (List.length fulls))
                      (Config.per_page (config self)) w2 = (inr e, w3) ->
  List.length fulls < fuel ->
  outcome_of (get_group_projects_by_namespace env self fuel group_path w0)
  = (if is_GitlabError e then Return (List.concat fulls) else Raise e)
  /\ world_of (get_group_projects_by_namespace env self fuel group_path w0)
     = w3
  /\ pages_requested
       (trace_of (get_group_projects_by_namespace env self fuel group_path w0))
     = page_numbers 1 (List.length fulls) ++ [1 + Z.of_nat (List.length fulls)]%Z.
Proof.
  intros Hgl Hg Hfull Hcap Hs Herr Hfuel.
  replace fuel with (List.length fulls + S (fuel - List.length fulls - 1))
    by lia.
  destruct (@group_loop_prefix fulls (S (fuel - List.length fulls - 1)) 1%Z []
              w1 w2 Hfull ltac:(lia) Hs) as [t [Ht Hl]].
  cbn [app] in Hl.
  assert (Hlast :
            exists t',
              get_group_projects_by_namespace_loop
                env self (S (fuel - List.length fulls - 1)) group_path g
                (List.concat fulls) (1 + Z.of_nat (List.length fulls))%Z w2
              = (if is_GitlabError e then Return (List.concat fulls)
                 else Raise e, w3, t')
              /\ pages_requested t' = [1 + Z.of_nat (List.length fulls)]%Z).
  { cbn [get_group_projects_by_namespace_loop]. unfold bind at 1.
    destruct (is_GitlabError e) eqn:He.
    - destruct (@group_body_gitlab_error (List.concat fulls) _ e w2 w3 Herr He)
        as [t' [Hb Ht']].
      rewrite Hb. cbv beta iota. eexists. split; [reflexivity|].
      cbn [ret snd]. rewrite app_nil_r. exact Ht'.
    - rewrite (@group_body_other_error (List.concat fulls) _ e w2 w3 Herr He).
      eexists. split; reflexivity. }
  destruct Hlast as [t' [Hlast Ht']]. rewrite Hlast in Hl.
  cbn [outcome_of world_of trace_of fst snd] in Hl.
  unfold get_group_projects_by_namespace. destruct (gl self); [|contradiction].
  unfold outcome_of, world_of, trace_of, try_except, bind, gl_groups_get,
    call, log, ret.
  rewrite Hg. cbv beta iota. rewrite Hl.
  destruct (is_GitlabError e); cbn [fst snd app pages_requested];
    rewrite ?pages_requested_app, ?Ht, ?Ht'; cbn [pages_requested app];
    rewrite ?app_nil_r; repeat split.
Qed.

End ListerErrors.

(** X7: when the listing of a group serves full pages and then a page
    request fails with a GitLab error, [get_group_projects_by_namespace]
    raises nothing: it returns the projects of the pages fetched so far,
    and asks for no further page. *)
Theorem group_lister_keeps_pages_on_gitlab_error
        {W} (env : Env W) (self : GitLabCloner) (group_path : string)
        (g : Group) (fulls : list (list Project.t)) (e : exn) (fuel : nat)
        (w0 w1 w2 w3 : W) :
  gl self <> None ->
  groups_get env group_path w0 = (inl g, w1) ->
  (forall l, In l fulls ->
             l <> [] /\ (Config.per_page (config self) <= len l)%Z) ->
  (Z.of_nat (List.length fulls) < 1000)%Z ->
  serves env g (Config.per_page (config self)) 1 fulls w1 w2 ->
  group_projects_list env g (1 + Z.of_nat (List.length fulls))
                      (Config.per_page (config self)) w2 = (inr e, w3) ->
  is_GitlabError e = true ->
  List.length fulls < fuel ->
  outcome_of (get_group_projects_by_namespace env self fuel group_path w0)
  = Return (List.concat fulls)
  /\ world_of (get_group_projects_by_namespace env self fuel group_path w0)
     = w3
  /\ pages_requested
       (trace_of (get_group_projects_by_namespace env self fuel group_path w0))
     = page_numbers 1 (List.length fulls)
         ++ [1 + Z.of_nat (List.length fulls)]%Z.
Proof.
  intros Hgl Hg Hfull Hcap Hs Herr He Hfuel.
  assert (Hfull' : forall l, In l fulls ->
             nonempty l = true
             /\ (len l <? Config.per_page (config self))%Z = false).
  { intros l Hin. destruct (Hfull l Hin) as [Hne Hle]. split.
    - destruct l; [contradiction | reflexivity].
    - apply Z.ltb_ge. exact Hle. }
  destruct (@group_lister_error_run W env self group_path g fulls e fuel
              w0 w1 w2 w3 Hgl Hg Hfull' Hcap Hs Herr Hfuel) as [Ho [Hw Hp]].
  rewrite He in Ho. auto.
Qed.

Lemma group_lister_keeps_pages_on_gitlab_error_witness :
  outcome_of (get_group_projects_by_namespace
                (env_third_page_fails GitlabOtherError)
                (cloner_for "acme" 20 4) 1000 "acme" tt)
  = Return (full_page 20 ++ full_page 20 ++ []).
Proof.
  assert (Hs : serves (env_third_page_fails GitlabOtherError)
                 {| group_name := "acme" |}
                 (Config.per_page (config (cloner_for "acme" 20 4))) 1
                 [full_page 20; full_page 20] tt tt).
  { repeat (eapply serves_cons; [reflexivity|]). apply serves_nil. }
  assert (Hfull : forall l, In l [full_page 20; full_page 20] ->
             l <> []
             /\ (Config.per_page (config (cloner_for "acme" 20 4)) <= len l)%Z).
  { intros l [<-|[<-|[]]]; split; (discriminate || (vm_compute; discriminate)). }
  refine (proj1 (@group_lister_keeps_pages_on_gitlab_error unit
                   (env_third_page_fails GitlabOtherError)
                   (cloner_for "acme" 20 4) "acme" {| group_name := "acme" |}
                   [full_page 20; full_page 20] GitlabOtherError 1000
                   tt tt tt tt _ eq_refl Hfull _ Hs eq_refl eq_refl _));
    [discriminate | reflexivity | ].
  apply Nat.ltb_lt. vm_compute. reflexivity.
Defined.

(** X8: at the listing boundary the two kinds of failure of a page request
    differ.  When the namespace is a group whose listing serves full pages
    and then fails: after a GitLab error [get_namespace_projects] returns
    the projects fetched so far; after any other exception it returns the
    empty list, and the pages already fetched are dropped. *)
Theorem boundary_keeps_or_drops_pages
        {W} (env : Env W) (self : GitLabCloner) (g : Group)
        (fulls : list (list Project.t)) (e : exn) (fuel : nat)
        (t0 : list event) (w w0 w1 w2 w3 : W) :
  Config.namespace (config self) <> EmptyString ->
  detect_namespace_type env self (Config.namespace (config self)) w
  = (Return "group", w0, t0) ->
  groups_get env (Config.namespace (config self)) w0 = (inl g, w1) ->
  (forall l, In l fulls ->
             l <> [] /\ (Config.per_page (config self) <= len l)%Z) ->
  (Z.of_nat (List.length fulls) < 1000)%Z ->
  serves env g (Config.per_page (config self)) 1 fulls w1 w2 ->
  group_projects_list env g (1 + Z.of_nat (List.length fulls))
                      (Config.per_page (config self)) w2 = (inr e, w3) ->
  List.length fulls < fuel ->
  (is_GitlabError e = true ->
   outcome_of (get_namespace_projects env self fuel w)
   = Return (List.concat fulls))
  /\ (is_GitlabError e = false ->
      outcome_of (get_group_projects_by_namespace
                    env self fuel (Config.namespace (config self)) w0)
      = Raise e
      /\ outcome_of (get_namespace_projects env self fuel w) = Return []).
Proof.
  intros Hns Hdet Hg Hfull Hcap Hs Herr Hfuel.
  assert (Hgl : gl self <> None).
  { intros Hnone. unfold detect_namespace_type in Hdet. rewrite Hnone in Hdet.
    destruct (negb (PyStr.truthy (Config.namespace (config self))));
      discriminate. }
  assert (Hfull' : forall l, In l fulls ->
             nonempty l = true
             /\ (len l <? Config.per_page (config self))%Z = false).
  { intros l Hin. destruct (Hfull l Hin) as [Hne Hle]. split.
    - destruct l; [contradiction | reflexivity].
    - apply Z.ltb_ge. exact Hle. }
  destruct (@group_lister_error_run W env self (Config.namespace (config self))
              g fulls e fuel w0 w1 w2 w3 Hgl Hg Hfull' Hcap Hs Herr Hfuel)
    as [Ho _].
  assert (Hb : outcome_of (get_namespace_projects env self fuel w)
               = match outcome_of (get_group_projects_by_namespace env self fuel
                                     (Config.namespace (config self)) w0) with
                 | Raise _ => Return []
                 | o => o
                 end).
  { unfold get_namespace_projects.
    destruct (Config.namespace (config self)) as [|c ns] eqn:En;
      [contradiction|].
    cbn [PyStr.truthy negb]. rewrite outcome_try, outcome_bind, Hdet.
    cbn [outcome_of world_of fst snd].
    change (String.eqb "group" "user") with false.
    change (String.eqb "group" "group") with true. cbv iota.
    destruct (outcome_of (get_group_projects_by_namespace env self fuel
                            (String c ns) w0)) as [l|e'| |]; try reflexivity.
    destruct (is_ValueError e'), (is_GitlabError e');
      rewrite outcome_bind; reflexivity. }
  rewrite Hb, Ho. split; intros He; rewrite He; auto.
Qed.

Lemma boundary_keeps_or_drops_pages_witness :
  outcome_of (get_namespace_projects (env_third_page_fails GitlabOtherError)
                                     (cloner_for "acme" 20 4) 1000 tt)
  = Return (full_page 20 ++ full_page 20 ++ [])
  /\ outcome_of (get_namespace_projects
                   (env_third_page_fails (OtherException "connection reset"))
                   (cloner_for "acme" 20 4) 1000 tt)
     = Return [].
Proof.
  assert (Hfull : forall l, In l [full_page 20; full_page 20] ->
             l <> []
             /\ (Config.per_page (config (cloner_for "acme" 20 4)) <= len l)%Z).
  { intros l [<-|[<-|[]]]; split; (discriminate || (vm_compute; discriminate)). }
  assert (Hlt : 2 < 1000) by (apply Nat.ltb_lt; vm_compute; reflexivity).
  split.
  - assert (Hs : serves (env_third_page_fails GitlabOtherError)
                   {| group_name := "acme" |}
                   (Config.per_page (config (cloner_for "acme" 20 4))) 1
                   [full_page 20; full_page 20] tt tt).
    { repeat (eapply serves_cons; [reflexivity|]). apply serves_nil. }
    refine (proj1 (@boundary_keeps_or_drops_pages unit
                     (env_third_page_fails GitlabOtherError)
                     (cloner_for "acme" 20 4) {| group_name := "acme" |}
                     [full_page 20; full_page 20] GitlabOtherError 1000
                     _ tt tt tt tt tt _ eq_refl eq_refl Hfull _ Hs eq_refl Hlt)
                  eq_refl); [discriminate | reflexivity].
  - assert (Hs : serves (env_third_page_fails
                           (OtherException "connection reset"))
                   {| group_name := "acme" |}
                   (Config.per_page (config (cloner_for "acme" 20 4))) 1
                   [full_page 20; full_page 20] tt tt).
    { repeat (eapply serves_cons; [reflexivity|]). apply serves_nil. }
    refine (proj2 (proj2 (@boundary_keeps_or_drops_pages unit
                     (env_third_page_fails (OtherException "connection reset"))
                     (cloner_for "acme" 20 4) {| group_name := "acme" |}
                     [full_page 20; full_page 20]
                     (OtherException "connection reset") 1000
                     _ tt tt tt tt tt _ eq_refl eq_refl Hfull _ Hs eq_refl Hlt)
                  eq_refl)); [discriminate | reflexivity].
Defined.

(** X9: when the group lookup of [get_group_projects_by_namespace] fails
    with a get error, the lister returns the empty list after that one
    request, without a page request; any other exception of the lookup
    leaves the lister. *)
Theorem group_lister_unknown_group
        {W} (env : Env W) (self : GitLabCloner) (fuel : nat)
        (group_path : string) (e : exn) (w0 w1 : W) :
  gl self <> None ->
  groups_get env group_path w0 = (inr e, w1) ->
  (is_GitlabGetError e = true ->
   outcome_of (get_group_projects_by_namespace env self fuel group_path w0)
   = Return [])
  /\ (is_GitlabGetError e = false ->
      outcome_of (get_group_projects_by_namespace env self fuel group_path w0)
      = Raise e)
  /\ world_of (get_group_projects_by_namespace env self fuel group_path w0)
     = w1
  /\ api_requests
       (trace_of (get_group_projects_by_namespace env self fuel group_path w0))
     = [ReqGroupsGet group_path].
Proof.
  intros Hgl Hg. unfold get_group_projects_by_namespace.
  destruct (gl self); [|contradiction].
  unfold outcome_of, world_of, trace_of, try_except, bind, gl_groups_get,
    call, log, ret.
  rewrite Hg. cbv beta iota.
  destruct (is_GitlabGetError e); cbn; repeat split; intros; congruence.
Qed.

Lemma group_lister_unknown_group_witness :
  outcome_of (get_group_projects_by_namespace
                env_no_group (cloner_for "ghost" 20 4) 1000 "ghost" tt)
  = Return [].
Proof.
  refine (proj1 (@group_lister_unknown_group unit env_no_group
                   (cloner_for "ghost" 20 4) 1000 "ghost" GitlabGetError
                   tt tt _ eq_refl) eq_refl).
  discriminate.
Defined.

(** X10: a cloner that has not authenticated sends no request.  With a
    namespace configured, [get_namespace_projects] returns the empty list
    (the [ValueError] of the classification is logged); with none
    configured, the [ValueError] of [get_group_projects] leaves
    [get_namespace_projects] and [clone_all_projects]. *)
Theorem unauthenticated_listing
        {W} (env : Env W) (self : GitLabCloner) (fuel : nat)
        (sched : list choice) (w : W) :
  gl self = None ->
  api_requests (trace_of (get_namespace_projects env self fuel w)) = []
  /\ world_of (get_namespace_projects env self fuel w) = w
  /\ (Config.namespace (config self) <> EmptyString ->
      outcome_of (get_namespace_projects env self fuel w) = Return []
      /\ outcome_of (clone_all_projects env self fuel sched w) = Return None)
  /\ (Config.namespace (config self) = EmptyString ->
      outcome_of (get_namespace_projects env self fuel w)
      = Raise (ValueError "GitLab client not authenticated")
      /\ outcome_of (clone_all_projects env self fuel sched w)
         = Raise (ValueError "GitLab client not authenticated")).
Proof.
  intros Hgl.
  unfold clone_all_projects, get_namespace_projects, detect_namespace_type,
    get_group_projects.
  rewrite Hgl.
  destruct (Config.namespace (config self)) as [|c ns];
    cbn [PyStr.truthy negb];
    unfold outcome_of, world_of, trace_of, try_except, bind, log, ret, raise,
      process_projects; cbn; repeat split; intros; congruence.
Qed.

Lemma unauthenticated_listing_witness :
  outcome_of (get_namespace_projects env_full_pages (unauthenticated "acme")
                                     1000 tt) = Return []
  /\ outcome_of (get_namespace_projects env_full_pages (unauthenticated "")
                                        1000 tt)
     = Raise (ValueError "GitLab client not authenticated").
Proof.
  split.
  - refine (proj1 (proj1 (proj2 (proj2
              (@unauthenticated_listing unit env_full_pages
                 (unauthenticated "acme") 1000 [] tt eq_refl))) _)).
    discriminate.
  - exact (proj1 (proj2 (proj2 (proj2
             (@unauthenticated_listing unit env_full_pages
                (unauthenticated "") 1000 [] tt eq_refl))) eq_refl)).
Defined.

Section Fallback.

Variable W : Type.
Variable env : Env W.
Variable self : GitLabCloner.

Lemma all_in_group_app (l1 l2 : list Project.t) :
  all_in_group l1 -> all_in_group l2 -> all_in_group (l1 ++ l2).
Proof.
  intros H1 H2 p Hin. apply in_app_or in Hin. destruct Hin; auto.
Qed.

Lemma all_in_group_filter (l : list Project.t) :
  all_in_group (filter in_group_namespace l).
Proof.
  intros p Hin. apply filter_In in Hin. destruct Hin as [_ H].
  apply String.eqb_eq. exact H.
Qed.

Lemma fallback_body_groups (projects : list Project.t) (page : Z) :
  all_in_group projects ->
  ensures (fun r => match r with
                    | Break ps => all_in_group ps
                    | Continue (ps, _) => all_in_group ps
                    end)
          (get_group_projects_body env self projects page).
Proof.
  intros Hall w r.
  unfold get_group_projects_body, gl_projects_list, outcome_of, try_except,
    bind, call, log, ret.
  destruct (projects_list env false page (Config.per_page (config self)) w)
    as [[l|e] w1]; cbv beta iota.
  - destruct (negb (nonempty l)); cbn [fst]; intros H; injection H as <-.
    + exact Hall.
    + apply all_in_group_app; [exact Hall | apply all_in_group_filter].
  - destruct (is_GitlabError e); cbn [fst]; intros H; [|discriminate].
    injection H as <-. exact Hall.
Qed.

Lemma fallback_loop_groups (fuel : nat) :
  forall (projects : list Project.t) (page : Z),
    all_in_group projects ->
    ensures all_in_group (get_group_projects_loop env self fuel projects page).
Proof.
  induction fuel as [|fuel IH]; intros projects page Hall.
  - intros w l H. discriminate.
  - cbn [get_group_projects_loop].
    eapply ensures_bind; [apply (fallback_body_groups page Hall)|].
    intros [ps|[ps pg]] Hps.
    + intros w l H. injection H as <-. exact Hps.
    + apply IH. exact Hps.
Qed.

(** Pages that are not empty and then an empty page. *)
Lemma fallback_loop_pages (pages : list (list Project.t)) :
  forall (fuel : nat) (page : Z) (projects : list Project.t) (w w' : W),
    (forall l, In l pages -> l <> []) ->
    List.length pages < fuel ->
    serves_projects env false (Config.per_page (config self)) page
                    (pages ++ [[]]) w w' ->
    exists t,
      get_group_projects_loop env self fuel projects page w
      = (Return (projects
                   ++ List.concat (map (filter in_group_namespace) pages)),
         w', t)
      /\ pages_requested t = page_numbers page (S (List.length pages)).
Proof.
  induction pages as [|l ls IH]; intros fuel page projects w w' Hne Hfuel Hs.
  - destruct fuel as [|fuel]; [simpl in Hfuel; lia|].
    inversion Hs as [|pg l0 ls0 wa wb wc Hreq Hrest]; subst.
    inversion Hrest; subst.
    cbn [get_group_projects_loop].
    unfold bind, get_group_projects_body, try_except, bind, gl_projects_list,
      call, log, ret.
    rewrite Hreq. cbn. rewrite app_nil_r. eexists. split; reflexivity.
  - destruct fuel as [|fuel]; [simpl in Hfuel; lia|].
    cbn [app] in Hs.
    inversion Hs as [|pg l0 ls0 wa wb wc Hreq Hrest]; subst.
    destruct (IH fuel (page + 1)%Z
                 (projects ++ filter in_group_namespace l) wb w')
      as [t' [Hl Ht']].
    + intros l' Hin. apply Hne. right. exact Hin.
    + simpl in Hfuel. lia.
    + exact Hrest.
    + assert (Hl0 : nonempty l = true).
      { destruct l; [|reflexivity]. exfalso.
        apply (Hne [] (or_introl eq_refl)). reflexivity. }
      cbn [get_group_projects_loop].
      unfold bind at 1.
      unfold get_group_projects_body, try_except, bind, gl_projects_list,
        call, log, ret.
      rewrite Hreq. cbv beta iota. rewrite Hl0. cbn [negb]. cbv beta iota.
      fold in_group_namespace.
      change (fun p : Project.t =>
                String.eqb (Namespace.kind (Project.namespace p)) "group")
        with in_group_namespace.
      rewrite Hl. eexists. split.
      * cbn [map List.concat]. rewrite <- !app_assoc. reflexivity.
      * cbn [app pages_requested List.length page_numbers]. rewrite Ht'.
        reflexivity.
Qed.

End Fallback.

(** X11: whatever the server answers, every project that
    [get_group_projects] returns belongs to a group namespace; so does
    every project of [get_namespace_projects] when no namespace is
    configured. *)
Theorem fallback_lister_returns_group_projects_only
        {W} (env : Env W) (self : GitLabCloner) (fuel : nat) (w : W)
        (l : list Project.t) :
  (outcome_of (get_group_projects env self fuel w) = Return l ->
   forall p, In p l -> Namespace.kind (Project.namespace p) = "group")
  /\ (Config.namespace (config self) = EmptyString ->
      outcome_of (get_namespace_projects env self fuel w) = Return l ->
      forall p, In p l -> Namespace.kind (Project.namespace p) = "group").
Proof.
  assert (H : ensures (@all_in_group) (get_group_projects env self fuel)).
  { unfold get_group_projects. destruct (gl self).
    - eapply ensures_bind with (Qa := fun _ => True); [intros ? ? ?; exact I|].
      intros _ _.
      eapply ensures_bind;
        [apply (@fallback_loop_groups W env self fuel [] 1%Z);
         intros p []|].
      intros ps Hps.
      eapply ensures_bind with (Qa := fun _ => True); [intros ? ? ?; exact I|].
      intros _ _ w0 l0 H0. injection H0 as <-. exact Hps.
    - intros w0 l0 H0. discriminate. }
  split.
  - intros Ho. exact (H w l Ho).
  - intros Hns. unfold get_namespace_projects. rewrite Hns.
    cbn [PyStr.truthy negb]. rewrite outcome_bind.
    cbn [log outcome_of world_of fst snd]. intros Ho. exact (H w l Ho).
Qed.

Lemma fallback_lister_returns_group_projects_only_witness :
  outcome_of (get_namespace_projects env_mixed_pages (cloner_for "" 20 4)
                                     1000 tt)
  = Return [sample_project "api"; sample_project "api"]
  /\ forall p, In p [sample_project "api"; sample_project "api"] ->
               Namespace.kind (Project.namespace p) = "group".
Proof.
  split; [reflexivity|].
  exact (proj2 (@fallback_lister_returns_group_projects_only unit
                  env_mixed_pages (cloner_for "" 20 4) 1000 tt
                  [sample_project "api"; sample_project "api"])
               eq_refl eq_refl).
Defined.

(** X12: when the listing of all projects serves pages that are not empty
    and then an empty page, [get_group_projects] returns: it asks for each
    page once, in order, the empty one last, and returns the projects of
    group namespaces in the order of the listing. *)
Theorem fallback_lister_ends_on_empty_page
        {W} (env : Env W) (self : GitLabCloner)
        (pages : list (list Project.t)) (fuel : nat) (w w' : W) :
  gl self <> None ->
  (forall l, In l pages -> l <> []) ->
  List.length pages < fuel ->
  serves_projects env false (Config.per_page (config self)) 1
                  (pages ++ [[]]) w w' ->
  outcome_of (get_group_projects env self fuel w)
  = Return (filter in_group_namespace (List.concat pages))
  /\ world_of (get_group_projects env self fuel w) = w'
  /\ pages_requested (trace_of (get_group_projects env self fuel w))
     = page_numbers 1 (S (List.length pages)).
Proof.
  intros Hgl Hne Hfuel Hs.
  destruct (@fallback_loop_pages W env self pages fuel 1%Z [] w w'
              Hne Hfuel Hs) as [t [Hl Ht]].
  unfold get_group_projects. destruct (gl self); [|contradiction].
  unfold outcome_of, world_of, trace_of, bind, log, ret. rewrite Hl.
  cbn [fst snd app pages_requested]. rewrite pages_requested_app, Ht.
  cbn [pages_requested]. rewrite app_nil_r. repeat split.
  f_equal. clear. induction pages as [|l ls IH]; [reflexivity|].
  cbn [map List.concat]. rewrite filter_app, IH. reflexivity.
Qed.

Lemma fallback_lister_ends_on_empty_page_witness :
  outcome_of (get_group_projects env_mixed_pages (cloner_for "" 20 4) 3 tt)
  = Return [sample_project "api"; sample_project "api"]
  /\ pages_requested
       (trace_of (get_group_projects env_mixed_pages (cloner_for "" 20 4) 3 tt))
     = [1; 2; 3]%Z.
Proof.
  assert (Hs : serves_projects env_mixed_pages false
                 (Config.per_page (config (cloner_for "" 20 4))) 1
                 ([[sample_project "api"; user_project "dotfiles"];
                   [sample_project "api"; user_project "dotfiles"]] ++ [[]])
                 tt tt).
  { repeat (eapply serves_projects_cons; [reflexivity|]).
    apply serves_projects_nil. }
  assert (Hne : forall l,
             In l [[sample_project "api"; user_project "dotfiles"];
                   [sample_project "api"; user_project "dotfiles"]] ->
             l <> []).
  { intros l [<-|[<-|[]]]; discriminate. }
  destruct (@fallback_lister_ends_on_empty_page unit env_mixed_pages
              (cloner_for "" 20 4) _ 3 tt tt ltac:(discriminate) Hne
              (le_n 3) Hs) as [Ho [_ Hp]].
  split; [exact Ho | exact Hp].
Defined.

(** ** More on the default branch *)

Lemma split_parts_no_sep (sep : ascii) (s part : string) :
  In part (PyStr.split sep s) -> PyStr.mem sep part = false.
Proof.
  revert part. induction s as [|c s IH]; intros part Hin; simpl in Hin.
  - destruct Hin as [<-|[]]. reflexivity.
  - destruct (Ascii.eqb c sep) eqn:E.
    + destruct Hin as [<-|Hin]; [reflexivity | apply IH; exact Hin].
    + destruct (PyStr.split sep s) as [|h t].
      * destruct Hin as [<-|[]]. simpl. rewrite E. reflexivity.
      * destruct Hin as [<-|Hin].
        -- simpl. rewrite E. apply IH. left. reflexivity.
        -- apply IH. right. exact Hin.
Qed.

Lemma last_In {A} (l : list A) (d : A) : l <> [] -> In (last l d) l.
Proof.
  induction l as [|a l IH]; intros Hne; [contradiction|].
  destruct l as [|b l]; [left; reflexivity|].
  right. apply IH. discriminate.
Qed.

Lemma split_ends_with (sep : ascii) (name : string) :
  PyStr.mem sep name = false ->
  forall a, exists first rest,
      PyStr.split sep (a ++ String sep name) = (first :: rest) ++ [name].
Proof.
  intros Hn. induction a as [|c a IH].
  - exists EmptyString, []. simpl. rewrite Ascii.eqb_refl.
    rewrite (split_no_sep _ _ Hn). reflexivity.
  - destruct IH as [first [rest IH]]. simpl. rewrite IH.
    destruct (Ascii.eqb c sep).
    + exists EmptyString, (first :: rest). reflexivity.
    + exists (String c first), rest. reflexivity.
Qed.

(** X13: the default branch read from the remote HEAD is the last segment
    of what [git symbolic-ref] prints: it holds no slash, so for a
    reference [.../name] it is [name], and of a branch name with slashes
    only the part after the last slash is kept. *)
Theorem default_branch_is_last_segment
        {W} (env : Env W) (p : Path) (out err : string) (w w' : W) :
  spawn env (symbolic_ref_command p) w = (Exited 0 out err, w') ->
  exists b,
    outcome_of (get_default_branch env p w) = Return (Some b)
    /\ PyStr.mem PyStr.slash b = false
    /\ (forall a name,
           PyStr.strip out = (a ++ "/" ++ name)%string ->
           PyStr.mem PyStr.slash name = false ->
           b = name).
Proof.
  intros H. rewrite (@default_branch_from_head W env p out err w w' H).
  eexists. split; [reflexivity|]. split.
  - apply split_parts_no_sep with (s := PyStr.strip out).
    apply last_In. apply split_not_nil.
  - intros a name Hs Hn. rewrite Hs.
    destruct (split_ends_with PyStr.slash name Hn a) as [first [rest Hsp]].
    change (a ++ "/" ++ name)%string with (a ++ String PyStr.slash name)%string.
    rewrite Hsp. unfold PyStr.last_part. apply last_last.
Qed.

Lemma default_branch_is_last_segment_witness :
  outcome_of (get_default_branch env_head_feature (PathOf "./repos/api") tt)
  = Return (Some "login").
Proof.
  destruct (@default_branch_is_last_segment unit env_head_feature
              (PathOf "./repos/api")
              ("refs/remotes/origin/feature/login"
                 ++ String (ascii_of_nat 10) "") "" tt tt eq_refl)
    as [b [Ho [_ Hb]]].
  rewrite Ho. rewrite (Hb "refs/remotes/origin/feature" "login" eq_refl eq_refl).
  reflexivity.
Defined.

Section DefaultBranch.

Variable W : Type.
Variable env : Env W.

Lemma subprocess_run_trace (c : command) (w : W) :
  trace_of (subprocess_run env c w) = [EvRun c].
Proof.
  unfold subprocess_run, trace_of.
  destruct (spawn env c w) as [[rc out err| |e] w1]; cbn.
  - destruct (check c && negb (rc =? 0)%Z); reflexivity.
  - destruct (timeout c); reflexivity.
  - reflexivity.
Qed.

Lemma probe_branches_result (p : Path) (bs : list string) :
  ensures (fun r => match r with Some b => In b bs | None => True end)
          (probe_branches env p bs).
Proof.
  induction bs as [|b bs IH]; intros w r; cbn [probe_branches].
  - intros H. injection H as <-. exact I.
  - rewrite outcome_bind, outcome_try, outcome_bind.
    destruct (outcome_of (subprocess_run env _ w)) as [cp|e0| |];
      try discriminate.
    + cbn. intros H. injection H as <-. left. reflexivity.
    + destruct (subprocess_error e0); [|discriminate].
      cbn [ret outcome_of fst]. intros H.
      apply IH in H. destruct r; [right; exact H | exact I].
Qed.

Lemma probe_branches_commands (p : Path) (bs : list string) (w : W) :
  List.length (commands (trace_of (probe_branches env p bs w)))
  <= List.length bs.
Proof.
  revert w. induction bs as [|b bs IH]; intros w; cbn [probe_branches].
  - simpl. lia.
  - rewrite trace_bind, outcome_try, outcome_bind, trace_try, trace_bind,
      outcome_bind, subprocess_run_trace.
    destruct (outcome_of (subprocess_run env _ w)) as [cp|e0| |];
      cbn [ret outcome_of world_of trace_of fst snd app commands List.length];
      try lia.
    destruct (subprocess_error e0);
      cbn [ret outcome_of world_of trace_of fst snd app commands List.length];
      try lia.
    match goal with
    | |- context [probe_branches env p bs ?w0] => specialize (IH w0)
    end.
    lia.
Qed.

End DefaultBranch.

(** X14: [get_default_branch] runs at most four commands, whatever they
    answer; and when [git symbolic-ref] fails, by its exit code or by its
    timeout, the branch it returns, if any, is one of [main], [master],
    [develop]. *)
Theorem default_branch_fallback_is_a_common_branch
        {W} (env : Env W) (p : Path) (w : W) :
  List.length (commands (trace_of (get_default_branch env p w))) <= 4
  /\ (forall o wa b,
         spawn env (symbolic_ref_command p) w = (o, wa) -> run_failed o ->
         outcome_of (get_default_branch env p w) = Return (Some b) ->
         b = "main" \/ b = "master" \/ b = "develop").
Proof.
  split.
  - unfold get_default_branch.
    rewrite trace_try, outcome_bind, trace_bind, subprocess_run_trace.
    destruct (outcome_of (subprocess_run env _ w)) as [cp|e0| |];
      cbn [ret outcome_of world_of trace_of fst snd app commands List.length];
      try lia.
    destruct (subprocess_error e0);
      cbn [app commands List.length]; try lia.
    match goal with
    | |- context [probe_branches env p ?bs ?w0] =>
        pose proof (probe_branches_commands env p bs w0) as H
    end.
    cbn [List.length] in H. lia.
  - intros o wa b Hsp Hf Ho.
    rewrite (@default_branch_fallback W env p o w wa Hsp Hf) in Ho.
    cbn [outcome_of fst] in Ho.
    fold (outcome_of (probe_branches env p common_branches wa)) in Ho.
    apply (@probe_branches_result W env p common_branches wa) in Ho.
    simpl in Ho. destruct Ho as [<-|[<-|[<-|[]]]]; auto.
Qed.

Lemma default_branch_fallback_is_a_common_branch_witness :
  outcome_of (get_default_branch env_head_hangs (PathOf "./repos/api") tt)
  = Return (Some "main").
Proof.
  destruct (proj2 (@default_branch_fallback_is_a_common_branch unit
                     env_head_hangs (PathOf "./repos/api") tt)
                  NotExited tt "main" eq_refl I eq_refl)
    as [H|[H|H]]; [reflexivity | discriminate H | discriminate H].
Defined.

(** ** More on the Sync Executor *)

Lemma path_eqb_refl (p : Path) : path_eqb p p = true.
Proof.
  induction p as [s|p IH s]; simpl;
    [|rewrite IH]; rewrite String.eqb_refl; reflexivity.
Qed.

Lemma path_eqb_eq (p q : Path) : path_eqb p q = true -> p = q.
Proof.
  revert q. induction p as [a|p IH a]; intros [b|q b] H; simpl in H;
    try discriminate.
  - apply String.eqb_eq in H. subst. reflexivity.
  - apply andb_true_iff in H. destruct H as [H1 H2].
    apply String.eqb_eq in H2. rewrite (IH _ H1), H2. reflexivity.
Qed.

Ltac sync_handler_cases :=
  match goal with
  | H : (if ?b then _ else _) = Some _ |- _ =>
      destruct b; [|try discriminate H]; try (injection H as <-)
  | H : match ?e with _ => _ end = Some _ |- _ =>
      destruct e; try discriminate H; try (injection H as <-)
  | H : Some _ = Some _ |- _ => injection H as <-
  | H : None = Some _ |- _ => discriminate H
  end.

Section SyncTraces.

Variable W : Type.
Variable env : Env W.
Variable self : GitLabCloner.
Variable project : Project.t.

Lemma trace_all_run (P : event -> bool) (c : command) :
  P (EvRun c) = true -> trace_all P (subprocess_run env c).
Proof.
  intros H w. rewrite subprocess_run_trace. simpl. rewrite H. reflexivity.
Qed.

Ltac traced tac :=
  first
    [ apply trace_all_ret
    | apply trace_all_raise
    | apply trace_all_log; tac
    | apply trace_all_call; tac
    | apply trace_all_run; tac
    | apply trace_all_bind; [traced tac | intros; traced tac]
    | apply trace_all_try;
      [traced tac | intros; repeat sync_handler_cases; traced tac]
    | assumption
    | match goal with
      | |- trace_all _ (if ?b then _ else _) => destruct b; traced tac
      | |- trace_all _ (match ?x with _ => _ end) => destruct x; traced tac
      end ].

Ltac by_paths :=
  cbn [confined cwd git];
  rewrite ?path_eqb_refl, ?orb_true_r; reflexivity.

Lemma trace_all_handlers (P : event -> bool) (e : exn) (k : M W bool) :
  (forall lvl fmt args, P (EvLog lvl fmt args) = true) ->
  sync_handlers W project e = Some k -> trace_all P k.
Proof.
  intros Hlog Hk. unfold sync_handlers in Hk.
  destruct e; cbn in Hk; injection Hk as <-;
    traced ltac:(apply Hlog).
Qed.

(** *** The executor stays with its project *)

Lemma confined_probe_branches (bs : list string) :
  trace_all (confined self project)
            (probe_branches env (project_dir_of self project) bs).
Proof.
  induction bs as [|b bs IH]; cbn [probe_branches]; traced by_paths.
Qed.

Lemma confined_get_default_branch :
  trace_all (confined self project)
            (get_default_branch env (project_dir_of self project)).
Proof.
  pose proof (confined_probe_branches ["main"; "master"; "develop"]).
  unfold get_default_branch. traced by_paths.
Qed.

Lemma confined_safe_clone_project :
  trace_all (confined self project) (safe_clone_project env self project).
Proof.
  pose proof confined_get_default_branch.
  unfold safe_clone_project. apply trace_all_try.
  - unfold sync_body, update_existing, clone_new, mkdir, exists_.
    traced by_paths.
  - intros e k Hk. apply (@trace_all_handlers _ e k); [reflexivity | exact Hk].
Qed.

(** *** One branch or the other *)

Lemma not_a_creation_update_existing :
  trace_all not_a_creation (update_existing env self project).
Proof.
  assert (Hp : forall bs, trace_all not_a_creation
                 (probe_branches env (project_dir_of self project) bs)).
  { induction bs as [|b bs IH]; cbn [probe_branches];
      traced ltac:(reflexivity). }
  assert (Hd : trace_all not_a_creation
                 (get_default_branch env (project_dir_of self project))).
  { pose proof (Hp ["main"; "master"; "develop"]).
    unfold get_default_branch. traced ltac:(reflexivity). }
  unfold update_existing. traced ltac:(reflexivity).
Qed.

Lemma not_an_update_clone_new :
  trace_all not_an_update (clone_new env self project).
Proof.
  assert (Hp : forall bs, trace_all not_an_update
                 (probe_branches env (project_dir_of self project) bs)).
  { induction bs as [|b bs IH]; cbn [probe_branches];
      traced ltac:(reflexivity). }
  assert (Hd : trace_all not_an_update
                 (get_default_branch env (project_dir_of self project))).
  { pose proof (Hp ["main"; "master"; "develop"]).
    unfold get_default_branch. traced ltac:(reflexivity). }
  unfold clone_new, mkdir. traced ltac:(reflexivity).
Qed.

(** The [try] block up to the test of the project directory. *)
Lemma sync_body_branch (present : bool) (w0 w1 w2 : W) :
  path_mkdir env (target_dir_of self project) w0 = (inl tt, w1) ->
  path_exists env (project_dir_of self project) w1 = (inl present, w2) ->
  exists prefix,
    actions prefix = [EvMkdir (target_dir_of self project);
                      EvExists (project_dir_of self project)]
    /\ sync_body env self project w0
       = (outcome_of ((if present then update_existing env self project
                       else clone_new env self project) w2),
          world_of ((if present then update_existing env self project
                     else clone_new env self project) w2),
          prefix ++ trace_of ((if present then update_existing env self project
                               else clone_new env self project) w2)).
Proof.
  intros Hmk Hex.
  unfold sync_body, bind, mkdir, exists_, call, log. cbv beta.
  rewrite Hmk. cbv beta iota. rewrite Hex. cbv beta iota.
  destruct ((if present then update_existing env self project
             else clone_new env self project) w2) as [[o w3] t].
  exists [EvMkdir (target_dir_of self project);
          EvLog DEBUG "Folder structure: %s -> %s"
            [AStr (Namespace.full_path (Project.namespace project));
             AStr (if PyStr.truthy
                        (get_relative_namespace_path self
                           (Namespace.full_path (Project.namespace project)))
                   then get_relative_namespace_path self
                          (Namespace.full_path (Project.namespace project))
                   else "(root)")];
          EvLog DEBUG "Target directory: %s"
            [APath (target_dir_of self project)];
          EvLog DEBUG "Project directory: %s"
            [APath (project_dir_of self project)];
          EvLog DEBUG "Display name: '%s' -> Path: '%s'"
            [AStr (Project.name project); AStr (Project.path project)];
          EvExists (project_dir_of self project)].
  split; reflexivity.
Qed.

Lemma safe_clone_project_trace (P : event -> bool) (w : W) :
  (forall lvl fmt args, P (EvLog lvl fmt args) = true) ->
  forallb P (trace_of (sync_body env self project w)) = true ->
  forallb P (trace_of (safe_clone_project env self project w)) = true.
Proof.
  intros Hlog Hb. unfold safe_clone_project. rewrite trace_try.
  destruct (outcome_of (sync_body env self project w)) as [b|e| |];
    try exact Hb.
  destruct (sync_handlers W project e) as [k|] eqn:Hk; [|exact Hb].
  rewrite forallb_app, Hb. apply (@trace_all_handlers P e k Hlog Hk).
Qed.

End SyncTraces.

Lemma forallb_commands (P : event -> bool) (t : list event) :
  forallb P t = true -> forall c, In c (commands t) -> P (EvRun c) = true.
Proof.
  induction t as [|ev t IH]; simpl; intros H c Hin; [contradiction|].
  apply andb_true_iff in H. destruct H as [Hev Ht].
  destruct ev as [| | | |c0|]; try (apply IH; assumption).
  destruct Hin as [<-|Hin]; [exact Hev | apply IH; assumption].
Qed.

(** X15: when the target directory cannot be made, for whatever reason,
    the sync of that repository is a failure and nothing else is tried:
    no test of the project directory and no [git] command. *)
Theorem sync_fails_when_directory_cannot_be_made
        {W} (env : Env W) (self : GitLabCloner) (project : Project.t)
        (e : exn) (w0 w1 : W) :
  path_mkdir env (target_dir_of self project) w0 = (inr e, w1) ->
  outcome_of (safe_clone_project env self project w0) = Return false
  /\ world_of (safe_clone_project env self project w0) = w1
  /\ actions (trace_of (safe_clone_project env self project w0))
     = [EvMkdir (target_dir_of self project)]
  /\ outcome_of (clone_project_parallel env self project w0)
     = Return (Project.name_with_namespace project, false,
               Some "Partial failure").
Proof.
  intros Hmk.
  assert (Hrun : outcome_of (safe_clone_project env self project w0)
                 = Return false
                 /\ world_of (safe_clone_project env self project w0) = w1
                 /\ actions (trace_of (safe_clone_project env self project w0))
                    = [EvMkdir (target_dir_of self project)]).
  { unfold safe_clone_project, sync_body, outcome_of, world_of, trace_of,
      try_except, bind, mkdir, call. cbv beta. rewrite Hmk. cbv beta iota.
    unfold sync_handlers.
    destruct e; cbn; try (destruct (PyStr.truthy stderr); cbn); auto. }
  destruct Hrun as [Ho [Hw Ha]]. repeat (split; [assumption|]).
  destruct (clone_project_parallel_run env self project w0) as [b [H1 [H2 _]]].
  rewrite Ho in H1. injection H1 as <-. exact H2.
Qed.

Lemma sync_fails_when_directory_cannot_be_made_witness :
  outcome_of (safe_clone_project env_read_only (cloner_for "acme" 20 4)
                                 (sample_project "api") tt) = Return false
  /\ commands (trace_of (safe_clone_project env_read_only
                           (cloner_for "acme" 20 4) (sample_project "api") tt))
     = [].
Proof.
  destruct (@sync_fails_when_directory_cannot_be_made unit env_read_only
              (cloner_for "acme" 20 4) (sample_project "api") PermissionError
              tt tt eq_refl) as [Ho _].
  split; [exact Ho | reflexivity].
Defined.

(** X16: when the project directory is absent and [git clone] works, the
    sync succeeds whatever branch [get_default_branch] then finds, none
    included (a warning is all); but an exception that leaves
    [get_default_branch] turns the sync of the cloned repository into a
    failure. *)
Theorem clone_succeeds_without_default_branch
        {W} (env : Env W) (self : GitLabCloner) (project : Project.t)
        (out err : string) (w0 w1 w2 w3 : W) :
  path_mkdir env (target_dir_of self project) w0 = (inl tt, w1) ->
  path_exists env (project_dir_of self project) w1 = (inl false, w2) ->
  spawn env (clone_command self project) w2 = (Exited 0 out err, w3) ->
  (forall db w4 t,
      get_default_branch env (project_dir_of self project) w3
      = (Return db, w4, t) ->
      outcome_of (safe_clone_project env self project w0) = Return true
      /\ world_of (safe_clone_project env self project w0) = w4
      /\ commands (trace_of (safe_clone_project env self project w0))
         = clone_command self project :: commands t
      /\ warnings (trace_of (safe_clone_project env self project w0))
         = warnings t
             ++ (if truthy_opt db then []
                 else ["Could not set up default branch for %s"]))
  /\ (forall e w4 t,
         get_default_branch env (project_dir_of self project) w3
         = (Raise e, w4, t) ->
         outcome_of (safe_clone_project env self project w0) = Return false).
Proof.
  intros Hmk Hex Hclone.
  pose proof (@run_exited_ok W env (clone_command self project) out err w2 w3
                Hclone) as Rclone.
  unfold clone_command in Rclone.
  assert (Hw : forall t1 t2, warnings (t1 ++ t2) = warnings t1 ++ warnings t2).
  { induction t1 as [|ev t1 IH]; intros t2; [reflexivity|].
    destruct ev as [| | | | |[] f a]; simpl; rewrite ?IH; reflexivity. }
  split.
  - intros db w4 t Hdb.
    unfold safe_clone_project, sync_body, clone_new, outcome_of, world_of,
      trace_of, try_except, bind, mkdir, exists_, call, log, ret. cbv beta.
    rewrite Hmk. cbv beta iota. rewrite Hex. cbv beta iota.
    rewrite Rclone. cbv beta iota. rewrite Hdb. cbv beta iota.
    destruct (truthy_opt db); cbn [negb fst snd app commands warnings];
      rewrite ?commands_app, ?Hw; cbn [commands warnings];
      rewrite ?app_nil_r; repeat split.
  - intros e w4 t Hdb.
    assert (He : subprocess_error e = false).
    { apply (@get_default_branch_swallows W env (project_dir_of self project)
               w3 e). rewrite Hdb. reflexivity. }
    unfold safe_clone_project, sync_body, clone_new, outcome_of,
      try_except, bind, mkdir, exists_, call, log, ret. cbv beta.
    rewrite Hmk. cbv beta iota. rewrite Hex. cbv beta iota.
    rewrite Rclone. cbv beta iota. rewrite Hdb. cbv beta iota.
    unfold sync_handlers.
    destruct e; try discriminate He; reflexivity.
Qed.

Lemma clone_succeeds_without_default_branch_witness :
  outcome_of (safe_clone_project env_clone_only (cloner_for "acme" 20 4)
                                 (sample_project "api") tt) = Return true
  /\ warnings (trace_of (safe_clone_project env_clone_only
                           (cloner_for "acme" 20 4) (sample_project "api") tt))
     = ["Could not set up default branch for %s"].
Proof.
  destruct (proj1 (@clone_succeeds_without_default_branch unit env_clone_only
                     (cloner_for "acme" 20 4) (sample_project "api") "" ""
                     tt tt tt tt eq_refl eq_refl eq_refl)
                  None tt _ eq_refl) as [Ho [_ [_ Hwarn]]].
  split; [exact Ho | exact Hwarn].
Defined.

(** X17: the executor takes one branch or the other.  When the project
    directory exists it runs no [git clone], [git init] or [git remote];
    when it is absent it runs no [git pull] and no [git branch]. *)
Theorem sync_updates_or_creates
        {W} (env : Env W) (self : GitLabCloner) (project : Project.t)
        (present : bool) (w0 w1 w2 : W) :
  path_mkdir env (target_dir_of self project) w0 = (inl tt, w1) ->
  path_exists env (project_dir_of self project) w1 = (inl present, w2) ->
  forall c,
    In c (commands (trace_of (safe_clone_project env self project w0))) ->
    if present
    then subcommand c <> "clone" /\ subcommand c <> "init"
         /\ subcommand c <> "remote"
    else subcommand c <> "pull" /\ subcommand c <> "branch".
Proof.
  intros Hmk Hex c Hin.
  destruct (@sync_body_branch W env self project present w0 w1 w2 Hmk Hex)
    as [prefix [Hact Hbody]].
  assert (Hprefix : forall P, (forall lvl fmt args, P (EvLog lvl fmt args) = true)
                              -> P (EvMkdir (target_dir_of self project)) = true
                              -> P (EvExists (project_dir_of self project)) = true
                              -> forallb P prefix = true).
  { intros P Hlog Hm He. clear Hbody.
    assert (Hgen : forall t, forallb P (actions t) = true -> forallb P t = true).
    { induction t as [|ev t IH]; [reflexivity|].
      unfold actions. cbn [filter forallb].
      destruct ev; cbn [is_log negb forallb];
        try (intros H; apply andb_true_iff in H; destruct H as [H1 H2];
             rewrite H1; apply IH; exact H2).
      intros H. rewrite Hlog. apply IH. exact H. }
    apply Hgen. rewrite Hact. simpl. rewrite Hm, He. reflexivity. }
  destruct present.
  - assert (Hall : forallb not_a_creation
                     (trace_of (safe_clone_project env self project w0)) = true).
    { apply safe_clone_project_trace; [reflexivity|].
      rewrite Hbody. unfold trace_of at 1. cbn [snd].
      rewrite forallb_app, (Hprefix not_a_creation) by reflexivity.
      apply not_a_creation_update_existing. }
    pose proof (forallb_commands _ _ Hall c Hin) as Hc. simpl in Hc.
    apply negb_true_iff in Hc. apply orb_false_iff in Hc.
    destruct Hc as [Hc H3]. apply orb_false_iff in Hc. destruct Hc as [H1 H2].
    apply String.eqb_neq in H1, H2, H3. auto.
  - assert (Hall : forallb not_an_update
                     (trace_of (safe_clone_project env self project w0)) = true).
    { apply safe_clone_project_trace; [reflexivity|].
      rewrite Hbody. unfold trace_of at 1. cbn [snd].
      rewrite forallb_app, (Hprefix not_an_update) by reflexivity.
      apply not_an_update_clone_new. }
    pose proof (forallb_commands _ _ Hall c Hin) as Hc. simpl in Hc.
    apply negb_true_iff in Hc. apply orb_false_iff in Hc.
    destruct Hc as [H1 H2]. apply String.eqb_neq in H1, H2. auto.
Qed.

Lemma sync_updates_or_creates_witness :
  subcommand (pull_command (cloner_for "acme" 20 4) (sample_project "api"))
  <> "clone".
Proof.
  refine (proj1 (@sync_updates_or_creates unit env_present
                   (cloner_for "acme" 20 4) (sample_project "api") true
                   tt tt tt eq_refl eq_refl
                   (pull_command (cloner_for "acme" 20 4)
                                 (sample_project "api")) _)).
  right. right. left. reflexivity.
Defined.

(** X18: the sync of a project stays with that project, whatever the
    environment does: every [git] command runs in the target directory or
    in the project directory, every directory made is one of the two, and
    the sync sends no request to the API and never changes the working
    directory. *)
Theorem sync_stays_in_its_directories
        {W} (env : Env W) (self : GitLabCloner) (project : Project.t) (w : W) :
  (forall c,
      In c (commands (trace_of (safe_clone_project env self project w))) ->
      cwd c = target_dir_of self project
      \/ cwd c = project_dir_of self project)
  /\ (forall p,
         In (EvMkdir p) (trace_of (safe_clone_project env self project w)) ->
         p = target_dir_of self project \/ p = project_dir_of self project)
  /\ api_requests (trace_of (safe_clone_project env self project w)) = []
  /\ (forall p,
         ~ In (EvChdir p) (trace_of (safe_clone_project env self project w))).
Proof.
  pose proof (@confined_safe_clone_project W env self project w) as Hall.
  assert (Hin : forall ev,
             In ev (trace_of (safe_clone_project env self project w)) ->
             confined self project ev = true).
  { apply forallb_forall. exact Hall. }
  split; [|split; [|split]].
  - intros c Hc. pose proof (forallb_commands _ _ Hall c Hc) as H.
    simpl in H. apply orb_true_iff in H.
    destruct H as [H|H]; apply path_eqb_eq in H; auto.
  - intros p Hp. specialize (Hin _ Hp). simpl in Hin.
    apply orb_true_iff in Hin.
    destruct Hin as [H|H]; apply path_eqb_eq in H; auto.
  - clear Hin.
    induction (trace_of (safe_clone_project env self project w)) as [|ev t IH];
      [reflexivity|].
    simpl in Hall. apply andb_true_iff in Hall. destruct Hall as [Hev Ht].
    destruct ev; simpl in Hev; try discriminate; simpl; apply IH; exact Ht.
  - intros p Hp. specialize (Hin _ Hp). discriminate Hin.
Qed.

Lemma sync_stays_in_its_directories_witness :
  cwd (pull_command (cloner_for "acme" 20 4) (sample_project "api"))
  = target_dir_of (cloner_for "acme" 20 4) (sample_project "api")
  \/ cwd (pull_command (cloner_for "acme" 20 4) (sample_project "api"))
     = project_dir_of (cloner_for "acme" 20 4) (sample_project "api").
Proof.
  apply (proj1 (@sync_stays_in_its_directories unit env_present
                  (cloner_for "acme" 20 4) (sample_project "api") tt)).
  right. right. left. reflexivity.
Defined.

(** ** More on the Parallel Coordinator *)

Ltac listed :=
  first
    [ apply trace_all_ret
    | apply trace_all_raise
    | apply trace_all_log; reflexivity
    | apply trace_all_call; reflexivity
    | apply trace_all_bind; [listed | intros; listed]
    | apply trace_all_try; [listed | intros; repeat handler_cases; listed]
    | assumption
    | match goal with
      | |- trace_all _ (if ?b then _ else _) => destruct b; listed
      | |- trace_all _ (match ?x with _ => _ end) => destruct x; listed
      end ].

Section ListingEvents.

Variable W : Type.
Variable env : Env W.
Variable self : GitLabCloner.






End ListingEvents.




Section PoolMore.

Variable W : Type.
Variable workers : nat.
Variable task : Project.t -> M W sync_outcome.
Variable projects : list Project.t.

Lemma remove_nth_shorter {A} (i : nat) (l : list A) :
  List.length (remove_nth i l) <= List.length l.
Proof.
  revert i. induction l as [|a l IH]; intros [|i]; simpl; auto.
  specialize (IH i). lia.
Qed.

Lemma pool_step_running (c : choice) (st st' : pool W) :
  List.length (running st) <= workers ->
  pool_step workers task c st = Some st' ->
  List.length (running st') <= workers.
Proof.
  intros Hle Hstep. destruct c as [|i|i]; simpl in Hstep.
  - unfold step_start in Hstep.
    destruct (pending st) as [|p rest]; [discriminate|].
    destruct (List.length (running st) <? workers)%nat eqn:E; [|discriminate].
    injection Hstep as <-. simpl. rewrite length_app. simpl.
    apply Nat.ltb_lt in E. lia.
  - unfold step_finish in Hstep.
    destruct (nth_error (running st) i) as [p|]; [|discriminate].
    pose proof (remove_nth_shorter i (running st)) as Hr.
    destruct (task p (pool_world st)) as [[[r|e| |] w'] t];
      try discriminate; injection Hstep as <-; simpl; lia.
  - unfold step_collect in Hstep.
    destruct (crashed st); [discriminate|].
    destruct (nth_error (finished st) i) as [[[[nm success] error]|e]|];
      try discriminate; injection Hstep as <-; simpl; exact Hle.
Qed.

Lemma pool_exec_running (sched : list choice) (st : pool W) :
  List.length (running st) <= workers ->
  List.length (running (pool_exec workers task sched st)) <= workers.
Proof.
  revert st. induction sched as [|c sched IH]; intros st Hle; simpl; auto.
  destruct (pool_step workers task c st) as [st'|] eqn:E; auto.
  apply IH. eapply pool_step_running; eauto.
Qed.

(** What the pool needs of its task here: the tuple of the project. *)
Hypothesis task_tuple :
  forall p w, exists b, outcome_of (task p w) = Return (outcome_tuple p b).

Lemma pool_init_tuples (w : W) : pool_tuples projects (pool_init projects w).
Proof. constructor; simpl; auto; intros ? []. Qed.

Lemma pool_step_tuples (c : choice) (st st' : pool W) :
  pool_tuples projects st -> pool_step workers task c st = Some st' ->
  pool_tuples projects st'.
Proof.
  intros [Hp Hr Hf Ht] Hstep. destruct c as [|i|i]; simpl in Hstep.
  - unfold step_start in Hstep.
    destruct (pending st) as [|p rest] eqn:Ep; [discriminate|].
    destruct (List.length (running st) <? workers)%nat; [|discriminate].
    injection Hstep as <-. constructor; simpl; auto.
    + intros q Hq. apply Hp. right. exact Hq.
    + intros q Hq. apply in_app_or in Hq. destruct Hq as [Hq|[<-|[]]]; auto.
      apply Hp. left. reflexivity.
  - unfold step_finish in Hstep.
    destruct (nth_error (running st) i) as [p|] eqn:En; [|discriminate].
    destruct (task_tuple p (pool_world st)) as [b Hb].
    unfold outcome_of in Hb.
    destruct (task p (pool_world st)) as [[o w'] t]. simpl in Hb. subst o.
    injection Hstep as <-. constructor; simpl; auto.
    + intros q Hq. apply Hr. eapply remove_nth_In; eauto.
    + intros f Hin. apply in_app_or in Hin. destruct Hin as [Hin|[<-|[]]];
        [apply Hf; exact Hin|].
      eexists. split; [reflexivity|]. exists p, b. split; [|reflexivity].
      apply Hr. eapply nth_error_In; eauto.
  - unfold step_collect in Hstep.
    destruct (crashed st); [discriminate|].
    destruct (nth_error (finished st) i) as [[[[nm success] error]|e]|] eqn:En;
      try discriminate; injection Hstep as <-; constructor; simpl; auto;
      try (intros f Hin; apply Hf; eapply remove_nth_In; eauto).
    intros o Hin. apply in_app_or in Hin. destruct Hin as [Hin|[<-|[]]];
      [apply Ht; exact Hin|].
    apply nth_error_In in En. destruct (Hf _ En) as [o [Ho Hto]].
    injection Ho as <-. exact Hto.
Qed.

Lemma pool_exec_tuples (sched : list choice) (st : pool W) :
  pool_tuples projects st ->
  pool_tuples projects (pool_exec workers task sched st).
Proof.
  revert st. induction sched as [|c sched IH]; intros st Hi; simpl; auto.
  destruct (pool_step workers task c st) as [st'|] eqn:E; auto.
  apply IH. eapply pool_step_tuples; eauto.
Qed.

End PoolMore.

Lemma clone_project_parallel_tuple {W} (env : Env W) (self : GitLabCloner)
      (p : Project.t) (w : W) :
  exists b,
    outcome_of (clone_project_parallel env self p w)
    = Return (outcome_tuple p b).
Proof.
  destruct (clone_project_parallel_run env self p w) as [b [_ [Hr _]]].
  exists b. exact Hr.
Qed.

(** X20: at every moment of every schedule, the tasks that run at the
    same time are at most [max_workers]. *)
Theorem pool_runs_at_most_max_workers
        {W} (env : Env W) (self : GitLabCloner) (sched : list choice)
        (projects : list Project.t) (w : W) :
  List.length (running (coordinator_run env self sched projects w))
  <= Z.to_nat (Config.max_workers (config self)).
Proof.
  unfold coordinator_run. apply pool_exec_running. simpl. lia.
Qed.

(** X21: in every schedule, each entry of the list of failed projects
    carries the name of a project of the list and the reason
    [Partial failure]: the summary never shows the text of the error that
    made a sync fail. *)
Theorem summary_reasons_are_partial_failure
        {W} (env : Env W) (self : GitLabCloner) (sched : list choice)
        (projects : list Project.t) (w : W) (name : string)
        (reason : option string) :
  In (name, reason)
     (failed_projects (coordinator_run env self sched projects w)) ->
  reason = Some "Partial failure"
  /\ exists p, In p projects /\ name = Project.name_with_namespace p.
Proof.
  intros Hin.
  pose proof (@pool_exec_inv W (Z.to_nat (Config.max_workers (config self)))
                _ projects (clone_project_parallel_task env self) sched _
                (pool_init_inv projects w)) as Hinv.
  pose proof (@pool_exec_tuples W (Z.to_nat (Config.max_workers (config self)))
                _ projects (clone_project_parallel_tuple env self) sched _
                (pool_init_tuples projects w)) as Htup.
  fold (coordinator_run env self sched projects w) in Hinv, Htup.
  destruct Hinv as [_ _ _ _ _ Hfp _]. destruct Htup as [_ _ _ Ht].
  rewrite Hfp in Hin. apply in_map_iff in Hin.
  destruct Hin as [o [Ho Hino]]. apply filter_In in Hino.
  destruct Hino as [Hino Hfail].
  destruct (Ht o Hino) as [p [b [Hp ->]]].
  unfold outcome_failed, outcome_success, outcome_tuple in Hfail.
  simpl in Hfail. destruct b; [discriminate|].
  unfold outcome_tuple, outcome_name in Ho. simpl in Ho.
  injection Ho as <- <-. split; [reflexivity|]. exists p. auto.
Qed.

Lemma summary_reasons_are_partial_failure_witness :
  Some "Partial failure" = Some "Partial failure"
  /\ exists p, In p two_projects
               /\ "acme / web" = Project.name_with_namespace p.
Proof.
  apply (@summary_reasons_are_partial_failure unit env_clones_api_only
           (cloner_for "acme" 20 2) web_first two_projects tt
           "acme / web" (Some "Partial failure")).
  left. reflexivity.
Defined.

(** ** [authenticate] and [main] *)

Section MainFacts.

Variable W : Type.
Variable env : Env W.
Variable auth_env : AuthEnv W.

Lemma authenticate_ok (self : GitLabCloner) (client : Gitlab) (w w1 w2 : W) :
  gitlab_connect auth_env (gitlab_url_http (config self))
                 (Config.gitlab_token (config self)) w = (inl client, w1) ->
  gitlab_auth auth_env client w1 = (inl tt, w2) ->
  authenticate auth_env self w
  = (Return (Goes {| config := config self; gl := Some client |}), w2,
     [EvLog INFO "Successfully authenticated with GitLab" []]).
Proof.
  intros Hc Ha. unfold authenticate, try_except, bind, quiet_call, log, ret.
  rewrite Hc. cbv beta iota. rewrite Ha. reflexivity.
Qed.

Lemma authenticate_exits (self : GitLabCloner) (w : W) :
  (exists client w2,
      outcome_of (authenticate auth_env self w)
      = Return (Goes {| config := config self; gl := Some client |})
      /\ world_of (authenticate auth_env self w) = w2
      /\ exists w1,
          gitlab_connect auth_env (gitlab_url_http (config self))
                         (Config.gitlab_token (config self)) w
          = (inl client, w1)
          /\ gitlab_auth auth_env client w1 = (inl tt, w2))
  \/ outcome_of (authenticate auth_env self w) = Return (SysExit 1).
Proof.
  unfold authenticate, outcome_of, world_of, try_except, bind, quiet_call,
    log, ret.
  destruct (gitlab_connect auth_env (gitlab_url_http (config self))
                           (Config.gitlab_token (config self)) w)
    as [[client|e] w1] eqn:Hc; cbv beta iota.
  - destruct (gitlab_auth auth_env client w1) as [[[]|e] w2] eqn:Ha;
      cbv beta iota.
    + left. exists client, w2. cbn. repeat split. exists w1. auto.
    + right. destruct e; reflexivity.
  - right. destruct e; reflexivity.
Qed.

Lemma authenticate_logs_only (self : GitLabCloner) :
  trace_all lister_event (authenticate auth_env self).
Proof.
  unfold authenticate. apply trace_all_try.
  - apply trace_all_bind; [intros w; unfold quiet_call, trace_of;
                           destruct (gitlab_connect _ _ _ w) as [[?|?] ?];
                           reflexivity|].
    intros client.
    apply trace_all_bind; [intros w; unfold quiet_call, trace_of;
                           destruct (gitlab_auth _ _ w) as [[?|?] ?];
                           reflexivity|].
    intros _. listed.
  - intros e k Hk. destruct e; cbn in Hk; injection Hk as <-; listed.
Qed.

(** [main] in terms of [authenticate] and [clone_all_projects]. *)
Lemma main_outcome (cfg : Config.t) (fuel : nat) (sched : list choice)
      (w : W) :
  outcome_of (main_with_config env auth_env cfg fuel sched w)
  = match outcome_of (authenticate auth_env {| config := cfg; gl := None |} w)
    with
    | Return (SysExit code) => Return (Exits code)
    | Return (Goes cloner) =>
        match outcome_of
                (clone_all_projects env cloner fuel sched
                   (world_of (authenticate auth_env
                                {| config := cfg; gl := None |} w)))
        with
        | Return _ => Return Ends
        | Raise _ => Return (Exits 1)
        | OutOfFuel => OutOfFuel
        | Blocked => Blocked
        end
    | Raise _ => Return (Exits 1)
    | OutOfFuel => OutOfFuel
    | Blocked => Blocked
    end.
Proof.
  unfold main_with_config. rewrite outcome_bind.
  cbn [log outcome_of world_of fst snd]. rewrite outcome_try, outcome_bind.
  cbn [log outcome_of world_of fst snd]. rewrite outcome_bind.
  destruct (outcome_of (authenticate auth_env {| config := cfg; gl := None |} w))
    as [[cloner|code]| | |]; try reflexivity.
  cbn. rewrite outcome_bind.
  destruct (outcome_of (clone_all_projects env cloner fuel sched _));
    reflexivity.
Qed.

End MainFacts.

(** X22: [main] never ends with an exception: whatever the server, the
    file system and [git] do, it returns or it exits, and the only exit
    status it uses is 1. *)
Theorem main_returns_or_exits_with_1
        {W} (env : Env W) (auth_env : AuthEnv W) (cfg : Config.t)
        (fuel : nat) (sched : list choice) (w : W) :
  (forall e,
      outcome_of (main_with_config env auth_env cfg fuel sched w) <> Raise e)
  /\ (forall code,
         outcome_of (main_with_config env auth_env cfg fuel sched w)
         = Return (Exits code) ->
         code = 1%Z).
Proof.
  rewrite main_outcome.
  destruct (authenticate_exits auth_env {| config := cfg; gl := None |} w)
    as [[client [w2 [Ho [Hw _]]]]|Ho]; rewrite Ho.
  - destruct (outcome_of (clone_all_projects env _ fuel sched _));
      split; intros; congruence.
  - split; intros; congruence.
Qed.

Lemma main_returns_or_exits_with_1_witness :
  (forall e,
      outcome_of (main_with_config env_acme auth_rejects
                                   (config (cloner_for "acme" 20 4)) 1000 [] tt)
      <> Raise e)
  /\ outcome_of (main_with_config env_acme auth_rejects
                                  (config (cloner_for "acme" 20 4)) 1000 [] tt)
     = Return (Exits 1).
Proof.
  split; [|reflexivity].
  exact (proj1 (@main_returns_or_exits_with_1 unit env_acme auth_rejects
                  (config (cloner_for "acme" 20 4)) 1000 [] tt)).
Defined.

(** X23: when the client cannot be made or the authentication fails, for
    whatever reason, [main] exits with status 1 before anything is listed
    or cloned: no request for projects, no directory, no command. *)
Theorem main_exits_when_authentication_fails
        {W} (env : Env W) (auth_env : AuthEnv W) (cfg : Config.t)
        (fuel : nat) (sched : list choice) (e : exn) (w w1 : W) :
  (gitlab_connect auth_env (gitlab_url_http cfg) (Config.gitlab_token cfg) w
   = (inr e, w1)
   \/ exists client w0,
       gitlab_connect auth_env (gitlab_url_http cfg) (Config.gitlab_token cfg) w
       = (inl client, w0)
       /\ gitlab_auth auth_env client w0 = (inr e, w1)) ->
  outcome_of (main_with_config env auth_env cfg fuel sched w)
  = Return (Exits 1)
  /\ world_of (main_with_config env auth_env cfg fuel sched w) = w1
  /\ actions (trace_of (main_with_config env auth_env cfg fuel sched w)) = [].
Proof.
  intros H.
  unfold main_with_config, authenticate, outcome_of, world_of, trace_of,
    try_except, bind, quiet_call, log, ret. cbv beta.
  cbn [config gl].
  destruct H as [Hc|[client [w0 [Hc Ha]]]].
  - rewrite Hc. cbv beta iota. destruct e; cbn; auto.
  - rewrite Hc. cbv beta iota. rewrite Ha. cbv beta iota.
    destruct e; cbn; auto.
Qed.

Lemma main_exits_when_authentication_fails_witness :
  outcome_of (main_with_config env_two_projects auth_rejects
                               (config (cloner_for "acme" 20 4)) 1000 [] tt)
  = Return (Exits 1)
  /\ actions (trace_of (main_with_config env_two_projects auth_rejects
                          (config (cloner_for "acme" 20 4)) 1000 [] tt))
     = [].
Proof.
  destruct (@main_exits_when_authentication_fails unit env_two_projects
              auth_rejects (config (cloner_for "acme" 20 4)) 1000 []
              GitlabAuthenticationError tt tt
              (or_intror (ex_intro _ GitlabClient
                            (ex_intro _ tt (conj eq_refl eq_refl)))))
    as [Ho [_ Ha]].
  split; [exact Ho | exact Ha].
Defined.

(** X24: a best-effort pass ends normally.  When the authentication
    works, the listing returns projects and the base directory can be
    made, then under every schedule [main] either has not finished yet or
    returns without an exit, and a schedule under which it returns exists:
    failed syncs, however many, never make it exit. *)
Theorem main_ends_normally_despite_failed_syncs
        {W} (env : Env W) (auth_env : AuthEnv W) (cfg : Config.t)
        (fuel : nat) (client : Gitlab) (projects : list Project.t)
        (t : list event) (w w1 w2 w3 w4 : W) :
  (0 < Config.max_workers cfg)%Z ->
  gitlab_connect auth_env (gitlab_url_http cfg) (Config.gitlab_token cfg) w
  = (inl client, w1) ->
  gitlab_auth auth_env client w1 = (inl tt, w2) ->
  get_namespace_projects env {| config := cfg; gl := Some client |} fuel w2
  = (Return projects, w3, t) ->
  projects <> [] ->
  path_mkdir env (PathOf (Config.clone_directory cfg)) w3 = (inl tt, w4) ->
  (forall sched,
      outcome_of (main_with_config env auth_env cfg fuel sched w) = Return Ends
      \/ outcome_of (main_with_config env auth_env cfg fuel sched w)
         = OutOfFuel)
  /\ (exists sched,
         outcome_of (main_with_config env auth_env cfg fuel sched w)
         = Return Ends).
Proof.
  intros Hw Hc Ha Hlist Hne Hmk.
  assert (Hmain : forall sched,
             outcome_of (main_with_config env auth_env cfg fuel sched w)
             = if pool_terminal
                    (coordinator_run env {| config := cfg; gl := Some client |}
                                     sched projects w4)
               then Return Ends else OutOfFuel).
  { intros sched. rewrite main_outcome.
    rewrite (@authenticate_ok W auth_env {| config := cfg; gl := None |}
               client w w1 w2 Hc Ha).
    cbn [outcome_of world_of fst snd config].
    unfold clone_all_projects. rewrite outcome_bind, Hlist.
    cbn [outcome_of world_of fst snd].
    rewrite (@process_projects_run W env {| config := cfg; gl := Some client |}
               sched projects w3 w4 Hne Hw Hmk).
    destruct (pool_terminal _); reflexivity. }
  split.
  - intros sched. rewrite Hmain. destruct (pool_terminal _); auto.
  - exists (drain_schedule (List.length projects)). rewrite Hmain.
    unfold coordinator_run.
    rewrite (@drain_schedule_terminal W _ _
               (clone_project_parallel_task env
                  {| config := cfg; gl := Some client |})); auto.
    simpl. lia.
Qed.

Lemma main_ends_normally_despite_failed_syncs_witness :
  outcome_of (main_with_config env_two_projects auth_accepts
                               (config (cloner_for "acme" 20 2)) 1000
                               web_first tt) = Return Ends
  /\ failed (coordinator_run env_two_projects (cloner_for "acme" 20 2)
                             web_first two_projects tt) = 1.
Proof.
  split; [|reflexivity].
  destruct (proj1 (@main_ends_normally_despite_failed_syncs unit
                     env_two_projects auth_accepts
                     (config (cloner_for "acme" 20 2)) 1000 GitlabClient
                     two_projects _ tt tt tt tt tt eq_refl eq_refl eq_refl
                     eq_refl ltac:(discriminate) eq_refl) web_first)
    as [H|H]; [exact H | discriminate H].
Defined.

(** X25: when the base clone directory cannot be made, the exception
    leaves [clone_all_projects] before any sync starts, and [main] exits
    with status 1. *)
Theorem base_directory_failure_exits
        {W} (env : Env W) (auth_env : AuthEnv W) (cfg : Config.t)
        (fuel : nat) (sched : list choice) (client : Gitlab)
        (projects : list Project.t) (t : list event) (e : exn)
        (w w1 w2 w3 w4 : W) :
  gitlab_connect auth_env (gitlab_url_http cfg) (Config.gitlab_token cfg) w
  = (inl client, w1) ->
  gitlab_auth auth_env client w1 = (inl tt, w2) ->
  get_namespace_projects env {| config := cfg; gl := Some client |} fuel w2
  = (Return projects, w3, t) ->
  projects <> [] ->
  path_mkdir env (PathOf (Config.clone_directory cfg)) w3 = (inr e, w4) ->
  outcome_of (clone_all_projects env {| config := cfg; gl := Some client |}
                                 fuel sched w2) = Raise e
  /\ commands (trace_of (clone_all_projects
                           env {| config := cfg; gl := Some client |}
                           fuel sched w2)) = commands t
  /\ outcome_of (main_with_config env auth_env cfg fuel sched w)
     = Return (Exits 1).
Proof.
  intros Hc Ha Hlist Hne Hmk.
  assert (Hrun : outcome_of (clone_all_projects
                               env {| config := cfg; gl := Some client |}
                               fuel sched w2) = Raise e
                 /\ commands (trace_of (clone_all_projects
                                          env {| config := cfg; gl := Some client |}
                                          fuel sched w2)) = commands t).
  { assert (Hp : process_projects env {| config := cfg; gl := Some client |}
                                  sched projects w3
                 = (Raise e, w4,
                    [EvLog INFO
                           "Starting to clone %s repositories with %s workers"
                           [AInt (len projects);
                            AInt (Config.max_workers cfg)];
                     EvMkdir (PathOf (Config.clone_directory cfg))])).
    { unfold process_projects.
      destruct projects as [|p ps]; [contradiction|]. cbn [nonempty negb].
      unfold bind, log, mkdir, call. cbv beta. cbn [config].
      rewrite Hmk. reflexivity. }
    unfold clone_all_projects. rewrite outcome_bind, trace_bind, Hlist.
    cbn [outcome_of world_of trace_of fst snd]. rewrite Hp.
    cbn [outcome_of world_of trace_of fst snd]. split; [reflexivity|].
    rewrite commands_app. cbn. apply app_nil_r. }
  destruct Hrun as [Ho Hcmd]. split; [exact Ho|]. split; [exact Hcmd|].
  rewrite main_outcome.
  rewrite (@authenticate_ok W auth_env {| config := cfg; gl := None |}
             client w w1 w2 Hc Ha).
  unfold outcome_of, world_of in *. cbn [fst snd config].
  rewrite Ho. reflexivity.
Qed.

Lemma base_directory_failure_exits_witness :
  outcome_of (main_with_config env_no_base_directory auth_accepts
                               (config (cloner_for "acme" 20 2)) 1000
                               web_first tt)
  = Return (Exits 1).
Proof.
  refine (proj2 (proj2 (@base_directory_failure_exits unit
                          env_no_base_directory auth_accepts
                          (config (cloner_for "acme" 20 2)) 1000 web_first
                          GitlabClient two_projects _ PermissionError
                          tt tt tt tt tt eq_refl eq_refl eq_refl _ eq_refl))).
  discriminate.
Defined.

(** ** The GitHub script *)

Section GitHubLoop.

Variable W : Type.
Variable env : Env W.

Lemma bind_returns {A B} (m : M W A) (k : A -> M W B) (w w1 w2 : W)
      (a : A) (b : B) (t1 t2 : list event) :
  m w = (Return a, w1, t1) ->
  k a w1 = (Return b, w2, t2) ->
  bind m k w = (Return b, w2, t1 ++ t2).
Proof.
  intros Hm Hk. rewrite run_bind, Hm.
  unfold outcome_of, world_of, trace_of. cbn [fst snd]. rewrite Hk.
  reflexivity.
Qed.

Lemma github_exists_run (p : Path) (w : W) :
  exists b w', GitHub.os_path_exists env p w = (Return b, w', [EvExists p]).
Proof.
  unfold GitHub.os_path_exists.
  destruct (path_exists env p w) as [[b|e] w']; eauto.
Qed.

Hypothesis commands_exit :
  forall c w, exists rc out err w', spawn env c w = (Exited rc out err, w').
Hypothesis chdir_works :
  forall p w, exists w', os_chdir env p w = (inl tt, w').

Lemma github_chdir_run (p : Path) (w : W) :
  exists w', GitHub.chdir env p w = (Return tt, w', [EvChdir p]).
Proof.
  destruct (chdir_works p w) as [w' H]. exists w'.
  unfold GitHub.chdir. rewrite (run_call _ _ _ H). reflexivity.
Qed.

Lemma github_guarded_run (argv_ : list string) (here : Path)
      (fmt : string) (args : exn -> list logarg) (w : W) :
  exists w' t,
    try_except (GitHub.run_checked env argv_ here)
               (fun e => if is_CalledProcessError e
                         then Some (GitHub.print fmt (args e))
                         else None) w
    = (Return tt, w', t)
    /\ commands t = [{| argv := argv_; cwd := here; check := true;
                        timeout := None |}].
Proof.
  unfold try_except, GitHub.run_checked, GitHub.print, log.
  destruct (commands_exit {| argv := argv_; cwd := here; check := true;
                             timeout := None |} w)
    as [rc [out [err [w' H]]]].
  rewrite H. destruct (negb (rc =? 0)%Z); cbn; eauto.
Qed.

Lemma clone_or_pull_one_run (here : Path) (repo_url : string) (w : W) :
  exists c w' t,
    GitHub.clone_or_pull_one env here repo_url w = (Return tt, w', t)
    /\ commands t = [c]
    /\ pull_or_clone here c repo_url.
Proof.
  unfold GitHub.clone_or_pull_one.
  destruct (github_exists_run (PathJoin here (GitHub.repo_name_of repo_url)) w)
    as [[|] [w1 Hex]].
  - destruct (github_chdir_run
                (PathJoin here (GitHub.repo_name_of repo_url)) w1)
      as [w2 Hcd].
    destruct (github_guarded_run
                ["git"; "pull"]
                (PathJoin here (GitHub.repo_name_of repo_url))
                "Failed to update %s: %s"
                (fun e => [AStr (GitHub.repo_name_of repo_url); AExn e]) w2)
      as [w3 [t3 [Hrun Hcmd]]].
    destruct (github_chdir_run
                (PathJoin (PathJoin here (GitHub.repo_name_of repo_url)) "..")
                w3) as [w4 Hup].
    eexists _, w4, _. split.
    + eapply bind_returns; [exact Hex|]. cbv beta iota.
      eapply bind_returns; [reflexivity|].
      eapply bind_returns; [exact Hcd|].
      eapply bind_returns; [exact Hrun|]. exact Hup.
    + rewrite !commands_app, Hcmd. cbn. split; [reflexivity|].
      unfold pull_or_clone. cbn. auto.
  - destruct (github_guarded_run
                ["git"; "clone"; repo_url] here
                "Failed to clone %s: %s"
                (fun e => [AStr (GitHub.repo_name_of repo_url); AExn e]) w1)
      as [w2 [t2 [Hrun Hcmd]]].
    eexists _, w2, _. split.
    + eapply bind_returns; [exact Hex|]. cbv beta iota.
      eapply bind_returns; [reflexivity|]. exact Hrun.
    + rewrite !commands_app, Hcmd. cbn. split; [reflexivity|].
      unfold pull_or_clone. cbn. auto.
Qed.

Lemma clone_or_pull_each_run (here : Path) (repos : list string) (w : W) :
  exists w' t,
    GitHub.clone_or_pull_each env here repos w = (Return tt, w', t)
    /\ Forall2 (pull_or_clone here) (commands t) repos.
Proof.
  revert w. induction repos as [|repo_url rest IH]; intros w.
  - exists w, []. split; [reflexivity | constructor].
  - destruct (clone_or_pull_one_run here repo_url w)
      as [c [w1 [t1 [H1 [Hc Hp]]]]].
    destruct (IH w1) as [w2 [t2 [H2 Hf]]].
    exists w2, (t1 ++ t2). split.
    + cbn [GitHub.clone_or_pull_each].
      eapply bind_returns; [exact H1 | exact H2].
    + rewrite commands_app, Hc. cbn. constructor; assumption.
Qed.

End GitHubLoop.

(** X26: the loop of the GitHub script survives failed commands.  When
    every [git] command exits, with whatever status, and the directories
    can be made and entered, [clone_or_pull_repositories] returns and has
    run exactly one command per repository, in the order of the list: a
    checked [git pull] in the repository's directory or a checked
    [git clone] of its URL in the target directory. *)
Theorem github_loop_runs_one_command_per_repository
        {W} (env : Env W) (target : string) (repos : list string) (w : W) :
  (forall c w0, exists rc out err w1,
        spawn env c w0 = (Exited rc out err, w1)) ->
  (forall p w0, exists w1, os_chdir env p w0 = (inl tt, w1)) ->
  (forall p w0, exists w1, path_mkdir env p w0 = (inl tt, w1)) ->
  outcome_of (GitHub.clone_or_pull_repositories env (Some target) repos w)
  = Return tt
  /\ Forall2 (pull_or_clone (PathOf target))
             (commands
                (trace_of (GitHub.clone_or_pull_repositories
                             env (Some target) repos w)))
             repos.
Proof.
  intros Hsp Hcd Hmk.
  assert (Htail : forall w1, exists w3 t,
             (GitHub.chdir env (PathOf target) ;;
              GitHub.clone_or_pull_each env (PathOf target) repos)%py w1
             = (Return tt, w3, t)
             /\ Forall2 (pull_or_clone (PathOf target)) (commands t) repos).
  { intros w1.
    destruct (@github_chdir_run W env Hcd (PathOf target) w1) as [w2 Hin].
    destruct (@clone_or_pull_each_run W env Hsp Hcd (PathOf target) repos w2)
      as [w3 [t3 [Hloop Hf]]].
    exists w3, ([EvChdir (PathOf target)] ++ t3). split.
    - eapply bind_returns; [exact Hin | exact Hloop].
    - exact Hf. }
  assert (Hrun : exists w3 t,
             GitHub.clone_or_pull_repositories env (Some target) repos w
             = (Return tt, w3, t)
             /\ Forall2 (pull_or_clone (PathOf target)) (commands t) repos).
  { unfold GitHub.clone_or_pull_repositories.
    destruct (@github_exists_run W env (PathOf target) w) as [b [w0 Hex]].
    destruct b.
    - destruct (Htail w0) as [w3 [t [Ht Hf]]].
      exists w3, ([EvExists (PathOf target)] ++ [] ++ t). split.
      + eapply bind_returns; [exact Hex|]. cbv beta. cbn [negb].
        eapply bind_returns; [reflexivity | exact Ht].
      + exact Hf.
    - destruct (Hmk (PathOf target) w0) as [w1 Hm].
      destruct (Htail w1) as [w3 [t [Ht Hf]]].
      exists w3, ([EvExists (PathOf target)] ++ [EvMkdir (PathOf target)] ++ t).
      split.
      + eapply bind_returns; [exact Hex|]. cbv beta. cbn [negb].
        eapply bind_returns; [|exact Ht].
        unfold call. rewrite Hm. reflexivity.
      + exact Hf. }
  destruct Hrun as [w3 [t [Hrun Hf]]]. rewrite Hrun. split; [reflexivity|].
  exact Hf.
Qed.

Lemma github_loop_runs_one_command_per_repository_witness :
  outcome_of (GitHub.clone_or_pull_repositories
                env_git_fails (Some "repos")
                ["git@github.com:acme/api.git"; "git@github.com:acme/web.git"]
                tt) = Return tt
  /\ Forall2 (pull_or_clone (PathOf "repos"))
             (commands
                (trace_of (GitHub.clone_or_pull_repositories
                             env_git_fails (Some "repos")
                             ["git@github.com:acme/api.git";
                              "git@github.com:acme/web.git"] tt)))
             ["git@github.com:acme/api.git"; "git@github.com:acme/web.git"].
Proof.
  apply (@github_loop_runs_one_command_per_repository unit env_git_fails).
  - intros c []. exists 1%Z, EmptyString, "fatal: repository not found", tt.
    reflexivity.
  - intros p []. exists tt. reflexivity.
  - intros p []. exists tt. reflexivity.
Defined.

(** *** The directory name of a repository URL *)

Lemma mem_append (c : ascii) (a b : string) :
  PyStr.mem c (a ++ b) = (PyStr.mem c a || PyStr.mem c b)%bool.
Proof.
  induction a as [|d a IH]; simpl; [reflexivity|].
  rewrite IH. apply orb_assoc.
Qed.

Lemma split_after_sep (sep : ascii) (d a b : string) :
  exists h t,
    PyStr.split sep (a ++ String sep b) = h :: t
    /\ t <> []
    /\ last t d = last (PyStr.split sep b) d.
Proof.
  induction a as [|c a IH]; simpl.
  - rewrite Ascii.eqb_refl. exists EmptyString, (PyStr.split sep b).
    split; [reflexivity|]. split; [apply split_not_nil | reflexivity].
  - destruct IH as [h [t [E [Hne Hl]]]]. rewrite E.
    destruct (Ascii.eqb c sep).
    + exists EmptyString, (h :: t). split; [reflexivity|].
      split; [discriminate|]. rewrite <- Hl.
      destruct t; [contradiction | reflexivity].
    + exists (String c h), t. auto.
Qed.

Lemma last_part_split (pre name : string) :
  PyStr.mem PyStr.slash name = false ->
  PyStr.last_part (PyStr.split PyStr.slash (pre ++ "/" ++ name)) = name.
Proof.
  intros Hn. unfold PyStr.last_part.
  destruct (split_after_sep PyStr.slash EmptyString pre name)
    as [h [t [E [Hne Hl]]]].
  change (pre ++ "/" ++ name)%string with (pre ++ String PyStr.slash name)%string.
  rewrite E. rewrite (split_no_sep _ _ Hn) in Hl. simpl in Hl.
  destruct t; [contradiction | exact Hl].
Qed.

Lemma startswith_dot_git_append (s : string) :
  s <> EmptyString ->
  PyStr.startswith ".git" s = false ->
  PyStr.startswith ".git" (s ++ ".git") = false.
Proof.
  intros Hne H.
  destruct s as [|a [|b [|c [|d s]]]]; [contradiction| | | |];
    cbn [PyStr.startswith append] in *;
    repeat match goal with
           | |- context [Ascii.eqb ?x ?y] =>
               is_var y; destruct (Ascii.eqb_spec x y);
               [subst y|]; cbn [andb] in *
           end;
    try reflexivity; try discriminate; try exact H.
Qed.

Lemma remove_dot_git_suffix (name : string) (fuel : nat) :
  PyStr.contains ".git" name = false ->
  String.length (name ++ ".git") <= fuel ->
  PyStr.remove_all_fuel fuel ".git" (name ++ ".git") = name.
Proof.
  revert fuel. induction name as [|c name IH]; intros fuel Hc Hf.
  - destruct fuel as [|fuel]; [simpl in Hf; lia|].
    cbn. destruct fuel; reflexivity.
  - destruct fuel as [|fuel]; [simpl in Hf; lia|].
    cbn [PyStr.contains] in Hc. apply orb_false_iff in Hc.
    destruct Hc as [Hs Hc].
    cbn [PyStr.remove_all_fuel append].
    change (String c (name ++ ".git")) with (String c name ++ ".git")%string.
    rewrite (startswith_dot_git_append (s := String c name));
      [|discriminate|exact Hs].
    cbn [append]. rewrite IH; [reflexivity | exact Hc |].
    simpl in Hf. lia.
Qed.

(** X27: the directory of a repository.  For a URL that ends in
    [/name.git], where [name] holds no slash and no [.git], the GitHub
    script works in the directory [name]: whatever precedes the last slash
    (host, organisation) plays no part, so that repositories of the same
    name share a directory. *)
Theorem repo_name_of_url (pre name : string) :
  PyStr.mem PyStr.slash name = false ->
  PyStr.contains ".git" name = false ->
  GitHub.repo_name_of (pre ++ "/" ++ name ++ ".git") = name.
Proof.
  intros Hs Hg. unfold GitHub.repo_name_of.
  rewrite last_part_split.
  - unfold PyStr.remove_all. apply remove_dot_git_suffix; [exact Hg | lia].
  - rewrite mem_append, Hs. reflexivity.
Qed.

Lemma repo_name_of_url_witness :
  GitHub.repo_name_of "git@github.com:acme/api.git" = "api"
  /\ GitHub.repo_name_of "https://github.com/acme/api.git" = "api".
Proof.
  split.
  - exact (@repo_name_of_url "git@github.com:acme" "api" eq_refl eq_refl).
  - exact (@repo_name_of_url "https://github.com/acme" "api" eq_refl eq_refl).
Defined.

(** ** The GitHub listing *)

Section GitHubListing.

Import GitHubApi.

Variable W : Type.
Variable http : Http W.
Variable token : option string.

Lemma gets_app (t1 t2 : list io) : gets (t1 ++ t2) = gets t1 ++ gets t2.
Proof.
  induction t1 as [|[r|s] t1 IH]; simpl; [reflexivity| |exact IH].
  rewrite IH. reflexivity.
Qed.

Lemma listing_last_request (org : string) (fuel : nat) (repos : list string)
      (page : Z) (r : response + failure) (w w' : W) :
  requests_get http (page_request token org page) w = (r, w') ->
  ends_listing r ->
  exists t,
    get_repositories_from http token (S fuel) org repos page w
    = (Return repos, w', t)
    /\ gets t = [page_request token org page].
Proof.
  intros Hr He. cbn [get_repositories_from]. cbv zeta. rewrite Hr.
  destruct r as [resp|f]; cbn [ends_listing] in He.
  - destruct (json resp) as [doc|f].
    + destruct (Z.eqb_spec (status_code resp) 200) as [E|E]; cbn [negb].
      * destruct He as [He|He]; [contradiction|]. rewrite He. cbn.
        eexists. split; reflexivity.
      * eexists. split; reflexivity.
    + destruct (negb (status_code resp =? 200)%Z);
        destruct f; try contradiction; cbn; eexists; split; reflexivity.
  - destruct f; try contradiction; cbn; eexists; split; reflexivity.
Qed.

Lemma listing_run (org : string) (pages : list (list Repo)) (page : Z)
      (w w1 : W) :
  full_pages http token org page w pages w1 ->
  forall (fuel : nat) (repos : list string) (r : response + failure) (w2 : W),
    requests_get http (page_request token org (page + len pages)) w1
    = (r, w2) ->
    ends_listing r ->
    List.length pages < fuel ->
    exists t,
      get_repositories_from http token fuel org repos page w
      = (Return (repos ++ List.concat (map ssh_urls pages)), w2, t)
      /\ gets t
         = map (page_request token org)
               (page_numbers page (S (List.length pages))).
Proof.
  induction 1 as [page w|page w w1 w2 resp doc rest Hget Hst Hjs Hne Hrest IH];
    intros fuel repos r w3 Hr He Hf.
  - destruct fuel as [|fuel]; [simpl in Hf; lia|].
    unfold len in Hr. cbn [List.length] in Hr.
    replace (page + Z.of_nat 0)%Z with page in Hr by lia.
    destruct (@listing_last_request org fuel repos page r w w3 Hr He)
      as [t [Ht Hg]].
    exists t. cbn [map List.concat]. rewrite app_nil_r. auto.
  - destruct fuel as [|fuel]; [simpl in Hf; lia|].
    assert (Hr' : requests_get http
                    (page_request token org (page + 1 + len rest)) w2
                  = (r, w3)).
    { rewrite <- Hr. f_equal. f_equal. unfold len. cbn [List.length]. lia. }
    destruct (IH fuel (repos ++ ssh_urls (items doc)) r w3 Hr' He
                 ltac:(simpl in Hf; lia)) as [t [Ht Hg]].
    exists (Get (page_request token org page) :: t). split.
    + cbn [get_repositories_from]. cbv zeta. rewrite Hget, Hst, Hjs.
      cbn [Z.eqb Pos.eqb negb].
      destruct (items doc) as [|x l] eqn:Ei; [contradiction|].
      cbn [nonempty negb]. rewrite Ht. cbn [map List.concat].
      rewrite app_assoc. reflexivity.
    + cbn [gets]. rewrite Hg. reflexivity.
Qed.

Lemma listing_endless (org : string) :
  (forall rq w, exists resp doc w',
        requests_get http rq w = (inl resp, w')
        /\ status_code resp = 200%Z
        /\ json resp = inl doc
        /\ items doc <> []) ->
  forall (fuel : nat) (repos : list string) (page : Z) (w : W),
  exists w' t,
    get_repositories_from http token fuel org repos page w
    = (OutOfFuel, w', t)
    /\ gets t = map (page_request token org) (page_numbers page fuel).
Proof.
  intros Hserve fuel.
  induction fuel as [|fuel IH]; intros repos page w.
  - exists w, []. split; reflexivity.
  - destruct (Hserve (page_request token org page) w)
      as [resp [doc [w1 [Hget [Hst [Hjs Hne]]]]]].
    destruct (IH (repos ++ ssh_urls (items doc)) (page + 1)%Z w1)
      as [w2 [t [Ht Hg]]].
    exists w2, (Get (page_request token org page) :: t). split.
    + cbn [get_repositories_from]. cbv zeta. rewrite Hget, Hst, Hjs.
      cbn [Z.eqb Pos.eqb negb].
      destruct (items doc) as [|x l] eqn:Ei; [contradiction|].
      cbn [nonempty negb]. rewrite Ht. reflexivity.
    + cbn [gets page_numbers map]. rewrite Hg. reflexivity.
Qed.

End GitHubListing.

(** X28: a failed GitHub listing looks like a complete one.  After any
    number of full pages, the listing ends in the same way on an empty
    page, on a status other than 200, on a timeout and on any other
    exception of the HTTP library: [get_repositories] returns the SSH URLs
    of the private and internal repositories of the pages read so far,
    having sent one request per page read and one more, and raises
    nothing. *)
Theorem github_listing_hides_failures
        {W} (http : GitHubApi.Http W) (token : option string) (org : string)
        (pages : list (list GitHubApi.Repo))
        (r : GitHubApi.response + GitHubApi.failure)
        (fuel : nat) (w w1 w2 : W) :
  GitHubApi.full_pages http token org 1 w pages w1 ->
  GitHubApi.requests_get http
    (GitHubApi.page_request token org (1 + len pages)) w1 = (r, w2) ->
  GitHubApi.ends_listing r ->
  List.length pages < fuel ->
  exists t,
    GitHubApi.get_repositories http token fuel org w
    = (Return (List.concat (map GitHubApi.ssh_urls pages)), w2, t)
    /\ GitHubApi.gets t
       = map (GitHubApi.page_request token org)
             (page_numbers 1 (S (List.length pages))).
Proof.
  intros Hp Hr He Hf. unfold GitHubApi.get_repositories.
  destruct (@listing_run W http token org pages 1%Z w w1 Hp fuel [] r w2
                         Hr He Hf) as [t [Ht Hg]].
  exists t. split; [exact Ht | exact Hg].
Qed.

Lemma github_listing_hides_failures_witness :
  exists t,
    GitHubApi.get_repositories
      (GitHubApi.http_acme (inr GitHubApi.Timeout)) (Some "secret") 5 "acme" tt
    = (Return ["git@github.com:acme/api.git"; "git@github.com:acme/web.git"],
       tt, t)
    /\ GitHubApi.gets t
       = map (GitHubApi.page_request (Some "secret") "acme") [1%Z; 2%Z].
Proof.
  refine (@github_listing_hides_failures
            unit (GitHubApi.http_acme (inr GitHubApi.Timeout)) (Some "secret")
            "acme" [GitHubApi.acme_page] (inr GitHubApi.Timeout) 5 tt tt tt
            _ eq_refl I _).
  - refine (@GitHubApi.full_cons
              unit (GitHubApi.http_acme (inr GitHubApi.Timeout))
              (Some "secret") "acme" 1%Z tt tt tt
              {| GitHubApi.status_code := 200;
                 GitHubApi.json :=
                   inl {| GitHubApi.shown := "[...]";
                          GitHubApi.items := GitHubApi.acme_page |} |}
              {| GitHubApi.shown := "[...]";
                 GitHubApi.items := GitHubApi.acme_page |}
              [] eq_refl eq_refl eq_refl _ (GitHubApi.full_nil _ _ _ _ _)).
    discriminate.
  - simpl. lia.
Defined.

(** X29: the GitHub listing has no page cap.  Against a server that has a
    non-empty page for every request, [get_repositories] has not returned
    after any number of rounds, and has then asked for the pages 1, 2,
    ..., one per round. *)
Theorem github_listing_has_no_page_cap
        {W} (http : GitHubApi.Http W) (token : option string) (org : string)
        (fuel : nat) (w : W) :
  (forall rq w0, exists resp doc w1,
        GitHubApi.requests_get http rq w0 = (inl resp, w1)
        /\ GitHubApi.status_code resp = 200%Z
        /\ GitHubApi.json resp = inl doc
        /\ GitHubApi.items doc <> []) ->
  exists w' t,
    GitHubApi.get_repositories http token fuel org w = (OutOfFuel, w', t)
    /\ GitHubApi.gets t
       = map (GitHubApi.page_request token org) (page_numbers 1 fuel).
Proof.
  intros Hserve. unfold GitHubApi.get_repositories.
  apply listing_endless. exact Hserve.
Qed.

Lemma github_listing_has_no_page_cap_witness :
  exists w' t,
    GitHubApi.get_repositories GitHubApi.http_endless None 1200 "acme" tt
    = (OutOfFuel, w', t)
    /\ GitHubApi.gets t
       = map (GitHubApi.page_request None "acme") (page_numbers 1 1200).
Proof.
  apply (@github_listing_has_no_page_cap unit GitHubApi.http_endless None
                                         "acme" 1200 tt).
  intros rq [].
  exists {| GitHubApi.status_code := 200;
            GitHubApi.json :=
              inl {| GitHubApi.shown := "[...]";
                     GitHubApi.items := GitHubApi.acme_page |} |},
         {| GitHubApi.shown := "[...]";
            GitHubApi.items := GitHubApi.acme_page |}, tt.
  split; [reflexivity|]. split; [reflexivity|]. split; [reflexivity|].
  discriminate.
Defined.

(** ** The older GitLab script *)

Lemma clone_each_app (dir : string) (l1 l2 : list CloneScript.project) :
  fst (CloneScript.clone_each dir l1) = Return tt ->
  CloneScript.clone_each dir (l1 ++ l2)
  = (fst (CloneScript.clone_each dir l2),
     snd (CloneScript.clone_each dir l1)
     ++ snd (CloneScript.clone_each dir l2)).
Proof.
  induction l1 as [|p l1 IH]; intros H.
  - simpl. destruct (CloneScript.clone_each dir l2). reflexivity.
  - cbn [app CloneScript.clone_each] in *.
    destruct (CloneScript.clone_one dir p) as [[[]|e| |] t];
      try discriminate H.
    destruct (CloneScript.clone_each dir l1) as [o1 t1].
    cbn [fst snd] in *. rewrite (IH H).
    rewrite app_assoc. reflexivity.
Qed.

Lemma systems_app (t1 t2 : list CloneScript.out) :
  CloneScript.systems (t1 ++ t2)
  = CloneScript.systems t1 ++ CloneScript.systems t2.
Proof.
  induction t1 as [|[s|c] t1 IH]; simpl; [reflexivity|exact IH|].
  rewrite IH. reflexivity.
Qed.

(** X30: one repository without commits stops the older script.  When
    the projects before it went through, a selected project (group
    namespace, not excluded) whose default branch is [None] makes
    [gitlab-clone-repos.py] end with a [TypeError] after its four printed
    lines: no shell command is run for it, and none for any project
    listed after it. *)
Theorem clone_script_stops_at_empty_repository
        (current_dir : string) (before after : list CloneScript.project)
        (p : CloneScript.project) :
  fst (CloneScript.script current_dir (inl before)) = Return tt ->
  CloneScript.selected p = true ->
  CloneScript.default_branch p = None ->
  fst (CloneScript.script current_dir (inl (before ++ p :: after)))
  = Raise (OtherException "TypeError")
  /\ CloneScript.systems
       (snd (CloneScript.script current_dir (inl (before ++ p :: after))))
     = CloneScript.systems
         (snd (CloneScript.script current_dir (inl before))).
Proof.
  unfold CloneScript.script. intros Hb Hs Hd.
  rewrite (clone_each_app _ _ (p :: after) Hb).
  assert (Hp : CloneScript.clone_each (current_dir ++ "/gitlab-tl-ash1")
                                      (p :: after)
               = (Raise (OtherException "TypeError"),
                  [CloneScript.Printed (CloneScript.times "=" 75);
                   CloneScript.Printed (CloneScript.name p);
                   CloneScript.Printed
                     (Namespace.full_path (CloneScript.namespace p));
                   CloneScript.Printed (CloneScript.ssh_url_to_repo p)])).
  { cbn [CloneScript.clone_each]. unfold CloneScript.clone_one.
    unfold CloneScript.selected in Hs.
    apply andb_true_iff in Hs. destruct Hs as [Hk Hr].
    rewrite Hk, Hr, Hd. reflexivity. }
  rewrite Hp. cbn [fst snd]. split; [reflexivity|].
  rewrite systems_app. cbn. apply app_nil_r.
Qed.

Lemma clone_script_stops_at_empty_repository_witness :
  fst (CloneScript.script
         "/home/me"
         (inl [CloneScript.group_project "api" (Some "main");
               CloneScript.group_project "empty" None;
               CloneScript.group_project "web" (Some "main")]))
  = Raise (OtherException "TypeError")
  /\ List.length
       (CloneScript.systems
          (snd (CloneScript.script
                  "/home/me"
                  (inl [CloneScript.group_project "api" (Some "main");
                        CloneScript.group_project "empty" None;
                        CloneScript.group_project "web" (Some "main")]))))
     = 1.
Proof.
  destruct (@clone_script_stops_at_empty_repository
              "/home/me"
              [CloneScript.group_project "api" (Some "main")]
              [CloneScript.group_project "web" (Some "main")]
              (CloneScript.group_project "empty" None)
              eq_refl eq_refl eq_refl) as [Ho Hs].
  split; [exact Ho|].
  cbn [app] in Hs. rewrite Hs. reflexivity.
Defined.
